(** * AirMouse: the gesture-to-pointer control engine

    A shallow embedding of [HandMouseController] from [MainV1.py]
    (weighted-moving-average smoothing) and [mouse9.py] (adaptive move
    duration), and the properties of its per-frame logic.

    Conventions of the embedding.
    - Python [int] is [Z].  Python [float] is modelled by the exact
      rationals [Q]: every arithmetic operation is the exact one, so
      rounding error, NaN and infinities are outside the model.  Equality
      of floats is [Qeq] ([==]).  [round(x, 3)] is taken on the exact
      value; the float of the program can lie on the other side of a tie
      and round to the other neighbouring thousandth, so no property is
      stated that depends on the way a tie goes.
    - [math.sqrt] is a parameter [sqrt : Q -> Q] of the development; no
      property of it is assumed.
    - One iteration of the [while] loop of [run], for a frame that was read
      successfully, is a computation in a small monad that threads the
      controller object, logs the calls made to [pyautogui] and may raise
      [ZeroDivisionError].  Calls to [pyautogui] are taken to succeed. *)

From Stdlib Require Import ZArith QArith Qround Qabs List Bool Lia Lqa.
Import ListNotations.

Open Scope Z_scope.

(** ** Python numbers *)

Module Py.

(** [a < b] on floats (and mixed int/float operands). *)
Definition ltb (a b : Q) : bool := negb (Qle_bool b a).

(** [max(a, b)]: the first argument unless the second is greater. *)
Definition max (a b : Q) : Q := if ltb a b then b else a.

(** [min(a, b)]: the first argument unless the second is smaller. *)
Definition min (a b : Q) : Q := if ltb b a then b else a.

(** [int(x)]: truncation toward zero. *)
Definition int (x : Q) : Z := Z.quot (Qnum x) (Zpos (Qden x)).

(** Rounding to the nearest integer, ties to the even one. *)
Definition round_half_even (x : Q) : Z :=
let f := Qfloor x in
let r := (x - inject_Z f)%Q in
if ltb r (1 # 2) then f
else if ltb (1 # 2) r then f + 1
else if Z.even f then f else f + 1.

(** [round(x, 3)] of the exact value: the nearest thousandth, a tie going
    to the even one.  The float the program rounds only approximates the
    exact value, so at an exact tie the program may come out on either
    side; the properties below rely on the rounding being to a nearest
    thousandth and monotone, never on which way a tie goes. *)
Definition round3 (x : Q) : Q :=
(inject_Z (round_half_even (x * 1000)) / 1000)%Q.

End Py.

(** ** Calls to the pointer injector *)

Inductive Button := left | right.

Inductive Command :=
| moveTo (x y : Z) (duration : Q)
| scroll (clicks : Z)
| mouseDown (button : Button)
| mouseUp (button : Button).

Inductive Exception := ZeroDivisionError.

(** ** The monad of one loop iteration *)

Inductive result (A : Type) :=
| Ok (a : A)
| Raise (e : Exception).
Arguments Ok {A} a.
Arguments Raise {A} e.

Section Monad.
Variable St : Type.

(** A computation takes the object before, and gives its outcome, the
    object after and the calls it made, oldest first.  After [Raise] the
    mutations and calls made so far stay. *)
Definition M (A : Type) : Type := St -> result A * St * list Command.

Definition ret {A} (a : A) : M A := fun s => (Ok a, s, []).

Definition bind {A B} (m : M A) (k : A -> M B) : M B :=
  fun s =>
    match m s with
    | (Ok a, s1, out1) =>
        match k a s1 with
        | (r, s2, out2) => (r, s2, out1 ++ out2)
        end
    | (Raise e, s1, out1) => (Raise e, s1, out1)
    end.

Definition raise {A} (e : Exception) : M A := fun s => (Raise e, s, []).
Definition gets {A} (f : St -> A) : M A := fun s => (Ok (f s), s, []).
Definition modify (f : St -> St) : M unit := fun s => (Ok tt, f s, []).
Definition emit (c : Command) : M unit := fun s => (Ok tt, s, [c]).

(** [a / b] on numbers. *)
Definition truediv (a b : Q) : M Q :=
  if Qeq_bool b 0 then raise ZeroDivisionError else ret (a / b)%Q.
End Monad.

Arguments ret {St A} a.
Arguments bind {St A B} m k.
Arguments raise {St A} e.
Arguments gets {St A} f.
Arguments modify {St} f.
Arguments emit {St} c.
Arguments truediv {St} a b.

Notation "x <- m ;; k" := (bind m (fun x => k))
  (at level 61, m at next level, right associativity).
Notation "' pat <- m ;; k" := (bind m (fun x => match x with pat => k end))
  (at level 61, pat pattern, m at next level, right associativity).
Notation "m ;; k" := (bind m (fun _ => k))
  (at level 61, right associativity).

(** Reading the outcome of a computation, or of the loop. *)
Definition outcome {St A O} (r : result A * St * O) : result A :=
  fst (fst r).
Definition final {St A O} (r : result A * St * O) : St :=
  snd (fst r).
Definition calls {St A O} (r : result A * St * O) : O :=
  snd r.

(** ** Data model *)

(** One landmark of the detector, normalised to the frame ([z] is unused). *)
Record NormalizedLandmark := { x : Q; y : Q }.

(** The landmarks of one hand.  The detector always supplies its 21 points,
    so indexing by the constants 4, 6, 8, 10 and 12 is total. *)
Record NormalizedLandmarkList := { landmark : nat -> NormalizedLandmark }.

(** What one loop iteration sees of a frame that was read: [frame.shape] and
    the first hand of [result.multi_hand_landmarks], if any. *)
Record Frame := {
  frame_width : Z;
  frame_height : Z;
  multi_hand_landmarks : option NormalizedLandmarkList
}.

(** The attributes of [self] set by [__init__].  [smooth_queue] exists in
    [MainV1.py] only; the last five exist in [mouse9.py] only. *)
Record HandMouseController := {
  enabled : bool;
  screen_width : Z;
  screen_height : Z;
  smooth_queue : list (Z * Z);
  left_button_down : bool;
  right_button_down : bool;
  scroll_y_prev : option Z;
  scroll_mode : bool;
  left_click_threshold : Z;
  right_click_threshold : Z;
  scroll_threshold : Z;
  scroll_sensitivity : Z;
  scroll_multiplier : Z;
  margin : Z;
  start_smooth_distance : Z;
  min_distance : Z;
  max_distance : Z;
  min_smoothing : Q;
  max_smoothing : Q
}.

(** Assignments to the attributes a loop iteration writes, and to [enabled],
    which the hotkey listener writes. *)
Definition set_smooth_queue (v : list (Z * Z)) (self : HandMouseController) :=
  {| enabled := enabled self; screen_width := screen_width self;
     screen_height := screen_height self; smooth_queue := v;
     left_button_down := left_button_down self;
     right_button_down := right_button_down self;
     scroll_y_prev := scroll_y_prev self; scroll_mode := scroll_mode self;
     left_click_threshold := left_click_threshold self;
     right_click_threshold := right_click_threshold self;
     scroll_threshold := scroll_threshold self;
     scroll_sensitivity := scroll_sensitivity self;
     scroll_multiplier := scroll_multiplier self; margin := margin self;
     start_smooth_distance := start_smooth_distance self;
     min_distance := min_distance self; max_distance := max_distance self;
     min_smoothing := min_smoothing self;
     max_smoothing := max_smoothing self |}.

Definition set_enabled (v : bool) (self : HandMouseController) :=
  {| enabled := v; screen_width := screen_width self;
     screen_height := screen_height self; smooth_queue := smooth_queue self;
     left_button_down := left_button_down self;
     right_button_down := right_button_down self;
     scroll_y_prev := scroll_y_prev self; scroll_mode := scroll_mode self;
     left_click_threshold := left_click_threshold self;
     right_click_threshold := right_click_threshold self;
     scroll_threshold := scroll_threshold self;
     scroll_sensitivity := scroll_sensitivity self;
     scroll_multiplier := scroll_multiplier self; margin := margin self;
     start_smooth_distance := start_smooth_distance self;
     min_distance := min_distance self; max_distance := max_distance self;
     min_smoothing := min_smoothing self;
     max_smoothing := max_smoothing self |}.

Definition set_left_button_down (v : bool) (self : HandMouseController) :=
  {| enabled := enabled self; screen_width := screen_width self;
     screen_height := screen_height self; smooth_queue := smooth_queue self;
     left_button_down := v;
     right_button_down := right_button_down self;
     scroll_y_prev := scroll_y_prev self; scroll_mode := scroll_mode self;
     left_click_threshold := left_click_threshold self;
     right_click_threshold := right_click_threshold self;
     scroll_threshold := scroll_threshold self;
     scroll_sensitivity := scroll_sensitivity self;
     scroll_multiplier := scroll_multiplier self; margin := margin self;
     start_smooth_distance := start_smooth_distance self;
     min_distance := min_distance self; max_distance := max_distance self;
     min_smoothing := min_smoothing self;
     max_smoothing := max_smoothing self |}.

Definition set_right_button_down (v : bool) (self : HandMouseController) :=
  {| enabled := enabled self; screen_width := screen_width self;
     screen_height := screen_height self; smooth_queue := smooth_queue self;
     left_button_down := left_button_down self;
     right_button_down := v;
     scroll_y_prev := scroll_y_prev self; scroll_mode := scroll_mode self;
     left_click_threshold := left_click_threshold self;
     right_click_threshold := right_click_threshold self;
     scroll_threshold := scroll_threshold self;
     scroll_sensitivity := scroll_sensitivity self;
     scroll_multiplier := scroll_multiplier self; margin := margin self;
     start_smooth_distance := start_smooth_distance self;
     min_distance := min_distance self; max_distance := max_distance self;
     min_smoothing := min_smoothing self;
     max_smoothing := max_smoothing self |}.

Definition set_scroll_y_prev (v : option Z) (self : HandMouseController) :=
  {| enabled := enabled self; screen_width := screen_width self;
     screen_height := screen_height self; smooth_queue := smooth_queue self;
     left_button_down := left_button_down self;
     right_button_down := right_button_down self;
     scroll_y_prev := v; scroll_mode := scroll_mode self;
     left_click_threshold := left_click_threshold self;
     right_click_threshold := right_click_threshold self;
     scroll_threshold := scroll_threshold self;
     scroll_sensitivity := scroll_sensitivity self;
     scroll_multiplier := scroll_multiplier self; margin := margin self;
     start_smooth_distance := start_smooth_distance self;
     min_distance := min_distance self; max_distance := max_distance self;
     min_smoothing := min_smoothing self;
     max_smoothing := max_smoothing self |}.

Definition set_scroll_mode (v : bool) (self : HandMouseController) :=
  {| enabled := enabled self; screen_width := screen_width self;
     screen_height := screen_height self; smooth_queue := smooth_queue self;
     left_button_down := left_button_down self;
     right_button_down := right_button_down self;
     scroll_y_prev := scroll_y_prev self; scroll_mode := v;
     left_click_threshold := left_click_threshold self;
     right_click_threshold := right_click_threshold self;
     scroll_threshold := scroll_threshold self;
     scroll_sensitivity := scroll_sensitivity self;
     scroll_multiplier := scroll_multiplier self; margin := margin self;
     start_smooth_distance := start_smooth_distance self;
     min_distance := min_distance self; max_distance := max_distance self;
     min_smoothing := min_smoothing self;
     max_smoothing := max_smoothing self |}.

(** The two forks of the engine. *)
Inductive Variant := MainV1 | mouse9.

(** [deque(maxlen=15).append]: the oldest entries leave on overflow. *)
Definition maxlen : nat := 15.
Definition deque_append {A} (q : list A) (a : A) : list A :=
  let q' := q ++ [a] in skipn (length q' - maxlen) q'.

(** [sum] of a list of ints. *)
Definition sum (l : list Z) : Z := fold_left Z.add l 0.

(** A computation on the controller object. *)
Definition Ctl (A : Type) : Type := M HandMouseController A.

(** ** [smooth_coordinates] ([MainV1.py]) *)
Definition smooth_coordinates (new_x new_y : Z) : Ctl (Z * Z) :=
  modify (fun self =>
    set_smooth_queue (deque_append (smooth_queue self) (new_x, new_y)) self) ;;
  q <- gets smooth_queue ;;
  if (length q =? 0)%nat then ret (new_x, new_y)
  else
    let weights := map Z.of_nat (seq 1 (length q)) in
    let sum_weights := sum weights in
    qx <- truediv
            (inject_Z (sum (map (fun '((x, _), w) => x * w) (combine q weights))))
            (inject_Z sum_weights) ;;
    let avg_x := Py.int qx in
    qy <- truediv
            (inject_Z (sum (map (fun '((_, y), w) => y * w) (combine q weights))))
            (inject_Z sum_weights) ;;
    let avg_y := Py.int qy in
    sw <- gets screen_width ;;
    let avg_x := Z.max 0 (Z.min (sw - 1) avg_x) in
    sh <- gets screen_height ;;
    let avg_y := Z.max 0 (Z.min (sh - 1) avg_y) in
    ret (avg_x, avg_y).

(** ** The blocks of [run] *)

(** "捲動模式判斷": the scroll-mode decision and the scroll command. *)
Definition scroll_block (index_tip : NormalizedLandmark)
    (index_extended middle_extended fingers_close : bool) : Ctl unit :=
  if index_extended && middle_extended && fingers_close then
    modify (set_scroll_mode true) ;;
    sh <- gets screen_height ;;
    let current_scroll_y := Py.int (y index_tip * inject_Z sh) in
    prev <- gets scroll_y_prev ;;
    match prev with
    | Some scroll_y_prev =>
        let delta_y := current_scroll_y - scroll_y_prev in
        threshold <- gets scroll_threshold ;;
        en <- gets enabled ;;
        if (Z.abs delta_y >? threshold) && en then
          sensitivity <- gets scroll_sensitivity ;;
          q <- truediv (inject_Z delta_y) (inject_Z sensitivity) ;;
          multiplier <- gets scroll_multiplier ;;
          let scroll_amount := Py.int q * multiplier in
          emit (scroll (- scroll_amount))
        else ret tt
    | None => ret tt
    end ;;
    modify (set_scroll_y_prev (Some current_scroll_y))
  else
    modify (set_scroll_mode false) ;;
    modify (set_scroll_y_prev None).

(** "動態計算平滑度" ([mouse9.py]): the smoothing factor from the thumb-index
    distance. *)
Definition adaptive_smoothing (thumb_index_dist : Q) : Ctl Q :=
  start <- gets start_smooth_distance ;;
  smoothing <-
    (if Py.ltb (inject_Z start) thumb_index_dist then ret (1 # 100)%Q
     else
       min_d <- gets min_distance ;;
       if Py.ltb thumb_index_dist (inject_Z min_d) then gets max_smoothing
       else
         ratio <- truediv (inject_Z start - thumb_index_dist)
                          (inject_Z (start - min_d)) ;;
         lo <- gets min_smoothing ;;
         hi <- gets max_smoothing ;;
         let smoothing := (lo + ratio * (hi - lo))%Q in
         ret (Py.round3 smoothing)) ;;
  lo <- gets min_smoothing ;;
  hi <- gets max_smoothing ;;
  ret (Py.max lo (Py.min hi smoothing)).

(** "ROI 映射 -> 螢幕": the fingertip in frame pixels, clamped to the
    sensing rectangle and rescaled to the screen. *)
Definition roi_mapping (index_tip : NormalizedLandmark)
    (frame_width frame_height x_min y_min x_max y_max roi_w roi_h : Z)
    : Ctl (Z * Z) :=
  let px := (x index_tip * inject_Z frame_width)%Q in
  let py := (y index_tip * inject_Z frame_height)%Q in
  let px := Py.max (inject_Z x_min) (Py.min (inject_Z x_max) px) in
  let py := Py.max (inject_Z y_min) (Py.min (inject_Z y_max) py) in
  qx <- truediv (px - inject_Z x_min) (inject_Z roi_w) ;;
  sw <- gets screen_width ;;
  let mapped_x := Py.int (qx * inject_Z sw) in
  qy <- truediv (py - inject_Z y_min) (inject_Z roi_h) ;;
  sh <- gets screen_height ;;
  let mapped_y := Py.int (qy * inject_Z sh) in
  ret (mapped_x, mapped_y).

(** "不在捲動模式才控制滑鼠移動" in [MainV1.py]: the mapped point goes through
    [smooth_coordinates]. *)
Definition move_block_MainV1 (index_tip : NormalizedLandmark)
    (frame_width frame_height x_min y_min x_max y_max roi_w roi_h : Z)
    : Ctl unit :=
  sm <- gets scroll_mode ;;
  if negb sm then
    '(mapped_x, mapped_y) <-
      roi_mapping index_tip frame_width frame_height
                  x_min y_min x_max y_max roi_w roi_h ;;
    '(cursor_x, cursor_y) <- smooth_coordinates mapped_x mapped_y ;;
    en <- gets enabled ;;
    if en then emit (moveTo cursor_x cursor_y (1 # 1000)) else ret tt
  else ret tt.

(** The same block in [mouse9.py]: the mapped point is sent as it is, with
    the smoothing factor as the duration of the move. *)
Definition move_block_mouse9 (smoothing : Q) (index_tip : NormalizedLandmark)
    (frame_width frame_height x_min y_min x_max y_max roi_w roi_h : Z)
    : Ctl unit :=
  sm <- gets scroll_mode ;;
  if negb sm then
    '(mapped_x, mapped_y) <-
      roi_mapping index_tip frame_width frame_height
                  x_min y_min x_max y_max roi_w roi_h ;;
    let duration := smoothing in
    en <- gets enabled ;;
    if en then emit (moveTo mapped_x mapped_y duration) else ret tt
  else ret tt.

(** "判斷左鍵". *)
Definition left_click_block (thumb_index_dist : Q) : Ctl unit :=
  threshold <- gets left_click_threshold ;;
  if Py.ltb thumb_index_dist (inject_Z threshold) then
    down <- gets left_button_down ;;
    en <- gets enabled ;;
    if negb down && en then
      emit (mouseDown left) ;; modify (set_left_button_down true)
    else ret tt
  else
    down <- gets left_button_down ;;
    en <- gets enabled ;;
    if down && en then
      emit (mouseUp left) ;; modify (set_left_button_down false)
    else ret tt.

(** "判斷右鍵". *)
Definition right_click_block (thumb_index_dist thumb_middle_dist close_dist : Q)
    : Ctl unit :=
  threshold <- gets right_click_threshold ;;
  if Py.ltb thumb_index_dist (inject_Z threshold)
     && Py.ltb thumb_middle_dist (inject_Z threshold)
     && Py.ltb close_dist (inject_Z threshold) then
    down <- gets right_button_down ;;
    en <- gets enabled ;;
    if negb down && en then
      emit (mouseDown right) ;; modify (set_right_button_down true)
    else ret tt
  else
    down <- gets right_button_down ;;
    en <- gets enabled ;;
    if down && en then
      emit (mouseUp right) ;; modify (set_right_button_down false)
    else ret tt.

(** What stands between the scroll block and the click blocks: in
    [MainV1.py] the move block alone, in [mouse9.py] the smoothing factor and
    then the move block. *)
Definition smooth_and_move (v : Variant) (thumb_index_dist : Q)
    (index_tip : NormalizedLandmark)
    (frame_width frame_height x_min y_min x_max y_max roi_w roi_h : Z)
    : Ctl unit :=
  match v with
  | MainV1 =>
      move_block_MainV1 index_tip frame_width frame_height
                        x_min y_min x_max y_max roi_w roi_h
  | mouse9 =>
      smoothing <- adaptive_smoothing thumb_index_dist ;;
      move_block_mouse9 smoothing index_tip frame_width frame_height
                        x_min y_min x_max y_max roi_w roi_h
  end.

(** The two click blocks, left before right. *)
Definition click_blocks (thumb_index_dist thumb_middle_dist close_dist : Q)
    : Ctl unit :=
  left_click_block thumb_index_dist ;;
  right_click_block thumb_index_dist thumb_middle_dist close_dist.

(** ** One loop iteration, and the loop *)

Section Engine.
(** [math.sqrt]. *)
Variable sqrt : Q -> Q.

Definition calculate_distance (point1 point2 : NormalizedLandmark) : Q :=
  sqrt ((x point1 - x point2) ^ 2 + (y point1 - y point2) ^ 2)%Q.

Definition is_finger_extended (hand_landmarks : NormalizedLandmarkList)
    (finger_tip_id finger_pip_id : nat) : bool :=
  Py.ltb (y (landmark hand_landmarks finger_tip_id))
         (y (landmark hand_landmarks finger_pip_id)).

(** The pixel distances [run] derives from a hand. *)
Definition thumb_index_dist_of (frame : Frame)
    (hand_landmarks : NormalizedLandmarkList) : Q :=
  (calculate_distance (landmark hand_landmarks 4) (landmark hand_landmarks 8)
   * inject_Z (frame_width frame))%Q.

Definition thumb_middle_dist_of (frame : Frame)
    (hand_landmarks : NormalizedLandmarkList) : Q :=
  (calculate_distance (landmark hand_landmarks 4) (landmark hand_landmarks 12)
   * inject_Z (frame_width frame))%Q.

Definition close_dist_of (frame : Frame)
    (hand_landmarks : NormalizedLandmarkList) : Q :=
  (calculate_distance (landmark hand_landmarks 8) (landmark hand_landmarks 12)
   * inject_Z (frame_width frame))%Q.

(** The scroll gesture: index and middle finger extended and close. *)
Definition scroll_gesture (frame : Frame)
    (hand_landmarks : NormalizedLandmarkList) : bool :=
  is_finger_extended hand_landmarks 8 6
  && is_finger_extended hand_landmarks 12 10
  && Py.ltb (close_dist_of frame hand_landmarks) 30.

(** A frame with a hand whose thumb and index tips are [d] pixels apart. *)
Definition shows (frame : Frame) (d : Q) : Prop :=
  exists hand_landmarks,
    multi_hand_landmarks frame = Some hand_landmarks
    /\ (thumb_index_dist_of frame hand_landmarks == d)%Q.

(** The body of the [while] loop of [run] after a successful
    [cap.read()], without the drawing. *)
Definition run_frame (v : Variant) (frame : Frame) : Ctl unit :=
  let frame_height := frame_height frame in
  let frame_width := frame_width frame in
  m <- gets margin ;;
  let x_min := m in
  let y_min := m in
  let x_max := frame_width - m in
  let y_max := frame_height - m in
  let roi_w := x_max - x_min in
  let roi_h := y_max - y_min in
  match multi_hand_landmarks frame with
  | Some hand_landmarks =>
      let thumb_tip := landmark hand_landmarks 4 in
      let index_tip := landmark hand_landmarks 8 in
      let middle_tip := landmark hand_landmarks 12 in
      let index_extended := is_finger_extended hand_landmarks 8 6 in
      let middle_extended := is_finger_extended hand_landmarks 12 10 in
      let close_dist :=
        (calculate_distance index_tip middle_tip * inject_Z frame_width)%Q in
      let fingers_close := Py.ltb close_dist 30 in
      scroll_block index_tip index_extended middle_extended fingers_close ;;
      let thumb_index_dist :=
        (calculate_distance thumb_tip index_tip * inject_Z frame_width)%Q in
      smooth_and_move v thumb_index_dist index_tip frame_width frame_height
                      x_min y_min x_max y_max roi_w roi_h ;;
      let thumb_middle_dist :=
        (calculate_distance thumb_tip middle_tip * inject_Z frame_width)%Q in
      click_blocks thumb_index_dist thumb_middle_dist close_dist
  | None => ret tt
  end.

(** The loop over the frames read.  The hotkey listener may have toggled
    [enabled] before each frame, so every frame comes with the value of
    the flag it is processed under.  The result lists the calls of each
    frame, and the loop ends with the first exception. *)
Fixpoint run (v : Variant) (frames : list (bool * Frame))
    (self : HandMouseController)
    : result unit * HandMouseController * list (list Command) :=
  match frames with
  | [] => (Ok tt, self, [])
  | (en, frame) :: rest =>
      match run_frame v frame (set_enabled en self) with
      | (Ok _, self', out) =>
          match run v rest self' with
          | (r, self'', outs) => (r, self'', out :: outs)
          end
      | (Raise e, self', out) => (Raise e, self', [out])
      end
  end.
End Engine.

(** ** The objects [__init__] builds, and sample inputs *)

(** [__init__] of each fork; the screen size is what [pyautogui.size()]
    returned.  The attributes of the other fork get the values it gives them. *)
Definition init (v : Variant) (width height : Z) : HandMouseController :=
  {| enabled := true;
     screen_width := width;
     screen_height := height;
     smooth_queue := [];
     left_button_down := false;
     right_button_down := false;
     scroll_y_prev := None;
     scroll_mode := false;
     left_click_threshold := 30;
     right_click_threshold := 30;
     scroll_threshold := 5;
     scroll_sensitivity := match v with MainV1 => 5 | mouse9 => 1 end;
     scroll_multiplier := 4;
     margin := 100;
     start_smooth_distance := 200;
     min_distance := 60;
     max_distance := 200;
     min_smoothing := 1 # 100;
     max_smoothing := 5 # 100 |}.

Module Sample.

(** A square root that is exact on the squares of fractions, enough to
    run the engine on hands whose fingertips lie on a horizontal or
    vertical line. *)
Definition sqrt (q : Q) : Q := Z.sqrt (Qnum q) # Pos.sqrt (Qden q).

Definition point (a b : Q) : NormalizedLandmark := {| x := a; y := b |}.

(** A hand given by its thumb tip (4), index tip (8) and middle tip (12);
    every other landmark, the joints 6 and 10 among them, is the origin,
    so no finger counts as extended. *)
Definition hand (thumb_tip index_tip middle_tip : NormalizedLandmark)
    : NormalizedLandmarkList :=
  {| landmark := fun i =>
       match i with
       | 4%nat => thumb_tip
       | 8%nat => index_tip
       | 12%nat => middle_tip
       | _ => point 0 0
       end |}.

(** A hand making the scroll gesture: index and middle tip side by side
    at height [h], above their joints at the bottom of the frame. *)
Definition scroll_hand (h : Q) : NormalizedLandmarkList :=
  {| landmark := fun i =>
       match i with
       | 8%nat => point (1 # 2) h
       | 12%nat => point (1 # 2) h
       | 6%nat => point (1 # 2) 1
       | 10%nat => point (1 # 2) 1
       | _ => point 0 0
       end |}.

(** An open hand: the four fingertips at height [h] above their joints at
    the bottom of the frame, index and middle tip side by side. *)
Definition open_hand (h : Q) : NormalizedLandmarkList :=
  {| landmark := fun i =>
       match i with
       | 8%nat => point (1 # 2) h
       | 12%nat => point (1 # 2) h
       | 16%nat => point (5 # 8) h
       | 20%nat => point (3 # 4) h
       | 6%nat => point (1 # 2) 1
       | 10%nat => point (1 # 2) 1
       | 14%nat => point (5 # 8) 1
       | 18%nat => point (3 # 4) 1
       | _ => point 0 0
       end |}.

(** A 640 x 480 camera frame. *)
Definition vga (hand_landmarks : option NormalizedLandmarkList) : Frame :=
  {| frame_width := 640; frame_height := 480;
     multi_hand_landmarks := hand_landmarks |}.

(** A frame of another size. *)
Definition sized (w h : Z) (hand_landmarks : option NormalizedLandmarkList)
    : Frame :=
  {| frame_width := w; frame_height := h;
     multi_hand_landmarks := hand_landmarks |}.

(** A hand in a 640-pixel-wide frame whose thumb and index tips are [d]
    pixels apart, the middle finger far away. *)
Definition pinch (d : Z) : NormalizedLandmarkList :=
  hand (point (1 # 4) (1 # 2)) (point ((1 # 4) + (d # 640)) (1 # 2))
       (point 1 1).

(** The object of [mouse9.py] with a smaller [min_smoothing]. *)
Definition fine : HandMouseController :=
  {| enabled := true; screen_width := 1920; screen_height := 1080;
     smooth_queue := []; left_button_down := false;
     right_button_down := false; scroll_y_prev := None;
     scroll_mode := false; left_click_threshold := 30;
     right_click_threshold := 30; scroll_threshold := 5;
     scroll_sensitivity := 1; scroll_multiplier := 4; margin := 100;
     start_smooth_distance := 200; min_distance := 60;
     max_distance := 200; min_smoothing := 1 # 1000;
     max_smoothing := 5 # 100 |}.

(** The object of [MainV1.py] after the settings window set the scroll
    sensitivity to 20, in scroll mode with the fingertip last seen at
    [previous]. *)
Definition coarse_scroll (previous : Z) : HandMouseController :=
  {| enabled := true; screen_width := 1920; screen_height := 1080;
     smooth_queue := []; left_button_down := false;
     right_button_down := false; scroll_y_prev := Some previous;
     scroll_mode := true; left_click_threshold := 30;
     right_click_threshold := 30; scroll_threshold := 5;
     scroll_sensitivity := 20; scroll_multiplier := 4; margin := 100;
     start_smooth_distance := 200; min_distance := 60;
     max_distance := 200; min_smoothing := 1 # 100;
     max_smoothing := 5 # 100 |}.

End Sample.

(** ** The settings window, the hotkey and the session *)

(** Assignments to the attributes the settings window writes. *)
Definition set_left_click_threshold (v : Z) (self : HandMouseController) :=
  {| enabled := enabled self;
     screen_width := screen_width self;
     screen_height := screen_height self;
     smooth_queue := smooth_queue self;
     left_button_down := left_button_down self;
     right_button_down := right_button_down self;
     scroll_y_prev := scroll_y_prev self;
     scroll_mode := scroll_mode self;
     left_click_threshold := v;
     right_click_threshold := right_click_threshold self;
     scroll_threshold := scroll_threshold self;
     scroll_sensitivity := scroll_sensitivity self;
     scroll_multiplier := scroll_multiplier self;
     margin := margin self;
     start_smooth_distance := start_smooth_distance self;
     min_distance := min_distance self;
     max_distance := max_distance self;
     min_smoothing := min_smoothing self;
     max_smoothing := max_smoothing self |}.

Definition set_right_click_threshold (v : Z) (self : HandMouseController) :=
  {| enabled := enabled self;
     screen_width := screen_width self;
     screen_height := screen_height self;
     smooth_queue := smooth_queue self;
     left_button_down := left_button_down self;
     right_button_down := right_button_down self;
     scroll_y_prev := scroll_y_prev self;
     scroll_mode := scroll_mode self;
     left_click_threshold := left_click_threshold self;
     right_click_threshold := v;
     scroll_threshold := scroll_threshold self;
     scroll_sensitivity := scroll_sensitivity self;
     scroll_multiplier := scroll_multiplier self;
     margin := margin self;
     start_smooth_distance := start_smooth_distance self;
     min_distance := min_distance self;
     max_distance := max_distance self;
     min_smoothing := min_smoothing self;
     max_smoothing := max_smoothing self |}.

Definition set_scroll_sensitivity (v : Z) (self : HandMouseController) :=
  {| enabled := enabled self;
     screen_width := screen_width self;
     screen_height := screen_height self;
     smooth_queue := smooth_queue self;
     left_button_down := left_button_down self;
     right_button_down := right_button_down self;
     scroll_y_prev := scroll_y_prev self;
     scroll_mode := scroll_mode self;
     left_click_threshold := left_click_threshold self;
     right_click_threshold := right_click_threshold self;
     scroll_threshold := scroll_threshold self;
     scroll_sensitivity := v;
     scroll_multiplier := scroll_multiplier self;
     margin := margin self;
     start_smooth_distance := start_smooth_distance self;
     min_distance := min_distance self;
     max_distance := max_distance self;
     min_smoothing := min_smoothing self;
     max_smoothing := max_smoothing self |}.

Definition set_max_smoothing (v : Q) (self : HandMouseController) :=
  {| enabled := enabled self;
     screen_width := screen_width self;
     screen_height := screen_height self;
     smooth_queue := smooth_queue self;
     left_button_down := left_button_down self;
     right_button_down := right_button_down self;
     scroll_y_prev := scroll_y_prev self;
     scroll_mode := scroll_mode self;
     left_click_threshold := left_click_threshold self;
     right_click_threshold := right_click_threshold self;
     scroll_threshold := scroll_threshold self;
     scroll_sensitivity := scroll_sensitivity self;
     scroll_multiplier := scroll_multiplier self;
     margin := margin self;
     start_smooth_distance := start_smooth_distance self;
     min_distance := min_distance self;
     max_distance := max_distance self;
     min_smoothing := min_smoothing self;
     max_smoothing := v |}.

Definition set_min_distance (v : Z) (self : HandMouseController) :=
  {| enabled := enabled self;
     screen_width := screen_width self;
     screen_height := screen_height self;
     smooth_queue := smooth_queue self;
     left_button_down := left_button_down self;
     right_button_down := right_button_down self;
     scroll_y_prev := scroll_y_prev self;
     scroll_mode := scroll_mode self;
     left_click_threshold := left_click_threshold self;
     right_click_threshold := right_click_threshold self;
     scroll_threshold := scroll_threshold self;
     scroll_sensitivity := scroll_sensitivity self;
     scroll_multiplier := scroll_multiplier self;
     margin := margin self;
     start_smooth_distance := start_smooth_distance self;
     min_distance := v;
     max_distance := max_distance self;
     min_smoothing := min_smoothing self;
     max_smoothing := max_smoothing self |}.

Definition set_start_smooth_distance (v : Z) (self : HandMouseController) :=
  {| enabled := enabled self;
     screen_width := screen_width self;
     screen_height := screen_height self;
     smooth_queue := smooth_queue self;
     left_button_down := left_button_down self;
     right_button_down := right_button_down self;
     scroll_y_prev := scroll_y_prev self;
     scroll_mode := scroll_mode self;
     left_click_threshold := left_click_threshold self;
     right_click_threshold := right_click_threshold self;
     scroll_threshold := scroll_threshold self;
     scroll_sensitivity := scroll_sensitivity self;
     scroll_multiplier := scroll_multiplier self;
     margin := margin self;
     start_smooth_distance := v;
     min_distance := min_distance self;
     max_distance := max_distance self;
     min_smoothing := min_smoothing self;
     max_smoothing := max_smoothing self |}.

(** [all_fingers_extended] ([mouse9.py]): index, middle, ring and little
    finger, each tip above its joint. *)
Definition all_fingers_extended (hand_landmarks : NormalizedLandmarkList)
    : bool :=
  let fingers :=
    [ is_finger_extended hand_landmarks 8 6;
      is_finger_extended hand_landmarks 12 10;
      is_finger_extended hand_landmarks 16 14;
      is_finger_extended hand_landmarks 20 18 ]
  in
  forallb (fun b => b) fingers.

(** [toggleEnabled], what Ctrl+Q calls. *)
Definition toggleEnabled (controller : HandMouseController)
    : HandMouseController :=
  set_enabled (negb (enabled controller)) controller.

(** The slots of [MainWindow]. *)
Definition onLeftThresholdChanged (val : Z) (controller : HandMouseController)
    : HandMouseController :=
  set_left_click_threshold val controller.

Definition onRightThresholdChanged (val : Z) (controller : HandMouseController)
    : HandMouseController :=
  set_right_click_threshold val controller.

Definition onScrollSensitivityChanged (val : Z)
    (controller : HandMouseController) : HandMouseController :=
  set_scroll_sensitivity val controller.

Definition onMaxSmoothingChanged (val : Z) (controller : HandMouseController)
    : HandMouseController :=
  set_max_smoothing (inject_Z val / 100) controller.

Definition onMinDistanceChanged (val : Z) (controller : HandMouseController)
    : HandMouseController :=
  set_min_distance val controller.

Definition onStartSmoothDistanceChanged (val : Z)
    (controller : HandMouseController) : HandMouseController :=
  set_start_smooth_distance val controller.

(** The sliders [initUI] builds. *)
Inductive Slider :=
| left_threshold_slider
| right_threshold_slider
| scroll_sens_slider
| max_smoothing_slider
| min_dist_slider
| start_smooth_distance_slider.

(** [MainV1.py] builds the first three only. *)
Definition has_slider (v : Variant) (s : Slider) : bool :=
  match v, s with
  | MainV1, left_threshold_slider
  | MainV1, right_threshold_slider
  | MainV1, scroll_sens_slider => true
  | MainV1, _ => false
  | mouse9, _ => true
  end.

(** The arguments of [setRange]. *)
Definition slider_range (s : Slider) : Z * Z :=
  match s with
  | left_threshold_slider => (10, 100)
  | right_threshold_slider => (10, 100)
  | scroll_sens_slider => (1, 20)
  | max_smoothing_slider => (1, 100)
  | min_dist_slider => (10, 100)
  | start_smooth_distance_slider => (100, 300)
  end.

(** A value the slider can take. *)
Definition in_range (s : Slider) (val : Z) : Prop :=
  fst (slider_range s) <= val <= snd (slider_range s).

(** The slot each slider's [valueChanged] is connected to. *)
Definition valueChanged (s : Slider) (val : Z)
    : HandMouseController -> HandMouseController :=
  match s with
  | left_threshold_slider => onLeftThresholdChanged val
  | right_threshold_slider => onRightThresholdChanged val
  | scroll_sens_slider => onScrollSensitivityChanged val
  | max_smoothing_slider => onMaxSmoothingChanged val
  | min_dist_slider => onMinDistanceChanged val
  | start_smooth_distance_slider => onStartSmoothDistanceChanged val
  end.

(** What happens to the controller between [main] creating it and the
    worker ending: a slider is moved, Ctrl+Q is pressed, a frame is read. *)
Inductive Event :=
| SliderMoved (s : Slider) (val : Z)
| HotkeyPressed
| FrameRead (frame : Frame).

Section Session.
(** [math.sqrt]. *)
Variable sqrt : Q -> Q.

(** The events in the order they reach the controller.  The result lists
    the calls of each frame read; an exception in a frame ends the worker,
    and with it the session. *)
Fixpoint session (v : Variant) (events : list Event)
    (controller : HandMouseController)
    : result unit * HandMouseController * list (list Command) :=
  match events with
  | [] => (Ok tt, controller, [])
  | SliderMoved s val :: rest =>
      session v rest (valueChanged s val controller)
  | HotkeyPressed :: rest => session v rest (toggleEnabled controller)
  | FrameRead frame :: rest =>
      match run_frame sqrt v frame controller with
      | (Ok _, controller', out) =>
          match session v rest controller' with
          | (r, controller'', outs) => (r, controller'', out :: outs)
          end
      | (Raise e, controller', out) => (Raise e, controller', [out])
      end
  end.
End Session.

(** ** Vocabulary of the properties *)

(** The calls that press or release button [b]. *)
Definition is_button (b : Button) (c : Command) : bool :=
  match c, b with
  | mouseDown left, left | mouseUp left, left => true
  | mouseDown right, right | mouseUp right, right => true
  | _, _ => false
  end.

Definition is_scroll (c : Command) : bool :=
  match c with scroll _ => true | _ => false end.

Definition is_move (c : Command) : bool :=
  match c with moveTo _ _ _ => true | _ => false end.

(** The flag of button [b]. *)
Definition button_down (b : Button) (self : HandMouseController) : bool :=
  match b with
  | left => left_button_down self
  | right => right_button_down self
  end.

(** What an edge-triggered button emits when its state goes from [before]
    to [after]: one press on a rise, one release on a fall, nothing
    otherwise. *)
Definition edge (b : Button) (before after : bool) : list Command :=
  if xorb before after
  then [if after then mouseDown b else mouseUp b]
  else [].

(** The state of button [b] after the calls [cmds], when it was [down]
    before them. *)
Fixpoint replay (b : Button) (cmds : list Command) (down : bool) : bool :=
  match cmds with
  | [] => down
  | c :: rest =>
      replay b rest
        (if is_button b c
         then match c with mouseDown _ => true | _ => false end
         else down)
  end.

(** The calls that press or release any button. *)
Definition is_click (c : Command) : bool :=
  is_button left c || is_button right c.

(** What the click blocks read and write of the object. *)
Definition click_view (self : HandMouseController) :=
  (enabled self, left_click_threshold self, right_click_threshold self,
   left_button_down self, right_button_down self).

(** What the scroll block writes. *)
Definition scroll_view (self : HandMouseController) :=
  (scroll_mode self, scroll_y_prev self).

(** The calls, frame by frame, of an edge-triggered left button that is
    down exactly when the distance is below [threshold], over a sequence of
    thumb-index distances. *)
Fixpoint left_trace (threshold : Z) (down : bool) (dists : list Q)
    : list (list Command) :=
  match dists with
  | [] => []
  | d :: rest =>
      let want := Py.ltb d (inject_Z threshold) in
      edge left down want :: left_trace threshold want rest
  end.

(** A computation is quiet for an attribute [f] and a kind of call [P] when
    it leaves [f] as it was and makes no call of that kind. *)
Definition quiet {X A} (f : HandMouseController -> X) (P : Command -> bool)
    (m : Ctl A) : Prop :=
  forall s, f (final (m s)) = f s /\ filter P (calls (m s)) = [].

(** The newest [j] entries of a queue are all [c]. *)
Definition newest_are {A} (c : A) (j : nat) (q : list A) : Prop :=
  Forall (eq c) (firstn j (rev q)).

(** [smooth_coordinates] called on each point of a stream in turn. *)
Fixpoint smooth_stream (points : list (Z * Z)) : Ctl (list (Z * Z)) :=
  match points with
  | [] => ret []
  | (new_x, new_y) :: rest =>
      p <- smooth_coordinates new_x new_y ;;
      ps <- smooth_stream rest ;;
      ret (p :: ps)
  end.

(** The attributes no loop iteration writes. *)
Definition config_view (self : HandMouseController) :=
  (enabled self, screen_width self, screen_height self,
   left_click_threshold self, right_click_threshold self,
   scroll_threshold self, scroll_sensitivity self, scroll_multiplier self,
   margin self,
   (start_smooth_distance self, min_distance self, max_distance self,
    min_smoothing self, max_smoothing self)).

(** A call that, if it is a move, goes to a point of
    [[0, right] x [0, bottom]]. *)
Definition moves_within (right bottom : Z) (c : Command) : Prop :=
  match c with
  | moveTo a b _ => 0 <= a <= right /\ 0 <= b <= bottom
  | _ => True
  end.

(** A call that, if it is a move, lasts between [lo] and [hi]. *)
Definition lasts_within (lo hi : Q) (c : Command) : Prop :=
  match c with
  | moveTo _ _ d => (lo <= d <= hi)%Q
  | _ => True
  end.

(** The values the settings window can give the configuration, with the
    values of [__init__] for what it has no slider for. *)
Definition settings_ok (self : HandMouseController) : Prop :=
  10 <= left_click_threshold self <= 100
  /\ 10 <= right_click_threshold self <= 100
  /\ 1 <= scroll_sensitivity self <= 20
  /\ scroll_threshold self = 5
  /\ scroll_multiplier self = 4
  /\ margin self = 100
  /\ 10 <= min_distance self <= 100
  /\ 100 <= start_smooth_distance self <= 300
  /\ (min_smoothing self == 1 # 100)%Q
  /\ (1 # 100 <= max_smoothing self <= 1)%Q.

(** An event the application can produce: a slider that exists, moved to a
    value of its range. *)
Definition possible (v : Variant) (e : Event) : Prop :=
  match e with
  | SliderMoved s val => has_slider v s = true /\ in_range s val
  | _ => True
  end.

(** [meets Inv Q R t]: the result [t] of a computation ends in a state with
    [Inv], made only calls with [Q], and has an outcome with [R]. *)
Definition meets {A} (Inv : HandMouseController -> Prop) (Q : Command -> Prop)
    (R : result A -> Prop)
    (t : result A * HandMouseController * list Command) : Prop :=
  Inv (final t) /\ Forall Q (calls t) /\ R (outcome t).

(** The triple of a computation: from a state with [Inv] it [meets]
    [Inv], [Q] and [R]. *)
Definition hoare {A} (Inv : HandMouseController -> Prop) (Q : Command -> Prop)
    (m : Ctl A) (R : result A -> Prop) : Prop :=
  forall s, Inv s -> meets Inv Q R (m s).

(** No condition on the outcome. *)
Definition anything {A} (r : result A) : Prop := True.

(** An event that cannot make a division of the loop fail from the
    settings the window allows: a frame that is not exactly two margins
    wide or high, the minimum-distance slider short of its maximum. *)
Definition harmless (e : Event) : Prop :=
  match e with
  | FrameRead frame => frame_width frame <> 200 /\ frame_height frame <> 200
  | SliderMoved min_dist_slider val => val <> 100
  | _ => True
  end.

(** The number of frames among the events. *)
Definition frames_read (events : list Event) : nat :=
  length (filter (fun e => match e with FrameRead _ => true | _ => false end)
                 events).

(** * Properties *)

(** ** Python numbers *)

Lemma ltb_lt a b : Py.ltb a b = true <-> (a < b)%Q.
Proof.
  unfold Py.ltb. rewrite negb_true_iff. split; intro H.
  - apply Qnot_le_lt. intro Hle. apply Qle_bool_iff in Hle. congruence.
  - destruct (Qle_bool b a) eqn:E; [|reflexivity].
    apply Qle_bool_iff in E. lra.
Qed.

Lemma ltb_ge a b : Py.ltb a b = false <-> (b <= a)%Q.
Proof.
  unfold Py.ltb. rewrite negb_false_iff. apply Qle_bool_iff.
Qed.

Lemma ltb_reflect a b : reflect (a < b)%Q (Py.ltb a b).
Proof.
  destruct (Py.ltb a b) eqn:E; constructor.
  - now apply ltb_lt.
  - apply ltb_ge in E. lra.
Qed.

(** Case analysis on every comparison of the goal, innermost first. *)
Ltac cases_ltb :=
  repeat match goal with
    | |- context [Py.ltb ?a ?b] =>
        lazymatch a with
        | context [Py.ltb _ _] => fail
        | _ =>
            lazymatch b with
            | context [Py.ltb _ _] => fail
            | _ => destruct (ltb_reflect a b)
            end
        end
    end.

Lemma clamp_bounds lo hi q :
  (lo <= hi)%Q -> (lo <= Py.max lo (Py.min hi q) <= hi)%Q.
Proof.
  intro H. unfold Py.max, Py.min.
  destruct (ltb_reflect q hi); cases_ltb; lra.
Qed.

Lemma clamp_id lo hi q :
  (lo <= q <= hi)%Q -> (Py.max lo (Py.min hi q) == q)%Q.
Proof.
  intro H. unfold Py.max, Py.min.
  destruct (ltb_reflect q hi); cases_ltb; lra.
Qed.

Lemma int_floor q : (0 <= q)%Q -> Py.int q = Qfloor q.
Proof.
  destruct q as [n d]. unfold Qle, Py.int, Qfloor. simpl. intro H.
  apply Z.quot_div_nonneg; lia.
Qed.

Lemma int_range q n : (0 <= q <= inject_Z n)%Q -> 0 <= Py.int q <= n.
Proof.
  intros [H0 H1]. rewrite int_floor by assumption. split.
  - change 0 with (Qfloor 0). now apply Qfloor_resp_le.
  - rewrite <- (Qfloor_Z n). now apply Qfloor_resp_le.
Qed.

(** [int(a / b)] on two ints is the quotient truncated toward zero. *)
Lemma int_truediv a b :
  b <> 0 -> Py.int (inject_Z a / inject_Z b) = Z.quot a b.
Proof.
  intro Hb. unfold Py.int, Qdiv, Qinv, Qmult, inject_Z. simpl.
  destruct b as [|p|p]; [congruence| |]; simpl.
  - f_equal. lia.
  - change (Z.neg p) with (- Z.pos p).
    rewrite Z.quot_opp_r by lia. rewrite <- Z.quot_opp_l by lia.
    f_equal. lia.
Qed.

Lemma int_zero q : (q == 0)%Q -> Py.int q = 0.
Proof.
  destruct q as [n d]. unfold Qeq, Py.int. simpl. intro H.
  replace n with 0 by lia. reflexivity.
Qed.

Lemma truediv_ok {St} (a b : Q) (s : St) :
  ~ (b == 0)%Q -> truediv a b s = (Ok (a / b)%Q, s, []).
Proof.
  intro H. unfold truediv.
  destruct (Qeq_bool b 0) eqn:E; [|reflexivity].
  apply Qeq_bool_iff in E. contradiction.
Qed.

Lemma truediv_zero {St} (a b : Q) (s : St) :
  (b == 0)%Q -> truediv a b s = (Raise ZeroDivisionError, s, []).
Proof.
  intro H. unfold truediv.
  apply Qeq_bool_iff in H. now rewrite H.
Qed.

Lemma inject_Z_nonzero n : n <> 0 -> ~ (inject_Z n == 0)%Q.
Proof.
  intros Hn H. apply Hn. unfold Qeq, inject_Z in H. simpl in H. lia.
Qed.

Lemma round_half_even_floor q :
  Qfloor q <= Py.round_half_even q <= Qfloor q + 1.
Proof.
  unfold Py.round_half_even.
  destruct (Py.ltb _ _); [lia|].
  destruct (Py.ltb _ _); [lia|].
  destruct (Z.even _); lia.
Qed.

Lemma round_half_even_mono p q :
  (p <= q)%Q -> Py.round_half_even p <= Py.round_half_even q.
Proof.
  intro Hpq.
  pose proof (Qfloor_resp_le _ _ Hpq) as Hf.
  pose proof (round_half_even_floor p) as Hp.
  pose proof (round_half_even_floor q) as Hq.
  destruct (Z.eq_dec (Qfloor p) (Qfloor q)) as [E|N]; [|lia].
  unfold Py.round_half_even in *. rewrite <- E in *.
  set (f := Qfloor p) in *.
  cases_ltb; try lia; lra.
Qed.

Lemma round3_mono p q : (p <= q)%Q -> (Py.round3 p <= Py.round3 q)%Q.
Proof.
  intro H. unfold Py.round3.
  assert (Hm : Py.round_half_even (p * 1000) <= Py.round_half_even (q * 1000)).
  { apply round_half_even_mono. lra. }
  rewrite Zle_Qle in Hm.
  apply Qle_shift_div_l; [lra|].
  setoid_replace (inject_Z (Py.round_half_even (p * 1000)) / 1000 * 1000)%Q
    with (inject_Z (Py.round_half_even (p * 1000))) by field.
  exact Hm.
Qed.




Lemma clamp_mono lo hi p q :
  (p <= q)%Q -> (Py.max lo (Py.min hi p) <= Py.max lo (Py.min hi q))%Q.
Proof.
  intro H. unfold Py.max, Py.min.
  destruct (ltb_reflect p hi), (ltb_reflect q hi); cases_ltb; lra.
Qed.


(** A point of [[lo, hi]] rescaled to [[0, size]]. *)
Lemma rescale_range (p lo hi : Q) (size : Z) :
  (lo <= p <= hi)%Q -> (lo < hi)%Q -> 0 <= size ->
  (0 <= (p - lo) / (hi - lo) * inject_Z size <= inject_Z size)%Q.
Proof.
  intros Hp Hlt Hs.
  assert (Hs' : (0 <= inject_Z size)%Q).
  { change 0%Q with (inject_Z 0). now rewrite <- Zle_Qle. }
  assert (Hr : (0 <= (p - lo) / (hi - lo) <= 1)%Q).
  { split.
    - apply Qle_shift_div_l; lra.
    - apply Qle_shift_div_r; lra. }
  split; nra.
Qed.

Lemma inject_Z_sub a b : (inject_Z (a - b) == inject_Z a - inject_Z b)%Q.
Proof.
  unfold Z.sub. rewrite inject_Z_plus, inject_Z_opp. ring.
Qed.

(** ** The monad *)

Lemma bind_cases {St A B} (m : M St A) (k : A -> M St B) (s : St) :
  (exists a s1 o1, m s = (Ok a, s1, o1)
     /\ bind m k s = (outcome (k a s1), final (k a s1), o1 ++ calls (k a s1)))
  \/ (exists e s1 o1, m s = (Raise e, s1, o1)
     /\ bind m k s = (Raise e, s1, o1)).
Proof.
  unfold bind, outcome, final, calls.
  destruct (m s) as [[[a|e] s1] o1].
  - left. exists a, s1, o1. split; [reflexivity|].
    destruct (k a s1) as [[r s2] o2]. reflexivity.
  - right. exists e, s1, o1. split; reflexivity.
Qed.

Lemma bind_gets {St A B} (g : St -> A) (k : A -> M St B) (s : St) :
  bind (gets g) k s = k (g s) s.
Proof.
  unfold bind, gets. destruct (k (g s) s) as [[r s2] o2]. reflexivity.
Qed.

Lemma bind_ok {St A B} (m : M St A) (k : A -> M St B) s a s1 o1 r s2 o2 :
  m s = (Ok a, s1, o1) -> k a s1 = (r, s2, o2) ->
  bind m k s = (r, s2, o1 ++ o2).
Proof. intros Hm Hk. unfold bind. rewrite Hm, Hk. reflexivity. Qed.

Lemma bind_ok_nil {St A B} (m : M St A) (k : A -> M St B) s a s1 :
  m s = (Ok a, s1, []) -> bind m k s = k a s1.
Proof.
  intros Hm. unfold bind. rewrite Hm. destruct (k a s1) as [[? ?] ?].
  reflexivity.
Qed.

Lemma bind_raise {St A B} (m : M St A) (k : A -> M St B) s e s1 o1 :
  m s = (Raise e, s1, o1) -> bind m k s = (Raise e, s1, o1).
Proof. intros Hm. unfold bind. rewrite Hm. reflexivity. Qed.

(** *** Footprints

    The footprint of each block says for which attributes and calls it is
    quiet, and the two lemmas on [bind] let a property of a frame be read on
    the block that owns it. *)

Section Quiet.
Context {X : Type} (f : HandMouseController -> X) (P : Command -> bool).

Lemma quiet_ret {A} (a : A) : quiet f P (ret a).
Proof. intro s. split; reflexivity. Qed.

Lemma quiet_raise {A} e : quiet f P (@raise _ A e).
Proof. intro s. split; reflexivity. Qed.

Lemma quiet_gets {A} (g : HandMouseController -> A) : quiet f P (gets g).
Proof. intro s. split; reflexivity. Qed.

Lemma quiet_truediv a b : quiet f P (truediv a b).
Proof.
  unfold truediv.
  destruct (Qeq_bool b 0); [apply quiet_raise | apply quiet_ret].
Qed.

Lemma quiet_modify g : (forall s, f (g s) = f s) -> quiet f P (modify g).
Proof. intros H s. split; [apply H | reflexivity]. Qed.

Lemma quiet_emit c : P c = false -> quiet f P (emit c).
Proof. intros H s. split; [reflexivity|]. cbn. now rewrite H. Qed.

Lemma quiet_bind {A B} (m : Ctl A) (k : A -> Ctl B) :
  quiet f P m -> (forall a, quiet f P (k a)) -> quiet f P (bind m k).
Proof.
  intros Hm Hk s. specialize (Hm s).
  destruct (bind_cases m k s)
    as [(a & s1 & o1 & E & ->) | (e & s1 & o1 & E & ->)];
    rewrite E in Hm; cbn in Hm |- *; destruct Hm as [Hf Hc].
  - destruct (Hk a s1) as [Hf' Hc']. split.
    + congruence.
    + rewrite filter_app, Hc, Hc'. reflexivity.
  - split; assumption.
Qed.

(** After a quiet block, [f] and the calls of kind [P] are those of the
    rest, run from a state with the same [f]; if the block raises, the
    iteration ends with [f] unchanged and no call of the kind. *)
Lemma bind_quiet_l {A B} (m : Ctl A) (k : A -> Ctl B) s :
  quiet f P m ->
  (exists a s1, m s = (Ok a, s1, calls (m s)) /\ f s1 = f s
     /\ outcome (bind m k s) = outcome (k a s1)
     /\ final (bind m k s) = final (k a s1)
     /\ filter P (calls (bind m k s)) = filter P (calls (k a s1)))
  \/ (exists e, outcome (m s) = Raise e
     /\ outcome (bind m k s) = Raise e
     /\ f (final (bind m k s)) = f s
     /\ filter P (calls (bind m k s)) = []).
Proof.
  intros Hm. specialize (Hm s).
  destruct (bind_cases m k s)
    as [(a & s1 & o1 & E & ->) | (e & s1 & o1 & E & ->)];
    rewrite E in Hm |- *; cbn in Hm |- *; destruct Hm as [Hf Hc].
  - left. exists a, s1. rewrite filter_app, Hc. repeat split; auto.
  - right. exists e. repeat split; auto.
Qed.

(** Before a quiet rest, they are those of the block. *)
Lemma bind_quiet_r {A B} (m : Ctl A) (k : A -> Ctl B) s :
  (forall a, quiet f P (k a)) ->
  f (final (bind m k s)) = f (final (m s))
  /\ filter P (calls (bind m k s)) = filter P (calls (m s)).
Proof.
  intros Hk.
  destruct (bind_cases m k s)
    as [(a & s1 & o1 & E & ->) | (e & s1 & o1 & E & ->)];
    rewrite E; cbn.
  - destruct (Hk a s1) as [Hf Hc]. rewrite filter_app, Hc, app_nil_r. auto.
  - auto.
Qed.
End Quiet.

Ltac quiet_step :=
  match goal with
  | |- quiet _ _ (bind _ _) => apply quiet_bind; [|intros]
  | |- quiet _ _ (ret _) => apply quiet_ret
  | |- quiet _ _ (raise _) => apply quiet_raise
  | |- quiet _ _ (gets _) => apply quiet_gets
  | |- quiet _ _ (truediv _ _) => apply quiet_truediv
  | |- quiet _ _ (modify _) => apply quiet_modify; intros; auto
  | |- quiet _ _ (emit _) => apply quiet_emit; auto
  | |- quiet _ _ (if ?c then _ else _) => destruct c
  | |- quiet _ _ (match ?c with _ => _ end) => destruct c
  | |- quiet _ _ _ => solve [auto]
  end.
Ltac quiet := repeat quiet_step.

Section Footprints.
Context {X : Type} (f : HandMouseController -> X) (P : Command -> bool).

Lemma scroll_block_footprint tip ie me fc :
  (forall v s, f (set_scroll_mode v s) = f s) ->
  (forall v s, f (set_scroll_y_prev v s) = f s) ->
  (forall n, P (scroll n) = false) ->
  quiet f P (scroll_block tip ie me fc).
Proof. intros H1 H2 H3. unfold scroll_block. quiet. Qed.

Lemma adaptive_smoothing_footprint d : quiet f P (adaptive_smoothing d).
Proof. unfold adaptive_smoothing. quiet. Qed.

Lemma roi_mapping_footprint tip fw fh x0 y0 x1 y1 w h :
  quiet f P (roi_mapping tip fw fh x0 y0 x1 y1 w h).
Proof. unfold roi_mapping. quiet. Qed.

Lemma smooth_coordinates_footprint nx ny :
  (forall v s, f (set_smooth_queue v s) = f s) ->
  quiet f P (smooth_coordinates nx ny).
Proof. intros H1. unfold smooth_coordinates. quiet. Qed.

Lemma move_block_MainV1_footprint tip fw fh x0 y0 x1 y1 w h :
  (forall v s, f (set_smooth_queue v s) = f s) ->
  (forall a b d, P (moveTo a b d) = false) ->
  quiet f P (move_block_MainV1 tip fw fh x0 y0 x1 y1 w h).
Proof.
  intros H1 H2. unfold move_block_MainV1.
  pose proof roi_mapping_footprint. pose proof smooth_coordinates_footprint.
  quiet.
Qed.

Lemma move_block_mouse9_footprint sm tip fw fh x0 y0 x1 y1 w h :
  (forall a b d, P (moveTo a b d) = false) ->
  quiet f P (move_block_mouse9 sm tip fw fh x0 y0 x1 y1 w h).
Proof.
  intros H2. unfold move_block_mouse9.
  pose proof roi_mapping_footprint. quiet.
Qed.

Lemma left_click_block_footprint d :
  (forall v s, f (set_left_button_down v s) = f s) ->
  P (mouseDown left) = false -> P (mouseUp left) = false ->
  quiet f P (left_click_block d).
Proof. intros H1 H2 H3. unfold left_click_block. quiet. Qed.

Lemma right_click_block_footprint d1 d2 d3 :
  (forall v s, f (set_right_button_down v s) = f s) ->
  P (mouseDown right) = false -> P (mouseUp right) = false ->
  quiet f P (right_click_block d1 d2 d3).
Proof. intros H1 H2 H3. unfold right_click_block. quiet. Qed.
Lemma smooth_and_move_footprint v d tip fw fh x0 y0 x1 y1 w h :
  (forall q s, f (set_smooth_queue q s) = f s) ->
  (forall a b c, P (moveTo a b c) = false) ->
  quiet f P (smooth_and_move v d tip fw fh x0 y0 x1 y1 w h).
Proof.
  intros H1 H2. unfold smooth_and_move.
  pose proof move_block_MainV1_footprint as HA.
  pose proof move_block_mouse9_footprint as HB.
  pose proof adaptive_smoothing_footprint as HC.
  quiet.
Qed.

Lemma click_blocks_footprint d1 d2 d3 :
  (forall b s, f (set_left_button_down b s) = f s) ->
  (forall b s, f (set_right_button_down b s) = f s) ->
  (forall b, P (mouseDown b) = false) -> (forall b, P (mouseUp b) = false) ->
  quiet f P (click_blocks d1 d2 d3).
Proof.
  intros H1 H2 H3 H4. unfold click_blocks.
  pose proof left_click_block_footprint as HA.
  pose proof right_click_block_footprint as HB.
  quiet.
Qed.
End Footprints.

(** ** What each block computes *)

Lemma left_click_block_eq d self :
  let want := Py.ltb d (inject_Z (left_click_threshold self)) in
  left_click_block d self =
    if enabled self && xorb want (left_button_down self)
    then (Ok tt, set_left_button_down want self,
          [if want then mouseDown left else mouseUp left])
    else (Ok tt, self, []).
Proof.
  unfold left_click_block, bind, gets, emit, modify, ret. cbn.
  destruct (Py.ltb d _), (left_button_down self), (enabled self); reflexivity.
Qed.

Lemma right_click_block_eq d1 d2 d3 self :
  let t := inject_Z (right_click_threshold self) in
  let want := Py.ltb d1 t && Py.ltb d2 t && Py.ltb d3 t in
  right_click_block d1 d2 d3 self =
    if enabled self && xorb want (right_button_down self)
    then (Ok tt, set_right_button_down want self,
          [if want then mouseDown right else mouseUp right])
    else (Ok tt, self, []).
Proof.
  unfold right_click_block, bind, gets, emit, modify, ret. cbn.
  destruct (_ && _ && _), (right_button_down self), (enabled self);
    reflexivity.
Qed.

Lemma scroll_block_exit tip ie me fc self :
  ie && me && fc = false ->
  scroll_block tip ie me fc self =
    (Ok tt, set_scroll_y_prev None (set_scroll_mode false self), []).
Proof.
  intro H. unfold scroll_block. rewrite H. reflexivity.
Qed.

Lemma deque_append_length {A} (q : list A) a :
  length (deque_append q a) = Nat.min (length q + 1) maxlen.
Proof.
  unfold deque_append. rewrite length_skipn, length_app. simpl. lia.
Qed.

Lemma sum_shift l a : fold_left Z.add l a = a + sum l.
Proof.
  unfold sum. revert a. induction l as [|h t IH]; intro a; simpl.
  - lia.
  - rewrite IH. rewrite (IH h). lia.
Qed.

Lemma sum_cons a l : sum (a :: l) = a + sum l.
Proof. unfold sum at 1. simpl. apply sum_shift. Qed.

Lemma sum_weights_pos n k :
  (0 < n)%nat -> 0 < sum (map Z.of_nat (seq (S k) n)).
Proof.
  revert k. induction n as [|n IH]; intros k Hn; [lia|].
  simpl. rewrite sum_cons. destruct n.
  - simpl. unfold sum. simpl. lia.
  - specialize (IH (S k) ltac:(lia)). lia.
Qed.

(** [smooth_coordinates] never raises: the queue holds the new point, so the
    weights do not sum to zero, and the early return is never taken. *)
Lemma smooth_coordinates_eq nx ny self :
  let q := deque_append (smooth_queue self) (nx, ny) in
  let weights := map Z.of_nat (seq 1 (length q)) in
  let wx := sum (map (fun '((x, _), w) => x * w) (combine q weights)) in
  let wy := sum (map (fun '((_, y), w) => y * w) (combine q weights)) in
  smooth_coordinates nx ny self =
    (Ok (Z.max 0 (Z.min (screen_width self - 1) (Z.quot wx (sum weights))),
         Z.max 0 (Z.min (screen_height self - 1) (Z.quot wy (sum weights)))),
     set_smooth_queue q self, []).
Proof.
  intros q weights wx wy.
  assert (Hlen : (0 < length q)%nat).
  { unfold q. rewrite deque_append_length. unfold maxlen. lia. }
  assert (Hs : 0 < sum weights) by (apply sum_weights_pos; exact Hlen).
  unfold smooth_coordinates, bind, modify, gets.
  cbn [smooth_queue set_smooth_queue].
  fold q. destruct (Nat.eqb_spec (length q) 0) as [E|_]; [lia|].
  fold weights. fold wx. fold wy.
  rewrite !truediv_ok by (apply inject_Z_nonzero; lia).
  unfold ret. cbn. rewrite !int_truediv by lia. reflexivity.
Qed.

(** [adaptive_smoothing] when the two distances of the configuration
    differ. *)
Lemma adaptive_smoothing_eq d self :
  min_distance self <> start_smooth_distance self ->
  let start := start_smooth_distance self in
  let min_d := min_distance self in
  let lo := min_smoothing self in
  let hi := max_smoothing self in
  adaptive_smoothing d self =
    (Ok (Py.max lo (Py.min hi
           (if Py.ltb (inject_Z start) d then (1 # 100)%Q
            else if Py.ltb d (inject_Z min_d) then hi
            else Py.round3
                   (lo + (inject_Z start - d) / inject_Z (start - min_d)
                         * (hi - lo))))),
     self, []).
Proof.
  intros Hne start min_d lo hi.
  subst start min_d lo hi. unfold adaptive_smoothing, bind, gets.
  destruct (Py.ltb (inject_Z _) d); [reflexivity|].
  destruct (Py.ltb d (inject_Z _)); [reflexivity|].
  rewrite truediv_ok by (apply inject_Z_nonzero; lia).
  reflexivity.
Qed.

Lemma set_left_button_down_same self b :
  left_button_down self = b -> set_left_button_down b self = self.
Proof. intros <-. destruct self; reflexivity. Qed.

Lemma set_right_button_down_same self b :
  right_button_down self = b -> set_right_button_down b self = self.
Proof. intros <-. destruct self; reflexivity. Qed.

(** The two click blocks never raise.  Enabled, each button takes the state
    its predicate asks for and the edge is emitted; disabled, nothing
    happens. *)
Lemma click_blocks_eq d1 d2 d3 self :
  let t := inject_Z (right_click_threshold self) in
  let l := if enabled self
           then Py.ltb d1 (inject_Z (left_click_threshold self))
           else left_button_down self in
  let r := if enabled self
           then Py.ltb d1 t && Py.ltb d2 t && Py.ltb d3 t
           else right_button_down self in
  click_blocks d1 d2 d3 self =
    (Ok tt, set_right_button_down r (set_left_button_down l self),
     edge left (left_button_down self) l
     ++ edge right (right_button_down self) r).
Proof.
  intros t l r. unfold click_blocks.
  pose proof (left_click_block_eq d1 self) as HL. cbv zeta in HL.
  assert (HL' : left_click_block d1 self
                = (Ok tt, set_left_button_down l self,
                   edge left (left_button_down self) l)).
  { rewrite HL. subst l. clear. unfold edge.
    set (wl := Py.ltb d1 _).
    destruct (enabled self), wl, (left_button_down self) eqn:E;
      cbn; rewrite ?(set_left_button_down_same _ _ E); reflexivity. }
  pose proof (right_click_block_eq d1 d2 d3 (set_left_button_down l self))
    as HR.
  cbv zeta in HR. cbn [enabled right_click_threshold right_button_down
                         set_left_button_down] in HR.
  fold t in HR.
  eapply bind_ok; [exact HL'|]. rewrite HR. subst r. clear. unfold edge.
  set (wr := _ && _ && _).
  destruct (enabled self), wr, (right_button_down self) eqn:E;
    cbn;
    rewrite ?(set_right_button_down_same (set_left_button_down _ self) _ E);
    reflexivity.
Qed.

(** The scroll block on the scroll gesture, with a sensitivity other than
    zero. *)
Lemma scroll_block_enter tip self :
  scroll_sensitivity self <> 0 ->
  let current := Py.int (y tip * inject_Z (screen_height self)) in
  scroll_block tip true true true self =
    (Ok tt, set_scroll_y_prev (Some current) (set_scroll_mode true self),
     match scroll_y_prev self with
     | Some previous =>
         let delta := current - previous in
         if (Z.abs delta >? scroll_threshold self) && enabled self
         then [scroll (- (Z.quot delta (scroll_sensitivity self)
                          * scroll_multiplier self))]
         else []
     | None => []
     end).
Proof.
  intros Hs current. unfold scroll_block. cbn [andb].
  unfold bind at 1. cbn [modify].
  rewrite bind_gets. cbn [screen_height set_scroll_mode]. fold current.
  rewrite bind_gets. cbn [scroll_y_prev set_scroll_mode].
  destruct (scroll_y_prev self) as [previous|].
  - cbv zeta.
    destruct (((Z.abs (current - previous) >? scroll_threshold self)
               && enabled self)) eqn:E.
    + erewrite bind_ok.
      2:{ rewrite !bind_gets. cbn [scroll_threshold enabled set_scroll_mode].
          rewrite E. rewrite bind_gets.
          erewrite bind_ok_nil
            by (apply truediv_ok; apply inject_Z_nonzero; exact Hs).
          rewrite bind_gets. reflexivity. }
      2:{ reflexivity. }
      cbn [scroll_sensitivity scroll_multiplier set_scroll_mode app].
      rewrite int_truediv by exact Hs. reflexivity.
    + erewrite bind_ok.
      2:{ rewrite !bind_gets. cbn [scroll_threshold enabled set_scroll_mode].
          rewrite E. reflexivity. }
      2:{ reflexivity. }
      reflexivity.
  - reflexivity.
Qed.

(** *** Edges and replay *)

Lemma edge_same b d : edge b d d = [].
Proof. unfold edge. now rewrite xorb_nilpotent. Qed.

Lemma filter_edge b b' x y :
  filter (is_button b) (edge b' x y)
  = if is_button b (mouseDown b') then edge b' x y else [].
Proof.
  unfold edge. destruct b, b', (xorb x y), y; reflexivity.
Qed.

Lemma replay_app b l1 l2 d :
  replay b (l1 ++ l2) d = replay b l2 (replay b l1 d).
Proof.
  revert d. induction l1 as [|c l1 IH]; intro d; simpl; [reflexivity|].
  apply IH.
Qed.

Lemma replay_filter b l d :
  replay b (filter (is_button b) l) d = replay b l d.
Proof.
  revert d. induction l as [|c l IH]; intro d; simpl; [reflexivity|].
  destruct (is_button b c) eqn:E; simpl; rewrite ?E; apply IH.
Qed.

Lemma replay_edge b x y : replay b (edge b x y) x = y.
Proof. unfold edge. destruct b, x, y; reflexivity. Qed.

Lemma ltb_compat a a' b : (a == a')%Q -> Py.ltb a b = Py.ltb a' b.
Proof.
  intro H. destruct (ltb_reflect a b), (ltb_reflect a' b); try reflexivity; lra.
Qed.

Lemma roi_mapping_zero_width tip fw fh x0 y0 x1 y1 h self :
  roi_mapping tip fw fh x0 y0 x1 y1 0 h self
  = (Raise ZeroDivisionError, self, []).
Proof.
  unfold roi_mapping. apply bind_raise. apply truediv_zero. reflexivity.
Qed.

Lemma roi_mapping_zero_height tip fw fh x0 y0 x1 y1 w self :
  w <> 0 ->
  roi_mapping tip fw fh x0 y0 x1 y1 w 0 self
  = (Raise ZeroDivisionError, self, []).
Proof.
  intro Hw. unfold roi_mapping.
  erewrite bind_ok_nil by (apply truediv_ok; apply inject_Z_nonzero; exact Hw).
  rewrite bind_gets. apply bind_raise. apply truediv_zero. reflexivity.
Qed.

Lemma roi_mapping_ok tip fw fh x0 y0 x1 y1 w h self :
  w <> 0 -> h <> 0 ->
  exists mapped_x mapped_y,
    roi_mapping tip fw fh x0 y0 x1 y1 w h self
    = (Ok (mapped_x, mapped_y), self, []).
Proof.
  intros Hw Hh. unfold roi_mapping, bind.
  rewrite truediv_ok by (apply inject_Z_nonzero; lia).
  unfold gets at 1.
  rewrite truediv_ok by (apply inject_Z_nonzero; lia).
  unfold gets, ret. cbn [app]. eauto.
Qed.

Lemma roi_mapping_inverted tip fw fh x0 y0 x1 y1 w h self :
  x1 < x0 -> y1 < y0 -> w <> 0 -> h <> 0 ->
  roi_mapping tip fw fh x0 y0 x1 y1 w h self = (Ok (0, 0), self, []).
Proof.
  intros Hx Hy Hw Hh. unfold roi_mapping, bind.
  rewrite truediv_ok by (apply inject_Z_nonzero; lia).
  unfold gets at 1.
  rewrite truediv_ok by (apply inject_Z_nonzero; lia).
  unfold gets, ret. cbn [app].
  rewrite Zlt_Qlt in Hx, Hy.
  rewrite !int_zero; [reflexivity| |].
  - unfold Py.max, Py.min. cases_ltb; try lra; field; apply inject_Z_nonzero; lia.
  - unfold Py.max, Py.min. cases_ltb; try lra; field; apply inject_Z_nonzero; lia.
Qed.

Lemma clicks_ok d1 d2 d3 self :
  exists s' out, click_blocks d1 d2 d3 self = (Ok tt, s', out).
Proof.
  unfold click_blocks.
  pose proof (left_click_block_eq d1 self) as HL. cbv zeta in HL.
  destruct (_ && _) in HL.
  - pose proof (right_click_block_eq d1 d2 d3
                  (set_left_button_down
                     (Py.ltb d1 (inject_Z (left_click_threshold self))) self)) as HR.
    cbv zeta in HR. destruct (_ && _) in HR;
      do 2 eexists; (eapply bind_ok; [exact HL | exact HR]).
  - pose proof (right_click_block_eq d1 d2 d3 self) as HR.
    cbv zeta in HR. destruct (_ && _) in HR;
      do 2 eexists; (eapply bind_ok; [exact HL | exact HR]).
Qed.

Lemma move_block_MainV1_raise tip fw fh x0 y0 x1 y1 w h self e :
  scroll_mode self = false ->
  roi_mapping tip fw fh x0 y0 x1 y1 w h self = (Raise e, self, []) ->
  move_block_MainV1 tip fw fh x0 y0 x1 y1 w h self = (Raise e, self, []).
Proof.
  intros Hs Hr. unfold move_block_MainV1. rewrite bind_gets, Hs. cbn [negb].
  apply bind_raise. exact Hr.
Qed.

Lemma move_block_mouse9_raise sm tip fw fh x0 y0 x1 y1 w h self e :
  scroll_mode self = false ->
  roi_mapping tip fw fh x0 y0 x1 y1 w h self = (Raise e, self, []) ->
  move_block_mouse9 sm tip fw fh x0 y0 x1 y1 w h self = (Raise e, self, []).
Proof.
  intros Hs Hr. unfold move_block_mouse9. rewrite bind_gets, Hs. cbn [negb].
  apply bind_raise. exact Hr.
Qed.

Lemma move_block_MainV1_ok tip fw fh x0 y0 x1 y1 w h self mx my :
  scroll_mode self = false ->
  roi_mapping tip fw fh x0 y0 x1 y1 w h self = (Ok (mx, my), self, []) ->
  exists cx cy q,
    smooth_coordinates mx my self = (Ok (cx, cy), set_smooth_queue q self, [])
    /\ move_block_MainV1 tip fw fh x0 y0 x1 y1 w h self
       = (Ok tt, set_smooth_queue q self,
          if enabled self then [moveTo cx cy (1 # 1000)] else []).
Proof.
  intros Hs Hr. pose proof (smooth_coordinates_eq mx my self) as Hq.
  cbv zeta in Hq. do 3 eexists. split; [exact Hq|].
  unfold move_block_MainV1. rewrite bind_gets, Hs. cbn [negb].
  rewrite (bind_ok_nil _ _ _ _ _ Hr). cbn beta iota.
  rewrite (bind_ok_nil _ _ _ _ _ Hq). cbn beta iota.
  rewrite bind_gets. cbn [enabled set_smooth_queue].
  destruct (enabled self); reflexivity.
Qed.

Lemma move_block_mouse9_ok sm tip fw fh x0 y0 x1 y1 w h self mx my :
  scroll_mode self = false ->
  roi_mapping tip fw fh x0 y0 x1 y1 w h self = (Ok (mx, my), self, []) ->
  move_block_mouse9 sm tip fw fh x0 y0 x1 y1 w h self
  = (Ok tt, self, if enabled self then [moveTo mx my sm] else []).
Proof.
  intros Hs Hr.
  unfold move_block_mouse9. rewrite bind_gets, Hs. cbn [negb].
  rewrite (bind_ok_nil _ _ _ _ _ Hr). cbn beta iota.
  rewrite bind_gets.
  destruct (enabled self); reflexivity.
Qed.

(** ** The coordinate mapper *)

(** C1 (as amended).  For every fingertip position, inside the sensing
    rectangle or not, when the rectangle is not degenerate and the screen
    size is not negative, the mapper returns a point of
    [[0, screen_width] x [0, screen_height]]: the fingertip is taken to
    frame pixels, clamped to the rectangle and rescaled, so the far edges of
    the rectangle go to [screen_width] and [screen_height] themselves. *)
Theorem roi_mapping_within_screen
    (self : HandMouseController) (index_tip : NormalizedLandmark)
    (fw fh : Z) :
  let m := margin self in
  0 < fw - m - m -> 0 < fh - m - m ->
  0 <= screen_width self -> 0 <= screen_height self ->
  exists mapped_x mapped_y,
    roi_mapping index_tip fw fh m m (fw - m) (fh - m) (fw - m - m) (fh - m - m)
                self
    = (Ok (mapped_x, mapped_y), self, [])
    /\ 0 <= mapped_x <= screen_width self
    /\ 0 <= mapped_y <= screen_height self.
Proof.
  intros m Hw Hh HW HH.
  unfold roi_mapping, bind.
  rewrite truediv_ok by (apply inject_Z_nonzero; lia).
  unfold gets at 1.
  rewrite truediv_ok by (apply inject_Z_nonzero; lia).
  unfold gets, ret. cbn [app].
  do 2 eexists. split; [reflexivity|].
  assert (Hxm : (inject_Z m < inject_Z (fw - m))%Q)
    by (rewrite <- Zlt_Qlt; lia).
  assert (Hym : (inject_Z m < inject_Z (fh - m))%Q)
    by (rewrite <- Zlt_Qlt; lia).
  split; apply int_range.
  - pose proof (clamp_bounds (inject_Z m) (inject_Z (fw - m))
                  (x index_tip * inject_Z fw)%Q ltac:(lra)) as Hc.
    rewrite (inject_Z_sub (fw - m) m).
    apply rescale_range; [exact Hc | lra | exact HW].
  - pose proof (clamp_bounds (inject_Z m) (inject_Z (fh - m))
                  (y index_tip * inject_Z fh)%Q ltac:(lra)) as Hc.
    rewrite (inject_Z_sub (fh - m) m).
    apply rescale_range; [exact Hc | lra | exact HH].
Qed.

Lemma roi_mapping_within_screen_witness :
  exists mapped_x mapped_y,
    roi_mapping (Sample.point (1 # 2) (1 # 2)) 640 480 100 100 540 380 440 280
                (init mouse9 1920 1080)
    = (Ok (mapped_x, mapped_y), init mouse9 1920 1080, [])
    /\ 0 <= mapped_x <= 1920 /\ 0 <= mapped_y <= 1080.
Proof.
  apply (roi_mapping_within_screen (init mouse9 1920 1080)
           (Sample.point (1 # 2) (1 # 2)) 640 480); simpl; lia.
Defined.

(** C1 fails as stated: a fingertip on the right edge of the frame is
    clamped to the right edge of the sensing rectangle, which is mapped to
    [screen_width], one past the last column [screen_width - 1]; and
    [mouse9.py] moves the pointer there. *)
Lemma roi_mapping_right_edge_off_screen :
  roi_mapping (Sample.point 1 (1 # 2)) 640 480 100 100 540 380 440 280
              (init mouse9 1920 1080)
  = (Ok (1920, 540), init mouse9 1920 1080, [])
  /\ ~ (0 <= 1920 <= screen_width (init mouse9 1920 1080) - 1)
  /\ calls (run_frame Sample.sqrt mouse9
              (Sample.vga (Some (Sample.hand (Sample.point 0 (1 # 2))
                                             (Sample.point 1 (1 # 2))
                                             (Sample.point 1 1))))
              (init mouse9 1920 1080))
     = [moveTo 1920 540 (1 # 100)].
Proof.
  split; [reflexivity|]. split; [simpl; lia | vm_compute; reflexivity].
Qed.

(** ** The degenerate sensing rectangle *)

Section Degenerate.
Variable sqrt : Q -> Q.

(** A frame whose hand does not make the scroll gesture leaves scroll
    mode, and then runs the move block and the two click blocks. *)
Lemma run_frame_no_gesture v frame hand self :
  multi_hand_landmarks frame = Some hand ->
  scroll_gesture sqrt frame hand = false ->
  let m := margin self in
  let fw := frame_width frame in
  let fh := frame_height frame in
  let s1 := set_scroll_y_prev None (set_scroll_mode false self) in
  let d := thumb_index_dist_of sqrt frame hand in
  run_frame sqrt v frame self =
    (smooth_and_move v d (landmark hand 8) fw fh m m (fw - m) (fh - m)
                     (fw - m - m) (fh - m - m) ;;
     click_blocks d (thumb_middle_dist_of sqrt frame hand)
                  (close_dist_of sqrt frame hand)) s1.
Proof.
  intros Hh Hg m fw fh s1 d.
  unfold run_frame. rewrite bind_gets, Hh.
  erewrite bind_ok_nil by (apply scroll_block_exit; exact Hg).
  reflexivity.
Qed.

(** C2 (as amended).  Neither fork guards the mapping against a
    degenerate sensing rectangle.  In a frame with a hand that does not
    make the scroll gesture (and a configuration whose two smoothing
    distances differ): when the width or the height of the rectangle is 0,
    the division raises [ZeroDivisionError] before any call is made, which
    ends the loop; when both differ from 0, negative or not, the iteration
    completes and the move is made whenever the engine is enabled; and
    when both are negative the clamped fingertip sits on the margin, so
    the mapped point is (0, 0). *)
Theorem degenerate_rectangle_not_guarded
    (v : Variant) (self : HandMouseController) (frame : Frame)
    (hand : NormalizedLandmarkList) :
  multi_hand_landmarks frame = Some hand ->
  scroll_gesture sqrt frame hand = false ->
  min_distance self <> start_smooth_distance self ->
  let m := margin self in
  let roi_w := frame_width frame - m - m in
  let roi_h := frame_height frame - m - m in
  let r := run_frame sqrt v frame self in
  (roi_w = 0 \/ roi_h = 0 ->
     outcome r = Raise ZeroDivisionError /\ calls r = [])
  /\ (roi_w <> 0 -> roi_h <> 0 ->
     outcome r = Ok tt
     /\ (enabled self = true -> exists a b d, In (moveTo a b d) (calls r)))
  /\ (roi_w < 0 -> roi_h < 0 ->
     roi_mapping (landmark hand 8) (frame_width frame) (frame_height frame)
                 m m (frame_width frame - m) (frame_height frame - m)
                 roi_w roi_h self
     = (Ok (0, 0), self, [])).
Proof.
  intros Hh Hg Hne m roi_w roi_h r.
  subst r. rewrite (run_frame_no_gesture v frame hand self Hh Hg).
  cbv zeta. fold m. fold roi_w. fold roi_h.
  set (s1 := set_scroll_y_prev None (set_scroll_mode false self)).
  set (tip := landmark hand 8).
  set (d := thumb_index_dist_of sqrt frame hand).
  assert (Hs1 : scroll_mode s1 = false) by reflexivity.
  assert (Hsm : exists sm, adaptive_smoothing d s1 = (Ok sm, s1, [])).
  { eexists. apply adaptive_smoothing_eq. exact Hne. }
  destruct Hsm as [sm Hsm].
  split; [|split].
  - (* a zero width or height *)
    intros Hz. unfold smooth_and_move.
    assert (Hr : roi_mapping tip (frame_width frame) (frame_height frame)
                   m m (frame_width frame - m) (frame_height frame - m)
                   roi_w roi_h s1 = (Raise ZeroDivisionError, s1, [])).
    { destruct (Z.eq_dec roi_w 0) as [E|N].
      - rewrite E. apply roi_mapping_zero_width.
      - destruct Hz as [E|E]; [contradiction|].
        rewrite E. apply roi_mapping_zero_height. exact N. }
    destruct v.
    + erewrite bind_raise by (apply move_block_MainV1_raise; eassumption).
      split; reflexivity.
    + erewrite bind_raise; [split; reflexivity|].
      rewrite (bind_ok_nil _ _ _ _ _ Hsm).
      apply move_block_mouse9_raise; eassumption.
  - (* both differ from zero *)
    intros Hw Hh'. unfold smooth_and_move.
    destruct (roi_mapping_ok tip (frame_width frame) (frame_height frame)
                m m (frame_width frame - m) (frame_height frame - m)
                roi_w roi_h s1 Hw Hh') as (mx & my & Hr).
    destruct v.
    + destruct (move_block_MainV1_ok _ _ _ _ _ _ _ _ _ _ _ _ Hs1 Hr)
        as (a & b & q & _ & Hmv).
      destruct (clicks_ok d (thumb_middle_dist_of sqrt frame hand)
                  (close_dist_of sqrt frame hand) (set_smooth_queue q s1))
        as (s' & out & Hc).
      rewrite (bind_ok _ _ _ _ _ _ _ _ _ Hmv Hc).
      split; [reflexivity|]. intros He. exists a, b, (1 # 1000)%Q.
      cbn [calls snd]. change (enabled s1) with (enabled self).
      rewrite He. left. reflexivity.
    + pose proof (move_block_mouse9_ok sm _ _ _ _ _ _ _ _ _ _ _ _ Hs1 Hr)
        as Hmv.
      destruct (clicks_ok d (thumb_middle_dist_of sqrt frame hand)
                  (close_dist_of sqrt frame hand) s1)
        as (s' & out & Hc).
      erewrite bind_ok; [| |exact Hc].
      2:{ rewrite (bind_ok_nil _ _ _ _ _ Hsm). exact Hmv. }
      split; [reflexivity|]. intros He. exists mx, my, sm.
      cbn [calls snd]. change (enabled s1) with (enabled self).
      rewrite He. left. reflexivity.
  - intros Hw Hh'. apply roi_mapping_inverted; lia.
Qed.
End Degenerate.

Lemma degenerate_rectangle_not_guarded_witness :
  outcome (run_frame Sample.sqrt mouse9
             (Sample.sized 160 120 (Some (Sample.pinch 50)))
             (init mouse9 1920 1080)) = Ok tt.
Proof.
  destruct (degenerate_rectangle_not_guarded Sample.sqrt mouse9
              (init mouse9 1920 1080)
              (Sample.sized 160 120 (Some (Sample.pinch 50)))
              (Sample.pinch 50) eq_refl eq_refl) as (_ & H & _).
  - simpl. lia.
  - apply H; simpl; lia.
Defined.

(** C2 fails as stated.  With the margin of 100, a frame 200 pixels wide
    has a sensing rectangle of width 0, and the iteration raises
    [ZeroDivisionError] in both forks; a frame of 160 x 120 has a rectangle
    of negative width and height, and both forks still move the pointer,
    to (0, 0). *)
Lemma degenerate_rectangle_crashes_or_moves :
  outcome (run_frame Sample.sqrt MainV1
             (Sample.sized 200 480 (Some (Sample.pinch 50)))
             (init MainV1 1920 1080)) = Raise ZeroDivisionError
  /\ outcome (run_frame Sample.sqrt mouse9
                (Sample.sized 200 480 (Some (Sample.pinch 50)))
                (init mouse9 1920 1080)) = Raise ZeroDivisionError
  /\ filter is_move
       (calls (run_frame Sample.sqrt MainV1
                 (Sample.sized 160 120 (Some (Sample.pinch 50)))
                 (init MainV1 1920 1080)))
     = [moveTo 0 0 (1 # 1000)]
  /\ filter is_move
       (calls (run_frame Sample.sqrt mouse9
                 (Sample.sized 160 120 (Some (Sample.pinch 50)))
                 (init mouse9 1920 1080)))
     = [moveTo 0 0 (5 # 100)].
Proof.
  repeat split; vm_compute; reflexivity.
Qed.

(** ** The adaptive smoothing factor ([mouse9.py]) *)

Lemma interpolation_mono (lo hi d1 d2 start span : Q) :
  (lo <= hi)%Q -> (0 < span)%Q -> (d1 <= d2)%Q ->
  (lo + (start - d2) / span * (hi - lo)
   <= lo + (start - d1) / span * (hi - lo))%Q.
Proof.
  intros Hlh Hs Hd.
  assert (Hr : ((start - d2) / span <= (start - d1) / span)%Q).
  { unfold Qdiv. apply Qmult_le_compat_r; [lra|].
    apply Qlt_le_weak, Qinv_lt_0_compat. exact Hs. }
  nra.
Qed.




(** C7 (as amended).  For a configuration with
    [min_distance < start_smooth_distance],
    [min_smoothing <= max_smoothing] and [min_smoothing >= 0.01], the factor
    does not increase with the distance, it is [max_smoothing] below
    [min_distance] and [min_smoothing] above [start_smooth_distance]. *)
Theorem adaptive_smoothing_monotone
    (self : HandMouseController) (d1 d2 : Q) :
  let start := start_smooth_distance self in
  let min_d := min_distance self in
  let lo := min_smoothing self in
  let hi := max_smoothing self in
  min_d < start -> (lo <= hi)%Q -> (1 # 100 <= lo)%Q ->
  exists s1 s2,
    adaptive_smoothing d1 self = (Ok s1, self, [])
    /\ adaptive_smoothing d2 self = (Ok s2, self, [])
    /\ ((d1 <= d2)%Q -> (s2 <= s1)%Q)
    /\ ((d1 < inject_Z min_d)%Q -> (s1 == hi)%Q)
    /\ ((inject_Z start < d1)%Q -> (s1 == lo)%Q).
Proof.
  intros start min_d lo hi Hlt Hlh H01.
  assert (Hlt' : (inject_Z min_d < inject_Z start)%Q)
    by (rewrite <- Zlt_Qlt; exact Hlt).
  assert (Hspan : (0 < inject_Z (start - min_d))%Q).
  { rewrite inject_Z_sub. lra. }
  do 2 eexists. split; [|split].
  { apply adaptive_smoothing_eq. fold start min_d. lia. }
  { apply adaptive_smoothing_eq. fold start min_d. lia. }
  cbv zeta. fold start min_d lo hi.
  assert (Hfloor : (Py.max lo (Py.min hi (1 # 100)) == lo)%Q).
  { unfold Py.max, Py.min. cases_ltb; lra. }
  assert (Hceil : (Py.max lo (Py.min hi hi) == hi)%Q).
  { unfold Py.max, Py.min. cases_ltb; lra. }
  split; [|split].
  - intros Hd.
    destruct (ltb_reflect (inject_Z start) d1).
    + destruct (ltb_reflect (inject_Z start) d2); [|lra]. lra.
    + destruct (ltb_reflect d1 (inject_Z min_d)).
      * rewrite Hceil. apply clamp_bounds. exact Hlh.
      * destruct (ltb_reflect (inject_Z start) d2).
        -- rewrite Hfloor. apply clamp_bounds. exact Hlh.
        -- destruct (ltb_reflect d2 (inject_Z min_d)); [lra|].
           apply clamp_mono, round3_mono, interpolation_mono; assumption.
  - intros Hd. destruct (ltb_reflect (inject_Z start) d1); [lra|].
    destruct (ltb_reflect d1 (inject_Z min_d)); [|lra]. exact Hceil.
  - intros Hd. destruct (ltb_reflect (inject_Z start) d1); [|lra].
    exact Hfloor.
Qed.

Lemma adaptive_smoothing_monotone_witness :
  exists s1 s2,
    adaptive_smoothing 100 (init mouse9 1920 1080)
      = (Ok s1, init mouse9 1920 1080, [])
    /\ adaptive_smoothing 150 (init mouse9 1920 1080)
       = (Ok s2, init mouse9 1920 1080, [])
    /\ (s2 <= s1)%Q.
Proof.
  destruct (adaptive_smoothing_monotone (init mouse9 1920 1080) 100 150)
    as (s1 & s2 & H1 & H2 & H & _).
  - simpl. lia.
  - simpl. lra.
  - simpl. lra.
  - exists s1, s2. repeat split; [exact H1 | exact H2 |].
    apply H. lra.
Defined.

(** C7 fails as stated: with [min_smoothing = 0.001] the factor is 0.001
    at distance 200 and rises to the literal 0.01 at distance 201, which is
    not [min_smoothing] either. *)
Lemma adaptive_smoothing_rises_past_start :
  min_distance Sample.fine < start_smooth_distance Sample.fine
  /\ (min_smoothing Sample.fine <= max_smoothing Sample.fine)%Q
  /\ (200 <= 201)%Q
  /\ adaptive_smoothing 200 Sample.fine = (Ok (1 # 1000)%Q, Sample.fine, [])
  /\ adaptive_smoothing 201 Sample.fine = (Ok (1 # 100)%Q, Sample.fine, [])
  /\ ~ (1 # 100 <= 1 # 1000)%Q
  /\ ~ (1 # 100 == min_smoothing Sample.fine)%Q.
Proof.
  repeat split; try reflexivity; vm_compute; try discriminate.
  all: intro H; apply H; reflexivity.
Qed.

(** ** The weighted moving average ([MainV1.py]) *)

(** The queue read from its newest entry. *)
Lemma rev_deque_append {A} (q : list A) a :
  rev (deque_append q a) = firstn maxlen (a :: rev q).
Proof.
  unfold deque_append. cbv zeta. rewrite <- firstn_rev, rev_app_distr.
  reflexivity.
Qed.

Lemma Forall_firstn_le {A} (P : A -> Prop) (l : list A) i j :
  (i <= j)%nat -> Forall P (firstn j l) -> Forall P (firstn i l).
Proof.
  intros Hij H. replace i with (Nat.min i j) by lia.
  rewrite <- firstn_firstn. revert H. generalize (firstn j l) as l'.
  intros l' H. revert i Hij. induction H as [|a l'' Ha _ IH]; intros [|i] Hi; simpl;
    constructor; auto. apply IH. lia.
Qed.

Lemma newest_are_append {A} (c : A) j q :
  newest_are c j q -> newest_are c (S j) (deque_append q c).
Proof.
  unfold newest_are. intro H. rewrite rev_deque_append, firstn_firstn.
  unfold maxlen. replace (Nat.min (S j) 15) with (S (Nat.min j 14)) by lia.
  simpl. constructor; [reflexivity|].
  apply Forall_firstn_le with (j := j); [lia | exact H].
Qed.

Lemma newest_are_all {A} (c : A) j q :
  newest_are c j q -> (length q <= j)%nat -> q = repeat c (length q).
Proof.
  unfold newest_are. intros H Hl.
  rewrite firstn_all2 in H by (rewrite length_rev; exact Hl).
  apply Forall_rev in H. rewrite rev_involutive in H.
  apply Forall_eq_repeat in H. exact H.
Qed.

(** The weighted sum of a constant list. *)
Lemma weighted_sum_constant {A} (f : A -> Z) (c : A) n (ws : list Z) :
  length ws = n ->
  sum (map (fun '(p, w) => f p * w) (combine (repeat c n) ws)) = f c * sum ws.
Proof.
  revert ws. induction n as [|n IH]; intros [|w ws] Hl; simpl in Hl;
    try discriminate.
  - unfold sum. simpl. lia.
  - simpl. rewrite !sum_cons, IH by lia. lia.
Qed.

Lemma smooth_coordinates_constant px py self :
  0 <= px <= screen_width self - 1 ->
  0 <= py <= screen_height self - 1 ->
  let q := deque_append (smooth_queue self) (px, py) in
  q = repeat (px, py) (length q) ->
  smooth_coordinates px py self = (Ok (px, py), set_smooth_queue q self, []).
Proof.
  intros Hx Hy q Hq.
  rewrite smooth_coordinates_eq. fold q.
  assert (Hlen : (0 < length q)%nat).
  { unfold q. rewrite deque_append_length. unfold maxlen. lia. }
  pose proof (sum_weights_pos (length q) 0 Hlen) as Hs.
  set (ws := map Z.of_nat (seq 1 (length q))) in *.
  assert (Hw : length ws = length q).
  { unfold ws. now rewrite length_map, length_seq. }
  assert (Ex : sum (map (fun '(x, _, w) => x * w) (combine q ws)) = px * sum ws).
  { rewrite Hq at 1.
    change px with (fst (px, py)) at 2.
    rewrite <- (weighted_sum_constant fst (px, py) (length q) ws Hw).
    f_equal. apply map_ext. intros [[? ?] ?]. reflexivity. }
  assert (Ey : sum (map (fun '(_, y, w) => y * w) (combine q ws)) = py * sum ws).
  { rewrite Hq at 1.
    change py with (snd (px, py)) at 2.
    rewrite <- (weighted_sum_constant snd (px, py) (length q) ws Hw).
    f_equal. apply map_ext. intros [[? ?] ?]. reflexivity. }
  rewrite Ex, Ey, !Z.quot_mul by lia.
  repeat f_equal; lia.
Qed.

(** A constant stream: the [i]-th output is the point itself as soon as
    every entry of the queue is that point, which is so from the first call
    when every entry present at the start is counted in [j], and from the
    call that fills the queue otherwise. *)
Lemma smooth_stream_constant px py n :
  forall self j,
    0 <= px <= screen_width self - 1 ->
    0 <= py <= screen_height self - 1 ->
    newest_are (px, py) j (smooth_queue self) ->
    exists outs self',
      smooth_stream (repeat (px, py) n) self = (Ok outs, self', [])
      /\ length outs = n
      /\ forall i, (i < n)%nat ->
           (maxlen <= j + i + 1 \/ length (smooth_queue self) <= j)%nat ->
           nth i outs (0, 0) = (px, py).
Proof.
  induction n as [|n IH]; intros self j Hx Hy Hj.
  - exists [], self. repeat split. intros i Hi. lia.
  - cbn [repeat smooth_stream].
    pose proof (smooth_coordinates_eq px py self) as E1. cbv zeta in E1.
    set (q := deque_append (smooth_queue self) (px, py)) in *.
    match type of E1 with _ = (Ok ?o, _, _) => set (o1 := o) in * end.
    destruct (IH (set_smooth_queue q self) (S j) Hx Hy
                (newest_are_append _ _ _ Hj))
      as (outs & self' & E2 & Hlen & Hnth).
    exists (o1 :: outs), self'. split; [|split].
    + rewrite (bind_ok_nil _ _ _ _ _ E1).
      rewrite (bind_ok_nil _ _ _ _ _ E2). reflexivity.
    + simpl. now rewrite Hlen.
    + intros [|i] Hi Hc.
      * cbn [nth].
        assert (Hq : q = repeat (px, py) (length q)).
        { apply newest_are_all with (j := S j).
          - apply newest_are_append. exact Hj.
          - unfold q. rewrite deque_append_length. lia. }
        pose proof (smooth_coordinates_constant px py self Hx Hy Hq) as E3.
        fold q in E3. rewrite E1 in E3. congruence.
      * cbn [nth]. apply Hnth; [lia|].
        cbn [smooth_queue set_smooth_queue]. unfold q.
        rewrite deque_append_length. lia.
Qed.

(** The filter on a constant stream.  For a point within the screen bounds
    [[0, screen_width - 1] x [0, screen_height - 1]], whatever the history
    held before, every output from the call that fills the 15 slots on is
    that exact point (and every output is, when the history was empty).
    The first call on an empty history goes through the average and the
    clamp like any other: it returns its input clamped to the screen
    bounds, which is the input itself when it lies within them. *)
Theorem weighted_average_constant_stream
    (self : HandMouseController) (px py : Z) (n : nat) :
  0 <= px <= screen_width self - 1 ->
  0 <= py <= screen_height self - 1 ->
  (exists outs self',
     smooth_stream (repeat (px, py) n) self = (Ok outs, self', [])
     /\ length outs = n
     /\ (forall i, (maxlen - 1 <= i < n)%nat -> nth i outs (0, 0) = (px, py))
     /\ (smooth_queue self = [] ->
         forall i, (i < n)%nat -> nth i outs (0, 0) = (px, py)))
  /\ (smooth_queue self = [] ->
      (forall new_x new_y,
         smooth_coordinates new_x new_y self
         = (Ok (Z.max 0 (Z.min (screen_width self - 1) new_x),
                Z.max 0 (Z.min (screen_height self - 1) new_y)),
            set_smooth_queue [(new_x, new_y)] self, []))
      /\ smooth_coordinates px py self
         = (Ok (px, py), set_smooth_queue [(px, py)] self, [])).
Proof.
  intros Hx Hy. split.
  - destruct (smooth_stream_constant px py n self 0 Hx Hy)
      as (outs & self' & E & Hlen & Hnth).
    { constructor. }
    exists outs, self'. repeat split; [exact E | exact Hlen | |].
    + intros i Hi. apply Hnth; [lia|]. unfold maxlen in *. lia.
    + intros Hq i Hi. apply Hnth; [lia|]. rewrite Hq. simpl. lia.
  - intros Hq.
    assert (Hany : forall new_x new_y,
      smooth_coordinates new_x new_y self
      = (Ok (Z.max 0 (Z.min (screen_width self - 1) new_x),
             Z.max 0 (Z.min (screen_height self - 1) new_y)),
         set_smooth_queue [(new_x, new_y)] self, [])).
    { intros new_x new_y. rewrite smooth_coordinates_eq, Hq.
      cbn. unfold sum. cbn. rewrite !Z.mul_1_r, !Z.quot_1_r. reflexivity. }
    split; [exact Hany|].
    rewrite Hany. repeat f_equal; lia.
Qed.

Lemma weighted_average_constant_stream_witness :
  exists outs self',
    smooth_stream (repeat (960, 540) 20) (init MainV1 1920 1080)
    = (Ok outs, self', [])
    /\ nth 14 outs (0, 0) = (960, 540).
Proof.
  destruct (weighted_average_constant_stream (init MainV1 1920 1080)
              960 540 20) as [(outs & self' & E & _ & H & _) _].
  - simpl. lia.
  - simpl. lia.
  - exists outs, self'. split; [exact E|]. apply H. unfold maxlen. lia.
Defined.

(** C8, a defect of the code.  [smooth_coordinates] means to return the raw
    point when the history is empty, but tests [len(self.smooth_queue) == 0]
    after appending the point, so the early return is never taken and the
    first point is averaged and clamped like any other.  On the object
    [__init__] builds, with its empty history, the point (1920, 540), which
    the mapper yields for a fingertip at the right edge of a 640 x 480
    frame, comes back as (1919, 540), not as the unsmoothed input. *)
Lemma smooth_coordinates_clamps_first_point :
  smooth_queue (init MainV1 1920 1080) = []
  /\ roi_mapping (Sample.point 1 (1 # 2)) 640 480 100 100 540 380 440 280
                 (init MainV1 1920 1080)
     = (Ok (1920, 540), init MainV1 1920 1080, [])
  /\ smooth_coordinates 1920 540 (init MainV1 1920 1080)
     = (Ok (1919, 540),
        set_smooth_queue [(1920, 540)] (init MainV1 1920 1080), [])
  /\ (1919, 540) <> (1920, 540).
Proof.
  split; [reflexivity|]. split; [vm_compute; reflexivity|].
  split; [vm_compute; reflexivity | discriminate].
Qed.

(** ** The button state machines *)

Section Buttons.
Variable sqrt : Q -> Q.

(** A frame with a hand: whatever the blocks before the click blocks
    leave alone is the same when the click blocks start, and the click
    blocks decide the rest; or an exception cut the iteration before
    them. *)
Lemma run_frame_clicks {X} (f : HandMouseController -> X) P
    v frame hand self :
  (forall b s, f (set_scroll_mode b s) = f s) ->
  (forall b s, f (set_scroll_y_prev b s) = f s) ->
  (forall q s, f (set_smooth_queue q s) = f s) ->
  (forall n, P (scroll n) = false) ->
  (forall a b c, P (moveTo a b c) = false) ->
  multi_hand_landmarks frame = Some hand ->
  let r := run_frame sqrt v frame self in
  let clicks :=
    click_blocks (thumb_index_dist_of sqrt frame hand)
                 (thumb_middle_dist_of sqrt frame hand)
                 (close_dist_of sqrt frame hand) in
  (exists s2, f s2 = f self
     /\ outcome r = outcome (clicks s2)
     /\ final r = final (clicks s2)
     /\ filter P (calls r) = filter P (calls (clicks s2)))
  \/ (exists e, outcome r = Raise e
     /\ f (final r) = f self
     /\ filter P (calls r) = []).
Proof.
  intros H1 H2 H3 H4 H5 Hh r clicks. subst r.
  unfold run_frame. rewrite bind_gets, Hh.
  match goal with
  | |- context [bind (scroll_block ?t ?a ?b ?c) ?k self] =>
      destruct (bind_quiet_l f P (scroll_block t a b c) k self
                  (scroll_block_footprint f P t a b c H1 H2 H4))
        as [(u & s1 & _ & Hf1 & Ho1 & Hs1 & Hc1)
           | (e & _ & Ho1 & Hf1 & Hc1)]
  end.
  - rewrite Ho1, Hs1, Hc1.
    match goal with
    | |- context [bind (smooth_and_move ?v ?d ?t ?a1 ?a2 ?a3 ?a4 ?a5 ?a6
                                        ?a7 ?a8) ?k s1] =>
        destruct (bind_quiet_l f P
                    (smooth_and_move v d t a1 a2 a3 a4 a5 a6 a7 a8) k s1
                    (smooth_and_move_footprint f P v d t a1 a2 a3 a4 a5 a6
                       a7 a8 H3 H5))
          as [(u' & s2 & _ & Hf2 & Ho2 & Hs2 & Hc2)
             | (e & _ & Ho2 & Hf2 & Hc2)]
    end.
    + left. exists s2. rewrite Ho2, Hs2, Hc2.
      repeat split; congruence.
    + right. exists e. rewrite Ho2, Hf2, Hc2. repeat split; congruence.
  - right. exists e. rewrite Ho1, Hf1, Hc1. repeat split; congruence.
Qed.
Lemma run_frame_no_hand v frame self :
  multi_hand_landmarks frame = None ->
  run_frame sqrt v frame self = (Ok tt, self, []).
Proof.
  intros Hh. unfold run_frame. rewrite bind_gets, Hh. reflexivity.
Qed.

(** The button flags and the button calls of a frame with a hand. *)
Lemma run_frame_buttons v frame hand self (P : Command -> bool) :
  (forall n, P (scroll n) = false) ->
  (forall a b c, P (moveTo a b c) = false) ->
  multi_hand_landmarks frame = Some hand ->
  let r := run_frame sqrt v frame self in
  let d1 := thumb_index_dist_of sqrt frame hand in
  let t := inject_Z (right_click_threshold self) in
  let wl := Py.ltb d1 (inject_Z (left_click_threshold self)) in
  let wr := Py.ltb d1 t && Py.ltb (thumb_middle_dist_of sqrt frame hand) t
            && Py.ltb (close_dist_of sqrt frame hand) t in
  let l := if enabled self then wl else left_button_down self in
  let r' := if enabled self then wr else right_button_down self in
  click_view (final r)
  = (enabled self, left_click_threshold self, right_click_threshold self,
     match outcome r with Ok _ => l | Raise _ => left_button_down self end,
     match outcome r with Ok _ => r' | Raise _ => right_button_down self end)
  /\ filter P (calls r)
     = match outcome r with
       | Ok _ => filter P (edge left (left_button_down self) l
                           ++ edge right (right_button_down self) r')
       | Raise _ => []
       end.
Proof.
  intros HP1 HP2 Hh r d1 t wl wr l r'.
  destruct (run_frame_clicks click_view P v frame hand self
              ltac:(reflexivity) ltac:(reflexivity) ltac:(reflexivity)
              HP1 HP2 Hh)
    as [(s2 & Hv & Ho & Hs & Hc) | (e & Ho & Hv & Hc)]; fold r in Ho, Hc.
  - fold r in Hs. rewrite Ho, Hs, Hc.
    rewrite click_blocks_eq. cbn [outcome final calls fst snd].
    unfold click_view in Hv. injection Hv as He Htl Htr Hl Hr.
    unfold click_view.
    cbn [enabled left_click_threshold right_click_threshold
         left_button_down right_button_down
         set_left_button_down set_right_button_down].
    rewrite He, Htl, Htr, Hl, Hr. split; reflexivity.
  - fold r in Hv. rewrite Ho, Hc. rewrite Hv. split; reflexivity.
Qed.
Lemma run_frame_button_edge v self frame b :
  let r := run_frame sqrt v frame self in
  filter (is_button b) (calls r)
  = edge b (button_down b self) (button_down b (final r)).
Proof.
  intros r. subst r.
  destruct (multi_hand_landmarks frame) as [hand|] eqn:Hh.
  - destruct (run_frame_buttons v frame hand self (is_button b)
                ltac:(destruct b; reflexivity)
                ltac:(destruct b; reflexivity) Hh) as [Hv Hc].
    cbv zeta in Hv, Hc. unfold click_view in Hv.
    injection Hv as _ _ _ Hl Hr.
    rewrite Hc. destruct (outcome (run_frame sqrt v frame self)).
    + rewrite filter_app, !filter_edge.
      destruct b; cbn [button_down is_button]; rewrite ?Hl, ?Hr;
        rewrite ?app_nil_r; reflexivity.
    + destruct b; cbn [button_down]; rewrite ?Hl, ?Hr, edge_same;
        reflexivity.
  - rewrite run_frame_no_hand by exact Hh. cbn.
    now rewrite edge_same.
Qed.

Lemma run_frame_replay v self frame b :
  let r := run_frame sqrt v frame self in
  button_down b (final r) = replay b (calls r) (button_down b self).
Proof.
  intros r. rewrite <- replay_filter. subst r.
  rewrite run_frame_button_edge. now rewrite replay_edge.
Qed.

(** C9.  In both forks and for each button, the calls a frame makes for the
    button are exactly the edge between the flag before and the flag after
    the frame: none when the flag keeps its value, one [mouseDown] when it
    goes from false to true, one [mouseUp] when it goes from true to false.
    Hence, over any run of the loop, the flag is what the button calls made
    so far add up to. *)
Theorem button_flag_follows_calls (v : Variant) (b : Button) :
  (forall self frame,
     let r := run_frame sqrt v frame self in
     filter (is_button b) (calls r)
     = edge b (button_down b self) (button_down b (final r)))
  /\ (forall frames self,
     let r := run sqrt v frames self in
     button_down b (final r)
     = replay b (concat (calls r)) (button_down b self)).
Proof.
  split; [intros; apply run_frame_button_edge|].
  induction frames as [|[en frame] rest IH]; intros self r; subst r.
  - reflexivity.
  - cbn [run].
    pose proof (run_frame_replay v (set_enabled en self) frame b) as Hf.
    cbv zeta in Hf.
    destruct (run_frame sqrt v frame (set_enabled en self))
      as [[[u|e] s1] out] eqn:E; cbn [final calls fst snd] in Hf.
    + specialize (IH s1). cbv zeta in IH.
      destruct (run sqrt v rest s1) as [[r2 s2] outs].
      cbn [final calls fst snd concat] in IH |- *.
      rewrite replay_app, IH, Hf.
      destruct b; reflexivity.
    + cbn [final calls fst snd concat]. rewrite app_nil_r, Hf.
      destruct b; reflexivity.
Qed.

Lemma run_frame_frozen v self frame :
  enabled self = false \/ multi_hand_landmarks frame = None ->
  let r := run_frame sqrt v frame self in
  filter is_click (calls r) = []
  /\ left_button_down (final r) = left_button_down self
  /\ right_button_down (final r) = right_button_down self.
Proof.
  intros H r. subst r.
  destruct (multi_hand_landmarks frame) as [hand|] eqn:Hh.
  - destruct H as [He|]; [|discriminate].
    destruct (run_frame_buttons v frame hand self is_click
                ltac:(reflexivity) ltac:(reflexivity) Hh) as [Hv Hc].
    cbv zeta in Hv, Hc. unfold click_view in Hv.
    injection Hv as _ _ _ Hl Hr. rewrite He in *.
    rewrite Hc, Hl, Hr.
    destruct (outcome (run_frame sqrt v frame self));
      rewrite ?edge_same; repeat split; reflexivity.
  - rewrite run_frame_no_hand by exact Hh. repeat split; reflexivity.
Qed.

(** C6.  In a frame processed with [enabled] false or without a hand, no
    button call is made and both flags keep their values; so over any run
    of such frames a button that was down stays down, until a frame with a
    hand is processed with [enabled] true. *)
Theorem buttons_frozen_without_hand_or_disabled (v : Variant) :
  (forall self frame,
     enabled self = false \/ multi_hand_landmarks frame = None ->
     let r := run_frame sqrt v frame self in
     filter is_click (calls r) = []
     /\ left_button_down (final r) = left_button_down self
     /\ right_button_down (final r) = right_button_down self)
  /\ (forall frames self,
     Forall (fun p => fst p = false \/ multi_hand_landmarks (snd p) = None)
            frames ->
     let r := run sqrt v frames self in
     Forall (fun out => filter is_click out = []) (calls r)
     /\ left_button_down (final r) = left_button_down self
     /\ right_button_down (final r) = right_button_down self).
Proof.
  split; [intros self frame; apply run_frame_frozen|].
  induction frames as [|[en frame] rest IH]; intros self HF r; subst r.
  - repeat split. constructor.
  - inversion HF as [|? ? Hhd Htl]; subst. cbn [fst snd] in Hhd.
    cbn [run].
    assert (Hen : enabled (set_enabled en self) = false
                  \/ multi_hand_landmarks frame = None).
    { destruct Hhd as [->|Hn]; [left; reflexivity | right; exact Hn]. }
    destruct (run_frame_frozen v (set_enabled en self) frame Hen)
      as (Hc & Hl & Hr).
    destruct (run_frame sqrt v frame (set_enabled en self))
      as [[[u|e] s1] out];
      cbn [final calls fst snd left_button_down right_button_down
           set_enabled] in Hc, Hl, Hr.
    + destruct (IH s1 Htl) as (Hc' & Hl' & Hr').
      destruct (run sqrt v rest s1) as [[r2 s2] outs].
      cbn [final calls fst snd] in Hc', Hl', Hr' |- *.
      repeat split; [constructor; assumption | congruence | congruence].
    + cbn [final calls fst snd].
      repeat split; [repeat constructor; assumption | exact Hl | exact Hr].
Qed.

Lemma run_frame_left_enabled v self frame hand :
  multi_hand_landmarks frame = Some hand ->
  enabled self = true ->
  let r := run_frame sqrt v frame self in
  let want := Py.ltb (thumb_index_dist_of sqrt frame hand)
                     (inject_Z (left_click_threshold self)) in
  outcome r = Ok tt ->
  left_button_down (final r) = want
  /\ left_click_threshold (final r) = left_click_threshold self
  /\ filter (is_button left) (calls r)
     = edge left (left_button_down self) want.
Proof.
  intros Hh He r want Ho. subst r.
  destruct (run_frame_buttons v frame hand self (is_button left)
              ltac:(reflexivity) ltac:(reflexivity) Hh) as [Hv Hc].
  cbv zeta in Hv, Hc. unfold click_view in Hv.
  injection Hv as _ Ht _ Hl _. rewrite Ho, He in *.
  rewrite Hc, filter_app, !filter_edge. cbn [is_button].
  rewrite app_nil_r. auto.
Qed.

Lemma run_left_trace v fs ds :
  Forall2 (shows sqrt) fs ds ->
  forall self,
    let r := run sqrt v (map (pair true) fs) self in
    outcome r = Ok tt ->
    map (filter (is_button left)) (calls r)
    = left_trace (left_click_threshold self) (left_button_down self) ds.
Proof.
  induction 1 as [|frame d fs ds (hand & Hh & Hd) _ IH]; intros self r Ho;
    subst r; [reflexivity|].
  cbn [map run] in Ho |- *.
  pose proof (run_frame_left_enabled v (set_enabled true self) frame hand
                Hh eq_refl) as Hf.
  cbv zeta in Hf.
  destruct (run_frame sqrt v frame (set_enabled true self))
    as [[[u|e] s1] out] eqn:E; [|discriminate Ho].
  destruct u. destruct (Hf eq_refl) as (Hl & Ht & Hc).
  cbn [final calls fst snd left_click_threshold left_button_down
       set_enabled] in Hl, Ht, Hc.
  specialize (IH s1). cbv zeta in IH.
  destruct (run sqrt v (map (pair true) fs) s1) as [[r2 s2] outs].
  cbn [outcome calls fst snd map left_trace] in Ho, IH |- *.
  rewrite Hc, (IH Ho), Hl, Ht.
  rewrite (ltb_compat _ _ _ Hd). reflexivity.
Qed.

(** C4.  In a frame with a hand, processed enabled and to its end, the
    left button is down afterwards exactly when the thumb-index distance is
    below [left_click_threshold], and the left-button calls of the frame are
    the edge from the state before: [mouseDown] on Up to Down, [mouseUp] on
    Down to Up, nothing otherwise.  Five such frames with distances 50, 50,
    20, 20, 50 and threshold 30, starting Up, give [mouseDown] in frame 3,
    [mouseUp] in frame 5 and no other left-button call. *)
Theorem left_button_edge_triggered (v : Variant) :
  (forall self frame hand,
     multi_hand_landmarks frame = Some hand ->
     enabled self = true ->
     let r := run_frame sqrt v frame self in
     let below := Py.ltb (thumb_index_dist_of sqrt frame hand)
                        (inject_Z (left_click_threshold self)) in
     outcome r = Ok tt ->
     left_button_down (final r) = below
     /\ filter (is_button left) (calls r)
        = edge left (left_button_down self) below)
  /\ (forall self frames,
     Forall2 (shows sqrt) frames [50; 50; 20; 20; 50]%Q ->
     left_click_threshold self = 30 ->
     left_button_down self = false ->
     let r := run sqrt v (map (pair true) frames) self in
     outcome r = Ok tt ->
     map (filter (is_button left)) (calls r)
     = [[]; []; [mouseDown left]; []; [mouseUp left]]).
Proof.
  split.
  - intros self frame hand Hh He r below Ho.
    destruct (run_frame_left_enabled v self frame hand Hh He Ho)
      as (Hl & _ & Hc). split; assumption.
  - intros self frames Hf Ht Hl r Ho. subst r.
    rewrite (run_left_trace v frames _ Hf self Ho), Ht, Hl.
    reflexivity.
Qed.
End Buttons.

Lemma buttons_frozen_without_hand_or_disabled_witness :
  filter is_click
    (calls (run_frame Sample.sqrt mouse9 (Sample.vga (Some (Sample.pinch 20)))
              (set_enabled false (init mouse9 1920 1080)))) = [].
Proof.
  apply (proj1 (buttons_frozen_without_hand_or_disabled Sample.sqrt mouse9)
           (set_enabled false (init mouse9 1920 1080))
           (Sample.vga (Some (Sample.pinch 20)))).
  left. reflexivity.
Defined.

Lemma left_button_edge_triggered_witness :
  map (filter (is_button left))
      (calls (run Sample.sqrt MainV1
                (map (pair true)
                     (map (fun d => Sample.vga (Some (Sample.pinch d)))
                          [50; 50; 20; 20; 50]))
                (init MainV1 1920 1080)))
  = [[]; []; [mouseDown left]; []; [mouseUp left]].
Proof.
  apply (proj2 (left_button_edge_triggered Sample.sqrt MainV1)
           (init MainV1 1920 1080)
           (map (fun d => Sample.vga (Some (Sample.pinch d)))
                [50; 50; 20; 20; 50])).
  - repeat constructor; eexists; (split; [reflexivity | vm_compute; reflexivity]).
  - reflexivity.
  - reflexivity.
  - vm_compute. reflexivity.
Defined.

(** ** The scroll controller *)

Section Scroll.
Variable sqrt : Q -> Q.

(** The scroll state and the scroll calls of a frame with a hand are those
    of its scroll block: the blocks after it touch neither. *)
Lemma run_frame_scroll v frame hand self :
  multi_hand_landmarks frame = Some hand ->
  let r := run_frame sqrt v frame self in
  let b := scroll_block (landmark hand 8)
             (is_finger_extended hand 8 6) (is_finger_extended hand 12 10)
             (Py.ltb (close_dist_of sqrt frame hand) 30) self in
  scroll_view (final r) = scroll_view (final b)
  /\ filter is_scroll (calls r) = filter is_scroll (calls b).
Proof.
  intros Hh r b. subst r b.
  unfold run_frame. rewrite bind_gets, Hh.
  apply bind_quiet_r. intros _.
  apply quiet_bind.
  - apply smooth_and_move_footprint; reflexivity.
  - intros _. apply click_blocks_footprint; reflexivity.
Qed.

(** A frame with the scroll gesture. *)
Lemma run_frame_scroll_gesture v frame hand self :
  multi_hand_landmarks frame = Some hand ->
  scroll_sensitivity self <> 0 ->
  scroll_gesture sqrt frame hand = true ->
  let r := run_frame sqrt v frame self in
  let current := Py.int (y (landmark hand 8)
                         * inject_Z (screen_height self)) in
  scroll_mode (final r) = true
  /\ scroll_y_prev (final r) = Some current
  /\ filter is_scroll (calls r)
     = match scroll_y_prev self with
       | Some previous =>
           let delta := current - previous in
           if (Z.abs delta >? scroll_threshold self) && enabled self
           then [scroll (- Z.quot delta (scroll_sensitivity self)
                         * scroll_multiplier self)]
           else []
       | None => []
       end.
Proof.
  intros Hh Hs Hg r current. subst r.
  destruct (run_frame_scroll v frame hand self Hh) as [Hv Hc].
  cbv zeta in Hv, Hc. unfold scroll_view in Hv. injection Hv as Hm Hp.
  rewrite Hm, Hp, Hc. clear Hm Hp Hc.
  unfold scroll_gesture in Hg.
  apply andb_prop in Hg as [Hg H3]. apply andb_prop in Hg as [H1 H2].
  rewrite H1, H2, H3.
  rewrite (scroll_block_enter (landmark hand 8) self Hs).
  cbn [final calls fst snd scroll_mode scroll_y_prev
       set_scroll_y_prev set_scroll_mode]. fold current.
  repeat split.
  destruct (scroll_y_prev self) as [previous|]; [|reflexivity].
  cbv zeta. destruct (_ && _); [|reflexivity].
  cbn. rewrite Z.mul_opp_l. reflexivity.
Qed.

(** C5.  In both forks, for a frame with a hand and a scroll sensitivity
    other than 0.  On the scroll gesture: when a previous Y exists,
    [delta = currentY - previousY], and the frame scrolls by
    [-(trunc (delta / sensitivity)) * multiplier] (the quotient truncated
    toward zero before the multiplication) exactly when
    [|delta| > scroll_threshold] and the engine is enabled; no scroll is
    sent otherwise; and [scroll_y_prev] becomes [currentY] whether or not a
    scroll was sent.  Off the scroll gesture, scroll mode is left and
    [scroll_y_prev] becomes absent. *)
Theorem scroll_controller
    (v : Variant) (self : HandMouseController) (frame : Frame)
    (hand : NormalizedLandmarkList) :
  multi_hand_landmarks frame = Some hand ->
  scroll_sensitivity self <> 0 ->
  let r := run_frame sqrt v frame self in
  let current := Py.int (y (landmark hand 8)
                         * inject_Z (screen_height self)) in
  (scroll_gesture sqrt frame hand = true ->
     scroll_mode (final r) = true
     /\ scroll_y_prev (final r) = Some current
     /\ filter is_scroll (calls r)
        = match scroll_y_prev self with
          | Some previous =>
              let delta := current - previous in
              if (Z.abs delta >? scroll_threshold self) && enabled self
              then [scroll (- Z.quot delta (scroll_sensitivity self)
                            * scroll_multiplier self)]
              else []
          | None => []
          end)
  /\ (scroll_gesture sqrt frame hand = false ->
     scroll_mode (final r) = false
     /\ scroll_y_prev (final r) = None
     /\ filter is_scroll (calls r) = []).
Proof.
  intros Hh Hs r current. split; intros Hg.
  - apply run_frame_scroll_gesture; assumption.
  - subst r.
    destruct (run_frame_scroll v frame hand self Hh) as [Hv Hc].
    cbv zeta in Hv, Hc. unfold scroll_view in Hv. injection Hv as Hm Hp.
    rewrite Hm, Hp, Hc.
    rewrite scroll_block_exit by exact Hg. repeat split.
Qed.

(** C10.  In both forks, an enabled frame on the scroll gesture, with a
    previous Y and [scroll_threshold < |delta| < scroll_sensitivity], still
    sends a scroll, and its amount is 0: the quotient truncates to 0 before
    the multiplication, and nothing suppresses a zero amount. *)
Theorem zero_scroll_is_sent
    (v : Variant) (self : HandMouseController) (frame : Frame)
    (hand : NormalizedLandmarkList) (previous : Z) :
  multi_hand_landmarks frame = Some hand ->
  scroll_gesture sqrt frame hand = true ->
  enabled self = true ->
  scroll_y_prev self = Some previous ->
  let delta := Py.int (y (landmark hand 8) * inject_Z (screen_height self))
               - previous in
  scroll_threshold self < Z.abs delta < scroll_sensitivity self ->
  Z.quot delta (scroll_sensitivity self) = 0
  /\ filter is_scroll (calls (run_frame sqrt v frame self)) = [scroll 0].
Proof.
  intros Hh Hg He Hp delta Hd.
  assert (Hq : Z.quot delta (scroll_sensitivity self) = 0).
  { apply Z.quot_small_iff; [lia|].
    rewrite Z.abs_eq with (n := scroll_sensitivity self) by lia. lia. }
  split; [exact Hq|].
  destruct (run_frame_scroll_gesture v frame hand self Hh ltac:(lia) Hg)
    as (_ & _ & Hc).
  rewrite Hc, Hp. cbv zeta. fold delta.
  rewrite He. replace (Z.abs delta >? scroll_threshold self) with true
    by (symmetry; apply Z.gtb_lt; lia).
  cbn [andb]. rewrite Hq. reflexivity.
Qed.
End Scroll.

Lemma scroll_controller_witness :
  filter is_scroll
    (calls (run_frame Sample.sqrt MainV1
              (Sample.vga (Some (Sample.scroll_hand (1 # 2))))
              (set_scroll_y_prev (Some 500) (init MainV1 1920 1080))))
  = [scroll (-32)].
Proof.
  destruct (scroll_controller Sample.sqrt MainV1
              (set_scroll_y_prev (Some 500) (init MainV1 1920 1080))
              (Sample.vga (Some (Sample.scroll_hand (1 # 2))))
              (Sample.scroll_hand (1 # 2)) eq_refl) as [H _].
  - simpl. lia.
  - destruct (H eq_refl) as (_ & _ & Hc). exact Hc.
Defined.

Lemma zero_scroll_is_sent_witness :
  filter is_scroll
    (calls (run_frame Sample.sqrt MainV1
              (Sample.vga (Some (Sample.scroll_hand (1 # 2))))
              (Sample.coarse_scroll 530)))
  = [scroll 0].
Proof.
  apply (zero_scroll_is_sent Sample.sqrt MainV1 (Sample.coarse_scroll 530)
           (Sample.vga (Some (Sample.scroll_hand (1 # 2))))
           (Sample.scroll_hand (1 # 2)) 530 eq_refl eq_refl eq_refl eq_refl).
  simpl. lia.
Defined.

(** * Further properties *)

(** ** More on Python numbers and the mapper's arithmetic *)

Lemma int_compat p q : (p == q)%Q -> Py.int p = Py.int q.
Proof.
  destruct p as [a d], q as [a' d']. unfold Qeq, Py.int. simpl. intro H.
  rewrite <- (Z.quot_mul_cancel_r a (Z.pos d) (Z.pos d')) by lia.
  rewrite <- (Z.quot_mul_cancel_r a' (Z.pos d') (Z.pos d)) by lia.
  rewrite H. f_equal. lia.
Qed.

Lemma int_inject n : Py.int (inject_Z n) = n.
Proof. unfold Py.int, inject_Z. simpl. apply Z.quot_1_r. Qed.

Lemma int_mono_nonneg p q : (0 <= p <= q)%Q -> Py.int p <= Py.int q.
Proof.
  intros [H0 H]. rewrite !int_floor by lra. now apply Qfloor_resp_le.
Qed.

(** The mapper when neither size of the rectangle is zero. *)
Lemma roi_mapping_eq tip fw fh x0 y0 x1 y1 w h self :
  w <> 0 -> h <> 0 ->
  roi_mapping tip fw fh x0 y0 x1 y1 w h self =
    (Ok (Py.int ((Py.max (inject_Z x0)
                    (Py.min (inject_Z x1) (x tip * inject_Z fw))
                  - inject_Z x0) / inject_Z w * inject_Z (screen_width self)),
         Py.int ((Py.max (inject_Z y0)
                    (Py.min (inject_Z y1) (y tip * inject_Z fh))
                  - inject_Z y0) / inject_Z h * inject_Z (screen_height self))),
     self, []).
Proof.
  intros Hw Hh. unfold roi_mapping, bind.
  rewrite truediv_ok by (apply inject_Z_nonzero; lia).
  unfold gets at 1.
  rewrite truediv_ok by (apply inject_Z_nonzero; lia).
  reflexivity.
Qed.

(** One axis of the mapper: a pixel [p], the rectangle from [lo] to [hi],
    a screen of [size]. *)
Lemma axis_mono lo hi size p1 p2 :
  lo < hi -> 0 <= size -> (p1 <= p2)%Q ->
  Py.int ((Py.max (inject_Z lo) (Py.min (inject_Z hi) p1) - inject_Z lo)
          / inject_Z (hi - lo) * inject_Z size)
  <= Py.int ((Py.max (inject_Z lo) (Py.min (inject_Z hi) p2) - inject_Z lo)
             / inject_Z (hi - lo) * inject_Z size).
Proof.
  intros Hlt Hs Hp.
  assert (Hlt' : (inject_Z lo < inject_Z hi)%Q) by (rewrite <- Zlt_Qlt; lia).
  assert (Hs' : (0 <= inject_Z size)%Q)
    by (change 0%Q with (inject_Z 0); rewrite <- Zle_Qle; lia).
  pose proof (clamp_bounds (inject_Z lo) (inject_Z hi) p1 ltac:(lra)) as H1.
  pose proof (clamp_bounds (inject_Z lo) (inject_Z hi) p2 ltac:(lra)) as H2.
  pose proof (clamp_mono (inject_Z lo) (inject_Z hi) p1 p2 Hp) as Hm.
  set (c1 := Py.max _ (Py.min _ p1)) in *.
  set (c2 := Py.max _ (Py.min _ p2)) in *.
  apply int_mono_nonneg. rewrite !inject_Z_sub. split.
  - apply rescale_range; [exact H1 | lra | lia].
  - apply Qmult_le_compat_r; [|exact Hs'].
    unfold Qdiv. apply Qmult_le_compat_r; [lra|].
    apply Qlt_le_weak, Qinv_lt_0_compat. lra.
Qed.

Lemma axis_low lo hi size p :
  lo < hi -> (p <= inject_Z lo)%Q ->
  Py.int ((Py.max (inject_Z lo) (Py.min (inject_Z hi) p) - inject_Z lo)
          / inject_Z (hi - lo) * inject_Z size) = 0.
Proof.
  intros Hlt Hp.
  assert (Hlt' : (inject_Z lo < inject_Z hi)%Q) by (rewrite <- Zlt_Qlt; lia).
  apply int_zero.
  assert (E : (Py.max (inject_Z lo) (Py.min (inject_Z hi) p) == inject_Z lo)%Q).
  { unfold Py.max, Py.min. cases_ltb; lra. }
  rewrite E. field. apply inject_Z_nonzero. lia.
Qed.

Lemma axis_high lo hi size p :
  lo < hi -> (inject_Z hi <= p)%Q ->
  Py.int ((Py.max (inject_Z lo) (Py.min (inject_Z hi) p) - inject_Z lo)
          / inject_Z (hi - lo) * inject_Z size) = size.
Proof.
  intros Hlt Hp.
  assert (Hlt' : (inject_Z lo < inject_Z hi)%Q) by (rewrite <- Zlt_Qlt; lia).
  rewrite <- (int_inject size) at 2. apply int_compat.
  assert (E : (Py.max (inject_Z lo) (Py.min (inject_Z hi) p) == inject_Z hi)%Q).
  { unfold Py.max, Py.min. cases_ltb; lra. }
  rewrite E, inject_Z_sub. field. lra.
Qed.

Lemma axis_centre m f size c :
  0 < f - m - m -> (c == 1 # 2)%Q ->
  Py.int ((Py.max (inject_Z m) (Py.min (inject_Z (f - m)) (c * inject_Z f))
           - inject_Z m)
          / inject_Z (f - m - m) * inject_Z size) = Z.quot size 2.
Proof.
  intros Hpos Hc.
  assert (Hf : (inject_Z (f - m - m) == inject_Z f - inject_Z m - inject_Z m)%Q)
    by (rewrite !inject_Z_sub; reflexivity).
  assert (Hpos' : (0 < inject_Z f - inject_Z m - inject_Z m)%Q).
  { rewrite <- Hf. change 0%Q with (inject_Z 0). rewrite <- Zlt_Qlt. lia. }
  rewrite <- (int_truediv size 2) by lia. apply int_compat.
  assert (E : (Py.max (inject_Z m) (Py.min (inject_Z (f - m)) (c * inject_Z f))
               == inject_Z f / 2)%Q).
  { rewrite clamp_id; [rewrite Hc; field|].
    rewrite Hc, inject_Z_sub. lra. }
  rewrite E, Hf. field. lra.
Qed.

(** ** The smoothing filter ([MainV1.py]) *)

Lemma quot_between lo hi t s :
  0 < s -> lo * s <= t <= hi * s -> lo <= Z.quot t s <= hi.
Proof.
  intros Hs [Hl Hh].
  destruct (Z_le_gt_dec 0 t) as [Ht|Ht].
  - rewrite Z.quot_div_nonneg by lia. split.
    + apply Z.div_le_lower_bound; lia.
    + apply Z.div_le_upper_bound; lia.
  - replace t with (- (- t)) by lia. rewrite Z.quot_opp_l by lia.
    rewrite Z.quot_div_nonneg by lia.
    assert ((- t) / s <= - lo) by (apply Z.div_le_upper_bound; lia).
    assert (- hi <= (- t) / s) by (apply Z.div_le_lower_bound; lia).
    lia.
Qed.

Lemma weighted_sum_between {A} (f : A -> Z) lo hi (q : list A) :
  Forall (fun p => lo <= f p <= hi) q ->
  forall ws, length ws = length q -> Forall (fun w => 0 <= w) ws ->
  lo * sum ws <= sum (map (fun '(p, w) => f p * w) (combine q ws))
              <= hi * sum ws.
Proof.
  induction 1 as [|p q Hp _ IH]; intros [|w ws] Hl Hw; simpl in Hl;
    try discriminate.
  - unfold sum. simpl. lia.
  - inversion Hw as [|? ? Hw0 Hws]; subst.
    cbn [combine map]. rewrite !sum_cons.
    specialize (IH ws ltac:(lia) Hws). nia.
Qed.

Lemma weights_nonneg n k : Forall (fun w => 0 <= w) (map Z.of_nat (seq k n)).
Proof.
  apply Forall_forall. intros w Hw. apply in_map_iff in Hw as (i & <- & _).
  lia.
Qed.

Lemma deque_append_incl {A} (q : list A) a p :
  In p (deque_append q a) -> In p q \/ p = a.
Proof.
  unfold deque_append. cbv zeta. intros H.
  assert (Hin : In p (q ++ [a])).
  { rewrite <- (firstn_skipn (length (q ++ [a]) - maxlen) (q ++ [a])).
    apply in_or_app. right. exact H. }
  apply in_app_or in Hin as [Hin|[Hin|[]]]; auto.
Qed.

(** On a screen of at least one pixel each way [smooth_coordinates] never
    raises and makes no call; it appends the point to the history, which
    holds at most 15 points afterwards, and returns a pixel of the screen,
    [0 .. screen_width - 1] by [0 .. screen_height - 1], whatever the
    point and the history are. *)
Theorem smooth_coordinates_on_screen
    (self : HandMouseController) (new_x new_y : Z) :
  1 <= screen_width self -> 1 <= screen_height self ->
  exists cursor_x cursor_y,
    smooth_coordinates new_x new_y self
    = (Ok (cursor_x, cursor_y),
       set_smooth_queue (deque_append (smooth_queue self) (new_x, new_y)) self,
       [])
    /\ 0 <= cursor_x <= screen_width self - 1
    /\ 0 <= cursor_y <= screen_height self - 1
    /\ (length (deque_append (smooth_queue self) (new_x, new_y)) <= maxlen)%nat.
Proof.
  intros HW HH. rewrite smooth_coordinates_eq. do 2 eexists.
  split; [reflexivity|]. rewrite deque_append_length.
  repeat split; lia.
Qed.

(** The same on a sample input. *)
Lemma smooth_coordinates_on_screen_witness :
  exists cursor_x cursor_y,
    smooth_coordinates 2500 (-7) (init MainV1 1920 1080)
    = (Ok (cursor_x, cursor_y),
       set_smooth_queue [(2500, -7)] (init MainV1 1920 1080), [])
    /\ 0 <= cursor_x <= 1919
    /\ 0 <= cursor_y <= 1079
    /\ (length [(2500, -7)%Z] <= maxlen)%nat.
Proof.
  apply (smooth_coordinates_on_screen (init MainV1 1920 1080) 2500 (-7));
    simpl; lia.
Defined.

(** The weighted average is a convex combination: when the points of the
    history and the new point lie in a box inside the screen, so does the
    point [smooth_coordinates] returns.  Truncation towards zero does not
    take it out of the box. *)
Theorem weighted_average_between_extremes
    (self : HandMouseController) (new_x new_y lo_x hi_x lo_y hi_y : Z) :
  let inside p := lo_x <= fst p <= hi_x /\ lo_y <= snd p <= hi_y in
  Forall inside (smooth_queue self) -> inside (new_x, new_y) ->
  0 <= lo_x -> hi_x <= screen_width self - 1 ->
  0 <= lo_y -> hi_y <= screen_height self - 1 ->
  exists cursor_x cursor_y self',
    smooth_coordinates new_x new_y self = (Ok (cursor_x, cursor_y), self', [])
    /\ inside (cursor_x, cursor_y).
Proof.
  intros inside Hq Hn Hlx Hhx Hly Hhy.
  rewrite smooth_coordinates_eq.
  set (q := deque_append (smooth_queue self) (new_x, new_y)).
  set (ws := map Z.of_nat (seq 1 (length q))).
  assert (Hall : Forall inside q).
  { apply Forall_forall. intros p Hp.
    apply deque_append_incl in Hp as [Hp| ->]; [|exact Hn].
    rewrite Forall_forall in Hq. apply Hq, Hp. }
  assert (Hlen : (0 < length q)%nat).
  { unfold q. rewrite deque_append_length. unfold maxlen. lia. }
  pose proof (sum_weights_pos (length q) 0 Hlen) as Hs. fold ws in Hs.
  assert (Hw : length ws = length q).
  { unfold ws. now rewrite length_map, length_seq. }
  assert (Hx : lo_x * sum ws
               <= sum (map (fun '(x, _, w) => x * w) (combine q ws))
               <= hi_x * sum ws).
  { replace (map (fun '(x, _, w) => x * w) (combine q ws))
      with (map (fun '(p, w) => fst p * w) (combine q ws))
      by (apply map_ext; intros [[? ?] ?]; reflexivity).
    apply weighted_sum_between; [|exact Hw | apply weights_nonneg].
    eapply Forall_impl; [|exact Hall]. intros p Hp. apply Hp. }
  assert (Hy : lo_y * sum ws
               <= sum (map (fun '(_, y, w) => y * w) (combine q ws))
               <= hi_y * sum ws).
  { replace (map (fun '(_, y, w) => y * w) (combine q ws))
      with (map (fun '(p, w) => snd p * w) (combine q ws))
      by (apply map_ext; intros [[? ?] ?]; reflexivity).
    apply weighted_sum_between; [|exact Hw | apply weights_nonneg].
    eapply Forall_impl; [|exact Hall]. intros p Hp. apply Hp. }
  apply quot_between in Hx; [|exact Hs].
  apply quot_between in Hy; [|exact Hs].
  do 3 eexists. split; [reflexivity|].
  unfold inside. cbn [fst snd]. lia.
Qed.

(** The same on a sample input. *)
Lemma weighted_average_between_extremes_witness :
  exists cursor_x cursor_y self',
    smooth_coordinates 300 120
      (set_smooth_queue [(100, 100); (200, 150)] (init MainV1 1920 1080))
    = (Ok (cursor_x, cursor_y), self', [])
    /\ (100 <= cursor_x <= 300 /\ 100 <= cursor_y <= 150).
Proof.
  apply (weighted_average_between_extremes
           (set_smooth_queue [(100, 100); (200, 150)] (init MainV1 1920 1080))
           300 120 100 300 100 150).
  - repeat constructor; simpl; lia.
  - simpl. lia.
  - lia.
  - simpl. lia.
  - lia.
  - simpl. lia.
Defined.

(** ** A small program logic for the blocks

    [hoare Inv Q m R]: from a state with [Inv], [m] ends in a state with
    [Inv], makes only calls with [Q], and its outcome has [R]. *)

(** The equations of [bind]. *)
Lemma bind_modify {St B} (f : St -> St) (k : unit -> M St B) s :
  bind (modify f) k s = k tt (f s).
Proof.
  unfold bind, modify. destruct (k tt (f s)) as [[? ?] ?]. reflexivity.
Qed.

Lemma bind_emit {St B} c (k : unit -> M St B) (s : St) :
  bind (emit c) k s = (outcome (k tt s), final (k tt s), c :: calls (k tt s)).
Proof.
  unfold bind, emit. destruct (k tt s) as [[? ?] ?]. reflexivity.
Qed.

Lemma bind_return {St A B} (a : A) (k : A -> M St B) (s : St) :
  bind (ret a) k s = k a s.
Proof.
  unfold bind, ret. destruct (k a s) as [[? ?] ?]. reflexivity.
Qed.

Lemma bind_truediv {St B} a b (k : Q -> M St B) (s : St) :
  bind (truediv a b) k s
  = if Qeq_bool b 0 then (Raise ZeroDivisionError, s, []) else k (a / b)%Q s.
Proof.
  unfold truediv. destruct (Qeq_bool b 0).
  - reflexivity.
  - apply bind_return.
Qed.

Lemma bind_assoc {St A B C} (m : M St A) (k : A -> M St B) (h : B -> M St C) s :
  bind (bind m k) h s = bind m (fun a => bind (k a) h) s.
Proof.
  unfold bind. destruct (m s) as [[[a|e] s1] o1]; [|reflexivity].
  destruct (k a s1) as [[[b|e] s2] o2]; [|reflexivity].
  destruct (h b s2) as [[r s3] o3]. now rewrite app_assoc.
Qed.

Section Triples.
Context (Inv : HandMouseController -> Prop) (Q : Command -> Prop).

Lemma meets_cons {A} (R : result A -> Prop) c
    (t : result A * HandMouseController * list Command) :
  Q c -> meets Inv Q R t -> meets Inv Q R (outcome t, final t, c :: calls t).
Proof.
  unfold meets. intros Hc (HI & HQ & HR). repeat split; auto.
  constructor; auto.
Qed.

Lemma meets_bind {A B} (m : Ctl A) (k : A -> Ctl B)
    (Rm : result A -> Prop) (R : result B -> Prop) s :
  meets Inv Q Rm (m s) ->
  (forall a s1, Inv s1 -> Rm (Ok a) -> meets Inv Q R (k a s1)) ->
  (forall e, Rm (Raise e) -> R (Raise e)) ->
  meets Inv Q R (bind m k s).
Proof.
  unfold meets. intros (HI & HQ & HR) Hk He.
  destruct (bind_cases m k s)
    as [(a & s1 & o1 & E & ->) | (e & s1 & o1 & E & ->)];
    rewrite E in HI, HQ, HR; cbn in HI, HQ, HR.
  - destruct (Hk a s1 HI HR) as (HI' & HQ' & HR').
    cbn. split; [exact HI'|]. split; [|exact HR'].
    apply Forall_app. split; assumption.
  - cbn. split; [exact HI|]. split; [exact HQ|]. apply He, HR.
Qed.
End Triples.

(** One step of a block: the next read, write, division or call. *)
Ltac exec_step :=
  first
    [ rewrite bind_assoc
    | rewrite bind_gets
    | rewrite bind_modify
    | rewrite bind_return
    | rewrite bind_truediv
    | rewrite bind_emit; apply meets_cons; [try solve [auto] |] ].


Ltac leaf := unfold meets; repeat split; cbn; auto.

(** Disabled, the scroll block makes no call. *)
Lemma scroll_block_disabled tip a b c :
  hoare (fun s => enabled s = false) (fun _ => False)
        (scroll_block tip a b c) anything.
Proof.
  intros s Hs. unfold scroll_block.
  destruct (a && b && c).
  - repeat exec_step. cbn [scroll_y_prev set_scroll_mode].
    destruct (scroll_y_prev s).
    + repeat exec_step. cbn [enabled set_scroll_mode]. rewrite Hs, andb_false_r.
      repeat exec_step. leaf.
    + repeat exec_step. leaf.
  - repeat exec_step. leaf.
Qed.

Section Blocks.
Context (Inv : HandMouseController -> Prop) (Q : Command -> Prop).

Lemma hoare_scroll_block tip a b c :
  (forall v s, Inv s -> Inv (set_scroll_mode v s)) ->
  (forall v s, Inv s -> Inv (set_scroll_y_prev v s)) ->
  (forall n, Q (scroll n)) ->
  hoare Inv Q (scroll_block tip a b c) anything.
Proof.
  intros H1 H2 H3 s Hs. unfold scroll_block.
  destruct (a && b && c).
  - repeat exec_step. cbn [scroll_y_prev set_scroll_mode].
    destruct (scroll_y_prev s).
    + repeat exec_step.
      destruct (_ && _).
      * repeat exec_step. destruct (Qeq_bool _ _).
        -- leaf.
        -- repeat exec_step. leaf.
      * repeat exec_step. leaf.
    + repeat exec_step. leaf.
  - repeat exec_step. leaf.
Qed.

Lemma hoare_adaptive_smoothing d :
  hoare Inv Q (adaptive_smoothing d) anything.
Proof.
  intros s Hs. unfold adaptive_smoothing.
  repeat exec_step. destruct (Py.ltb _ _).
  - repeat exec_step. leaf.
  - repeat exec_step. destruct (Py.ltb _ _).
    + repeat exec_step. leaf.
    + repeat exec_step. destruct (Qeq_bool _ _).
      * leaf.
      * repeat exec_step. leaf.
Qed.

Lemma hoare_roi_mapping tip fw fh x0 y0 x1 y1 w h :
  hoare Inv Q (roi_mapping tip fw fh x0 y0 x1 y1 w h) anything.
Proof.
  intros s Hs. unfold roi_mapping.
  repeat exec_step. destruct (Qeq_bool _ _); [leaf|].
  repeat exec_step. destruct (Qeq_bool _ _); [leaf|].
  repeat exec_step. leaf.
Qed.

Lemma hoare_click_blocks d1 d2 d3 :
  (forall v s, Inv s -> Inv (set_left_button_down v s)) ->
  (forall v s, Inv s -> Inv (set_right_button_down v s)) ->
  (forall b, Q (mouseDown b)) -> (forall b, Q (mouseUp b)) ->
  hoare Inv Q (click_blocks d1 d2 d3) (fun r => r = Ok tt).
Proof.
  intros H1 H2 H3 H4 s Hs. rewrite click_blocks_eq.
  unfold meets, edge. cbn [final calls outcome fst snd].
  repeat split; auto.
  apply Forall_app. split.
  - destruct (xorb _ _); [|constructor].
    constructor; [|constructor]. destruct (if enabled s then _ else _); auto.
  - destruct (xorb _ _); [|constructor].
    constructor; [|constructor]. destruct (if enabled s then _ else _); auto.
Qed.
End Blocks.

Section Moves.
Context (Inv : HandMouseController -> Prop) (Q : Command -> Prop).

Lemma hoare_move_block_MainV1 tip fw fh x0 y0 x1 y1 w h :
  (forall s p, Inv s ->
     Inv (set_smooth_queue (deque_append (smooth_queue s) p) s)) ->
  (forall s a b, Inv s -> enabled s = true ->
     Q (moveTo (Z.max 0 (Z.min (screen_width s - 1) a))
               (Z.max 0 (Z.min (screen_height s - 1) b)) (1 # 1000))) ->
  hoare Inv Q (move_block_MainV1 tip fw fh x0 y0 x1 y1 w h) anything.
Proof.
  intros Hq Hm s Hs. unfold move_block_MainV1.
  rewrite bind_gets. destruct (negb (scroll_mode s)); [|leaf].
  eapply meets_bind;
    [ apply (hoare_roi_mapping Inv Q); exact Hs
    | intros [mx my] s1 Hs1 _
    | intros; exact Logic.I ].
  rewrite (bind_ok_nil _ _ _ _ _ (smooth_coordinates_eq mx my s1)).
  rewrite bind_gets. cbn [enabled set_smooth_queue].
  destruct (enabled s1) eqn:E.
  - unfold emit, meets. cbn [final calls outcome fst snd].
    repeat split; [apply Hq; exact Hs1 |].
    constructor; [|constructor]. apply (Hm s1); assumption.
  - unfold ret, meets. cbn [final calls outcome fst snd].
    repeat split; [apply Hq; exact Hs1 | constructor].
Qed.

Lemma hoare_move_block_mouse9 smoothing tip fw fh x0 y0 x1 y1 w h :
  (forall s, Inv s -> enabled s = true -> w <> 0 -> h <> 0 ->
     Q (moveTo
          (Py.int ((Py.max (inject_Z x0)
                      (Py.min (inject_Z x1) (x tip * inject_Z fw))
                    - inject_Z x0) / inject_Z w * inject_Z (screen_width s)))
          (Py.int ((Py.max (inject_Z y0)
                      (Py.min (inject_Z y1) (y tip * inject_Z fh))
                    - inject_Z y0) / inject_Z h * inject_Z (screen_height s)))
          smoothing)) ->
  hoare Inv Q (move_block_mouse9 smoothing tip fw fh x0 y0 x1 y1 w h) anything.
Proof.
  intros Hm s Hs. unfold move_block_mouse9.
  rewrite bind_gets. destruct (negb (scroll_mode s)); [|leaf].
  destruct (Z.eq_dec w 0) as [->|Hw].
  { rewrite (bind_raise _ _ _ _ _ _ (roi_mapping_zero_width _ _ _ _ _ _ _ _ _)).
    leaf. }
  destruct (Z.eq_dec h 0) as [->|Hh].
  { rewrite (bind_raise _ _ _ _ _ _
               (roi_mapping_zero_height _ _ _ _ _ _ _ _ _ Hw)).
    leaf. }
  rewrite (bind_ok_nil _ _ _ _ _
             (roi_mapping_eq tip fw fh x0 y0 x1 y1 w h s Hw Hh)).
  cbv zeta. rewrite bind_gets.
  destruct (enabled s) eqn:E.
  - unfold emit, meets. cbn [final calls outcome fst snd].
    repeat split; [exact Hs|]. constructor; [|constructor].
    apply Hm; assumption.
  - leaf.
Qed.
End Moves.

Section Frames.
Variable sqrt : Q -> Q.
Context (Inv : HandMouseController -> Prop) (Q : Command -> Prop).

(** A triple for the iteration from triples for its three stages. *)
Lemma hoare_run_frame (R1 R2 R : result unit -> Prop) v frame :
  (forall tip a b c, hoare Inv Q (scroll_block tip a b c) R1) ->
  (forall s0 hand, Inv s0 -> multi_hand_landmarks frame = Some hand ->
     let m := margin s0 in
     let fw := frame_width frame in
     let fh := frame_height frame in
     hoare Inv Q
       (smooth_and_move v (thumb_index_dist_of sqrt frame hand)
          (landmark hand 8) fw fh m m (fw - m) (fh - m)
          (fw - m - m) (fh - m - m)) R2) ->
  (forall d1 d2 d3,
     hoare Inv Q (click_blocks d1 d2 d3) (fun r => r = Ok tt)) ->
  (forall e, R1 (Raise e) -> R (Raise e)) ->
  (forall e, R2 (Raise e) -> R (Raise e)) ->
  R (Ok tt) ->
  hoare Inv Q (run_frame sqrt v frame) R.
Proof.
  intros H1 H2 H3 HR1 HR2 HR s Hs. unfold run_frame.
  rewrite bind_gets.
  destruct (multi_hand_landmarks frame) as [hand|] eqn:Hh.
  - eapply meets_bind; [apply H1; exact Hs | intros _ s1 Hs1 _ | exact HR1].
    eapply meets_bind;
      [apply (H2 s hand Hs eq_refl); exact Hs1 | intros _ s2 Hs2 _ | exact HR2].
    destruct (H3 (thumb_index_dist_of sqrt frame hand)
                 (thumb_middle_dist_of sqrt frame hand)
                 (close_dist_of sqrt frame hand) s2 Hs2) as (HI & HQ & Ho).
    repeat split; auto. unfold thumb_index_dist_of, thumb_middle_dist_of,
      close_dist_of in Ho. rewrite Ho. exact HR.
  - unfold ret, meets. cbn. repeat split; auto.
Qed.
End Frames.

(** ** Where the pointer is sent *)

Lemma axis_range lo hi size p :
  lo < hi -> 0 <= size ->
  0 <= Py.int ((Py.max (inject_Z lo) (Py.min (inject_Z hi) p) - inject_Z lo)
               / inject_Z (hi - lo) * inject_Z size) <= size.
Proof.
  intros Hlt Hs.
  assert (Hlt' : (inject_Z lo < inject_Z hi)%Q) by (rewrite <- Zlt_Qlt; lia).
  apply int_range. rewrite inject_Z_sub.
  apply rescale_range; [apply clamp_bounds; lra | lra | exact Hs].
Qed.

Section Targets.
Variable sqrt : Q -> Q.

(** Every [moveTo] of a loop iteration of [MainV1.py] goes to a pixel of the
    screen, [0 .. screen_width - 1] by [0 .. screen_height - 1], whatever
    the frame, the hand, the history and the sensing rectangle are. *)
Theorem MainV1_moves_stay_on_screen
    (self : HandMouseController) (frame : Frame) :
  1 <= screen_width self -> 1 <= screen_height self ->
  Forall (moves_within (screen_width self - 1) (screen_height self - 1))
         (calls (run_frame sqrt MainV1 frame self)).
Proof.
  intros HW HH.
  set (W := screen_width self) in *. set (H := screen_height self) in *.
  assert (Ht : hoare (fun s => screen_width s = W /\ screen_height s = H)
                 (moves_within (W - 1) (H - 1))
                 (run_frame sqrt MainV1 frame) anything).
  { apply hoare_run_frame with (R1 := anything) (R2 := anything).
    - intros. apply hoare_scroll_block; [auto | auto | intros; exact Logic.I].
    - intros s0 hand _ _ m fw fh. unfold smooth_and_move.
      apply hoare_move_block_MainV1.
      + intros s p Hs. exact Hs.
      + intros s a b [-> ->] _. cbn. lia.
    - intros. apply hoare_click_blocks; auto; intros; exact Logic.I.
    - intros; exact Logic.I.
    - intros; exact Logic.I.
    - exact Logic.I. }
  destruct (Ht self (conj eq_refl eq_refl)) as (_ & HQ & _). exact HQ.
Qed.
End Targets.

(** The same on a sample input. *)
Lemma MainV1_moves_stay_on_screen_witness :
  Forall (moves_within 1919 1079)
    (calls (run_frame Sample.sqrt MainV1 (Sample.vga (Some (Sample.pinch 20)))
              (init MainV1 1920 1080))).
Proof.
  apply (MainV1_moves_stay_on_screen Sample.sqrt (init MainV1 1920 1080)
           (Sample.vga (Some (Sample.pinch 20)))); simpl; lia.
Defined.

(** The factor comes out of the final clamp. *)
Lemma hoare_adaptive_smoothing_clamped Inv Q lo hi d :
  (lo <= hi)%Q ->
  (forall s, Inv s -> min_smoothing s = lo /\ max_smoothing s = hi) ->
  hoare Inv Q (adaptive_smoothing d)
    (fun r => match r with
              | Ok sm => (lo <= sm <= hi)%Q
              | Raise _ => True
              end).
Proof.
  intros Hlh HI s Hs. destruct (HI s Hs) as [El Eh].
  unfold adaptive_smoothing.
  repeat exec_step. destruct (Py.ltb _ _).
  - repeat exec_step. unfold ret, meets. cbn. rewrite El, Eh.
    split; [exact Hs|]. split; [constructor|]. apply clamp_bounds; exact Hlh.
  - repeat exec_step. destruct (Py.ltb _ _).
    + repeat exec_step. unfold ret, meets. cbn. rewrite El, Eh.
      split; [exact Hs|]. split; [constructor|].
      apply clamp_bounds; exact Hlh.
    + repeat exec_step. destruct (Qeq_bool _ _).
      * leaf.
      * repeat exec_step. unfold ret, meets. cbn. rewrite El, Eh.
        split; [exact Hs|]. split; [constructor|].
        apply clamp_bounds; exact Hlh.
Qed.

Section Durations.
Variable sqrt : Q -> Q.

(** The moves of a loop iteration of [mouse9.py].  Their duration lies
    between [min_smoothing] and [max_smoothing] when these are in order.
    With a sensing rectangle of positive width and height their target
    lies in [0 .. screen_width] by [0 .. screen_height]: the right and
    bottom bounds are one past the last pixel, and nothing clamps them. *)
Theorem mouse9_moves_bounded
    (self : HandMouseController) (frame : Frame) :
  let r := run_frame sqrt mouse9 frame self in
  let m := margin self in
  ((min_smoothing self <= max_smoothing self)%Q ->
   Forall (lasts_within (min_smoothing self) (max_smoothing self)) (calls r))
  /\ (0 < frame_width frame - m - m -> 0 < frame_height frame - m - m ->
      0 <= screen_width self -> 0 <= screen_height self ->
      Forall (moves_within (screen_width self) (screen_height self))
             (calls r)).
Proof.
  intros r m. subst r. split.
  - intros Hlh.
    set (lo := min_smoothing self) in *. set (hi := max_smoothing self) in *.
    assert (Ht : hoare (fun s => min_smoothing s = lo /\ max_smoothing s = hi)
                   (lasts_within lo hi)
                   (run_frame sqrt mouse9 frame) anything).
    { apply hoare_run_frame with (R1 := anything) (R2 := anything).
      - intros. apply hoare_scroll_block; [auto | auto | intros; exact Logic.I].
      - intros s0 hand _ _ m0 fw fh. unfold smooth_and_move. intros s Hs.
        eapply meets_bind;
          [ apply (hoare_adaptive_smoothing_clamped _ _ lo hi); auto
          | intros sm s1 Hs1 Hsm
          | intros; exact Logic.I ].
        apply hoare_move_block_mouse9; [|exact Hs1].
        intros s2 _ _ _ _. exact Hsm.
      - intros. apply hoare_click_blocks; auto; intros; exact Logic.I.
      - intros; exact Logic.I.
      - intros; exact Logic.I.
      - exact Logic.I. }
    destruct (Ht self (conj eq_refl eq_refl)) as (_ & HQ & _). exact HQ.
  - intros Hw Hh HW HH.
    set (W := screen_width self) in *. set (H := screen_height self) in *.
    assert (Ht : hoare (fun s => screen_width s = W /\ screen_height s = H
                                 /\ margin s = m)
                   (moves_within W H)
                   (run_frame sqrt mouse9 frame) anything).
    { apply hoare_run_frame with (R1 := anything) (R2 := anything).
      - intros. apply hoare_scroll_block; [auto | auto | intros; exact Logic.I].
      - intros s0 hand (_ & _ & Em) _ m0 fw fh. subst m0. rewrite Em.
        unfold smooth_and_move. intros s Hs.
        eapply meets_bind;
          [ apply hoare_adaptive_smoothing; exact Hs
          | intros sm s1 Hs1 _
          | intros; exact Logic.I ].
        apply hoare_move_block_mouse9; [|exact Hs1].
        intros s2 (-> & -> & _) _ _ _. cbn. subst fw fh. split.
        + apply (axis_range m (frame_width frame - m) W); lia.
        + apply (axis_range m (frame_height frame - m) H); lia.
      - intros. apply hoare_click_blocks; auto; intros; exact Logic.I.
      - intros; exact Logic.I.
      - intros; exact Logic.I.
      - exact Logic.I. }
    destruct (Ht self (conj eq_refl (conj eq_refl eq_refl))) as (_ & HQ & _).
    exact HQ.
Qed.

(** The history never holds more than 15 points. *)
Lemma run_frame_queue_bounded v frame :
  hoare (fun s => (length (smooth_queue s) <= maxlen)%nat) (fun _ => True)
        (run_frame sqrt v frame) anything.
Proof.
  apply hoare_run_frame with (R1 := anything) (R2 := anything).
  - intros. apply hoare_scroll_block; [auto | auto | intros; exact Logic.I].
  - intros s0 hand _ _ m fw fh. unfold smooth_and_move. destruct v.
    + apply hoare_move_block_MainV1.
      * intros s p Hs. cbn [smooth_queue set_smooth_queue].
        rewrite deque_append_length. lia.
      * intros; exact Logic.I.
    + intros s Hs.
      eapply meets_bind;
        [ apply hoare_adaptive_smoothing; exact Hs
        | intros sm s1 Hs1 _
        | intros; exact Logic.I ].
      apply hoare_move_block_mouse9; [|exact Hs1]. intros; exact Logic.I.
  - intros. apply hoare_click_blocks; auto; intros; exact Logic.I.
  - intros; exact Logic.I.
  - intros; exact Logic.I.
  - exact Logic.I.
Qed.
End Durations.

(** The same on a sample input. *)
Lemma mouse9_moves_bounded_witness :
  let r := run_frame Sample.sqrt mouse9 (Sample.vga (Some (Sample.pinch 100)))
             (init mouse9 1920 1080) in
  Forall (lasts_within (1 # 100) (5 # 100)) (calls r)
  /\ Forall (moves_within 1920 1080) (calls r).
Proof.
  split.
  - apply (proj1 (mouse9_moves_bounded Sample.sqrt (init mouse9 1920 1080)
                    (Sample.vga (Some (Sample.pinch 100))))).
    simpl. unfold Qle. simpl. lia.
  - apply (proj2 (mouse9_moves_bounded Sample.sqrt (init mouse9 1920 1080)
                    (Sample.vga (Some (Sample.pinch 100))))); simpl; lia.
Defined.

(** ** What an iteration leaves alone, and when it completes *)

Lemma Qeq_bool_inject_nonzero n : n <> 0 -> Qeq_bool (inject_Z n) 0 = false.
Proof.
  intro H. destruct (Qeq_bool (inject_Z n) 0) eqn:E; [|reflexivity].
  apply Qeq_bool_iff in E. apply inject_Z_nonzero in H. contradiction.
Qed.

Lemma scroll_block_completes tip a b c s :
  scroll_sensitivity s <> 0 ->
  outcome (scroll_block tip a b c s) = Ok tt.
Proof.
  intros Hs. unfold scroll_block. destruct (a && b && c).
  - rewrite bind_modify, bind_gets, bind_gets.
    cbn [scroll_y_prev set_scroll_mode]. destruct (scroll_y_prev s).
    + rewrite bind_assoc, bind_gets, bind_assoc, bind_gets.
      destruct (_ && _).
      * rewrite bind_assoc, bind_gets, bind_assoc, bind_truediv.
        cbn [scroll_sensitivity set_scroll_mode].
        rewrite Qeq_bool_inject_nonzero by exact Hs.
        rewrite bind_assoc, bind_gets, bind_emit. reflexivity.
      * rewrite bind_return. reflexivity.
    + rewrite bind_return. reflexivity.
  - rewrite bind_modify. reflexivity.
Qed.

Lemma move_block_MainV1_completes tip fw fh x0 y0 x1 y1 w h s :
  w <> 0 -> h <> 0 ->
  outcome (move_block_MainV1 tip fw fh x0 y0 x1 y1 w h s) = Ok tt.
Proof.
  intros Hw Hh. unfold move_block_MainV1. rewrite bind_gets.
  destruct (negb (scroll_mode s)); [|reflexivity].
  rewrite (bind_ok_nil _ _ _ _ _ (roi_mapping_eq _ _ _ _ _ _ _ _ _ s Hw Hh)).
  cbv beta iota.
  rewrite (bind_ok_nil _ _ _ _ _ (smooth_coordinates_eq _ _ s)).
  cbv beta iota. rewrite bind_gets. destruct (enabled _); reflexivity.
Qed.

Lemma move_block_mouse9_completes sm tip fw fh x0 y0 x1 y1 w h s :
  w <> 0 -> h <> 0 ->
  outcome (move_block_mouse9 sm tip fw fh x0 y0 x1 y1 w h s) = Ok tt.
Proof.
  intros Hw Hh. unfold move_block_mouse9. rewrite bind_gets.
  destruct (negb (scroll_mode s)); [|reflexivity].
  rewrite (bind_ok_nil _ _ _ _ _ (roi_mapping_eq _ _ _ _ _ _ _ _ _ s Hw Hh)).
  cbv beta iota zeta. rewrite bind_gets. destruct (enabled _); reflexivity.
Qed.

Lemma smooth_and_move_completes v d tip fw fh x0 y0 x1 y1 w h s :
  w <> 0 -> h <> 0 ->
  (v = mouse9 -> min_distance s <> start_smooth_distance s) ->
  outcome (smooth_and_move v d tip fw fh x0 y0 x1 y1 w h s) = Ok tt.
Proof.
  intros Hw Hh Hv. unfold smooth_and_move. destruct v.
  - apply move_block_MainV1_completes; assumption.
  - rewrite (bind_ok_nil _ _ _ _ _ (adaptive_smoothing_eq d s (Hv eq_refl))).
    apply move_block_mouse9_completes; assumption.
Qed.

Section Settings.
Variable sqrt : Q -> Q.

Lemma run_frame_quiet_config v frame :
  quiet config_view (fun _ => false) (run_frame sqrt v frame).
Proof.
  unfold run_frame. cbv zeta.
  apply quiet_bind; [apply quiet_gets|]. intros m.
  destruct (multi_hand_landmarks frame); [|apply quiet_ret].
  apply quiet_bind; [apply scroll_block_footprint; reflexivity|]. intros _.
  apply quiet_bind; [apply smooth_and_move_footprint; reflexivity|]. intros _.
  apply click_blocks_footprint; reflexivity.
Qed.

(** A loop iteration writes no setting: the enabled flag, the screen size,
    the thresholds, the scroll settings, the margin and the smoothing
    settings are after it what they were before, exception or not.  In
    [mouse9.py] the history of points is never written either. *)
Theorem run_frame_keeps_configuration
    (v : Variant) (self : HandMouseController) (frame : Frame) :
  let r := run_frame sqrt v frame self in
  config_view (final r) = config_view self
  /\ (v = mouse9 -> smooth_queue (final r) = smooth_queue self).
Proof.
  intros r. subst r. split.
  - apply run_frame_quiet_config.
  - intros ->.
    assert (Hq : quiet smooth_queue (fun _ => false)
                   (run_frame sqrt mouse9 frame)).
    { unfold run_frame. cbv zeta.
      apply quiet_bind; [apply quiet_gets|]. intros m.
      destruct (multi_hand_landmarks frame); [|apply quiet_ret].
      apply quiet_bind; [apply scroll_block_footprint; reflexivity|]. intros _.
      apply quiet_bind.
      - unfold smooth_and_move. apply quiet_bind.
        + apply adaptive_smoothing_footprint.
        + intros sm. apply move_block_mouse9_footprint. reflexivity.
      - intros _. apply click_blocks_footprint; reflexivity. }
    apply Hq.
Qed.

Lemma run_frame_ok v frame self :
  scroll_sensitivity self <> 0 ->
  frame_width frame - margin self - margin self <> 0 ->
  frame_height frame - margin self - margin self <> 0 ->
  (v = mouse9 -> min_distance self <> start_smooth_distance self) ->
  outcome (run_frame sqrt v frame self) = Ok tt.
Proof.
  intros Hs Hw Hh Hv. unfold run_frame. rewrite bind_gets.
  destruct (multi_hand_landmarks frame) as [hand|]; [|reflexivity].
  cbv zeta.
  match goal with
  | |- context [bind (scroll_block ?t ?a ?b ?c) ?k self] =>
      destruct (bind_quiet_l config_view (fun _ => false)
                  (scroll_block t a b c) k self
                  (scroll_block_footprint config_view (fun _ => false) t a b c
                     ltac:(reflexivity) ltac:(reflexivity)
                     ltac:(reflexivity)))
        as [(u & s1 & _ & Hf1 & Ho1 & _) | (e & He & _)];
      [ | rewrite scroll_block_completes in He by exact Hs; discriminate ]
  end.
  rewrite Ho1. unfold config_view in Hf1.
  injection Hf1 as _ _ _ _ _ _ _ _ Em Est Emd _ _ _.
  match goal with
  | |- context [bind ?m ?k s1] =>
      destruct (bind_cases m k s1)
        as [(u' & s2 & o2 & E2 & ->) | (e & s2 & o2 & E2 & ->)]
  end.
  - cbn [outcome fst]. rewrite click_blocks_eq. reflexivity.
  - exfalso.
    assert (Hok : outcome
              (smooth_and_move v (thumb_index_dist_of sqrt frame hand)
                 (landmark hand 8) (frame_width frame) (frame_height frame)
                 (margin self) (margin self)
                 (frame_width frame - margin self)
                 (frame_height frame - margin self)
                 (frame_width frame - margin self - margin self)
                 (frame_height frame - margin self - margin self) s1)
              = Ok tt).
    { apply smooth_and_move_completes; [exact Hw | exact Hh |].
      rewrite Est, Emd. exact Hv. }
    unfold thumb_index_dist_of in Hok. rewrite E2 in Hok. discriminate.
Qed.
End Settings.

(** The same on a sample input. *)
Lemma run_frame_keeps_configuration_witness :
  smooth_queue
    (final (run_frame Sample.sqrt mouse9 (Sample.vga (Some (Sample.pinch 20)))
              (set_smooth_queue [(3, 4)] (init mouse9 1920 1080))))
  = [(3, 4)].
Proof.
  apply (proj2 (run_frame_keeps_configuration Sample.sqrt mouse9
                  (set_smooth_queue [(3, 4)] (init mouse9 1920 1080))
                  (Sample.vga (Some (Sample.pinch 20))))).
  reflexivity.
Defined.

(** ** The division in the adaptive smoothing, and the right button *)

Lemma adaptive_smoothing_raises d s :
  min_distance s = start_smooth_distance s ->
  (d == inject_Z (start_smooth_distance s))%Q ->
  adaptive_smoothing d s = (Raise ZeroDivisionError, s, []).
Proof.
  intros Em Ed. unfold adaptive_smoothing.
  rewrite bind_gets.
  destruct (ltb_reflect (inject_Z (start_smooth_distance s)) d); [lra|].
  rewrite bind_assoc, bind_gets.
  destruct (ltb_reflect d (inject_Z (min_distance s))); [rewrite Em in *; lra|].
  rewrite !bind_assoc, bind_truediv.
  rewrite Em, Z.sub_diag. reflexivity.
Qed.

Lemma filter_click_edge b x y : filter is_click (edge b x y) = edge b x y.
Proof. unfold edge. destruct b, (xorb x y), y; reflexivity. Qed.

Section Division.
Variable sqrt : Q -> Q.

(** A frame of [mouse9.py] with a hand at the distance where the two
    smoothing distances meet ends in the division by zero. *)
Lemma run_frame_smoothing_raises frame hand self :
  multi_hand_landmarks frame = Some hand ->
  min_distance self = start_smooth_distance self ->
  (thumb_index_dist_of sqrt frame hand
   == inject_Z (start_smooth_distance self))%Q ->
  outcome (run_frame sqrt mouse9 frame self) = Raise ZeroDivisionError.
Proof.
  intros Hh Em Ed. unfold run_frame.
  rewrite bind_gets, Hh. cbv zeta.
  match goal with
  | |- context [bind (scroll_block ?t ?a ?b ?c) ?k self] =>
      destruct (bind_quiet_l
                  (fun s => (min_distance s, start_smooth_distance s))
                  (fun _ => false)
                  (scroll_block t a b c) k self
                  (scroll_block_footprint
                     (fun s => (min_distance s, start_smooth_distance s))
                     (fun _ => false) t a b c
                     ltac:(reflexivity) ltac:(reflexivity)
                     ltac:(reflexivity)))
        as [(u & s1 & _ & Hf1 & Ho1 & _) | (e & _ & He & _)]
  end.
  - rewrite Ho1. injection Hf1 as Emd Est.
    unfold smooth_and_move.
    erewrite bind_raise; [reflexivity|].
    apply bind_raise. apply adaptive_smoothing_raises.
    + congruence.
    + unfold thumb_index_dist_of in Ed. rewrite Est. exact Ed.
  - rewrite He. destruct e. reflexivity.
Qed.

(** The adaptive smoothing of [mouse9.py] raises exactly when
    [min_distance] equals [start_smooth_distance] and the thumb-index
    distance equals them too: then neither comparison holds and the
    interpolation divides by zero.  A frame with a hand at that distance
    ends the loop iteration with [ZeroDivisionError]. *)
Theorem adaptive_smoothing_raises_iff
    (self : HandMouseController) (dist : Q) :
  (outcome (adaptive_smoothing dist self) = Raise ZeroDivisionError
   <-> min_distance self = start_smooth_distance self
       /\ (dist == inject_Z (start_smooth_distance self))%Q)
  /\ (forall frame hand,
        multi_hand_landmarks frame = Some hand ->
        min_distance self = start_smooth_distance self ->
        (thumb_index_dist_of sqrt frame hand
         == inject_Z (start_smooth_distance self))%Q ->
        outcome (run_frame sqrt mouse9 frame self) = Raise ZeroDivisionError).
Proof.
  split; [split|].
  - intros Hr.
    destruct (Z.eq_dec (min_distance self) (start_smooth_distance self))
      as [Em|Hne].
    + split; [exact Em|].
      unfold adaptive_smoothing in Hr. rewrite bind_gets in Hr.
      destruct (ltb_reflect (inject_Z (start_smooth_distance self)) dist).
      { rewrite bind_return, !bind_gets in Hr. discriminate Hr. }
      rewrite bind_assoc, bind_gets in Hr.
      destruct (ltb_reflect dist (inject_Z (min_distance self))).
      { rewrite !bind_gets in Hr. discriminate Hr. }
      rewrite Em in *. lra.
    + rewrite adaptive_smoothing_eq in Hr by exact Hne. discriminate Hr.
  - intros [Em Ed]. now rewrite adaptive_smoothing_raises.
  - intros frame hand. apply run_frame_smoothing_raises.
Qed.

(** The settings window of [mouse9.py] can bring the engine there: with the
    minimum-distance slider at its maximum and the start-distance slider
    at its minimum, both 100, a frame whose thumb and index tips are 100
    pixels apart ends the worker with [ZeroDivisionError]. *)
Theorem sliders_can_reach_the_division_by_zero
    (width height : Z) (frame : Frame) (hand : NormalizedLandmarkList) :
  multi_hand_landmarks frame = Some hand ->
  (thumb_index_dist_of sqrt frame hand == 100)%Q ->
  let events := [SliderMoved min_dist_slider 100;
                 SliderMoved start_smooth_distance_slider 100;
                 FrameRead frame] in
  Forall (possible mouse9) events
  /\ outcome (session sqrt mouse9 events (init mouse9 width height))
     = Raise ZeroDivisionError.
Proof.
  intros Hh Hd events. subst events. split.
  - repeat constructor; unfold in_range; cbn; lia.
  - cbn [session valueChanged].
    pose proof (run_frame_smoothing_raises frame hand
                  (onStartSmoothDistanceChanged 100
                     (onMinDistanceChanged 100 (init mouse9 width height)))
                  Hh eq_refl Hd) as Hr.
    destruct (run_frame sqrt mouse9 frame _) as [[[u|e] c'] out];
      cbn [outcome fst] in Hr |- *; [discriminate | exact Hr].
Qed.

(** After an enabled iteration with a hand the right button is down exactly
    when the thumb-index, the thumb-middle and the index-middle distance
    are all below [right_click_threshold]; the button calls of the
    iteration are the edge of the left button followed by the edge of the
    right one.  With [right_click_threshold <= left_click_threshold] a
    right press implies the left button is down as well. *)
Theorem right_button_follows_three_distances
    (v : Variant) (self : HandMouseController) (frame : Frame)
    (hand : NormalizedLandmarkList) :
  multi_hand_landmarks frame = Some hand ->
  enabled self = true ->
  let r := run_frame sqrt v frame self in
  let t := inject_Z (right_click_threshold self) in
  let near := Py.ltb (thumb_index_dist_of sqrt frame hand) t
              && Py.ltb (thumb_middle_dist_of sqrt frame hand) t
              && Py.ltb (close_dist_of sqrt frame hand) t in
  outcome r = Ok tt ->
  right_button_down (final r) = near
  /\ filter is_click (calls r)
     = edge left (left_button_down self) (left_button_down (final r))
       ++ edge right (right_button_down self) near
  /\ (right_click_threshold self <= left_click_threshold self ->
      near = true -> left_button_down (final r) = true).
Proof.
  intros Hh He r t near Ho. subst r.
  destruct (run_frame_buttons sqrt v frame hand self is_click
              ltac:(reflexivity) ltac:(reflexivity) Hh) as [Hv Hc].
  cbv zeta in Hv, Hc. unfold click_view in Hv.
  injection Hv as _ _ _ Hl Hr. rewrite Ho, He in *.
  fold t in Hr, Hc. fold near in Hr, Hc.
  rewrite Hc, Hl, Hr, filter_app, !filter_click_edge.
  repeat split. intros Hle Hn.
  unfold near in Hn. apply andb_prop in Hn as [Hn _].
  apply andb_prop in Hn as [Hn _].
  destruct (ltb_reflect (thumb_index_dist_of sqrt frame hand) t) as [Hlt|];
    [|discriminate].
  destruct (ltb_reflect (thumb_index_dist_of sqrt frame hand)
              (inject_Z (left_click_threshold self))) as [|Hge];
    [reflexivity|].
  exfalso. rewrite Zle_Qle in Hle. unfold t in Hlt. lra.
Qed.
End Division.

(** The same on a sample input. *)
Lemma adaptive_smoothing_raises_iff_witness :
  outcome
    (run_frame Sample.sqrt mouse9 (Sample.vga (Some (Sample.pinch 100)))
       (onMinDistanceChanged 100
          (onStartSmoothDistanceChanged 100 (init mouse9 1920 1080))))
  = Raise ZeroDivisionError.
Proof.
  apply (proj2 (adaptive_smoothing_raises_iff Sample.sqrt
                  (onMinDistanceChanged 100
                     (onStartSmoothDistanceChanged 100
                        (init mouse9 1920 1080)))
                  (inject_Z 100))
           (Sample.vga (Some (Sample.pinch 100))) (Sample.pinch 100)).
  - reflexivity.
  - reflexivity.
  - vm_compute. reflexivity.
Defined.

(** The same on a sample input. *)
Lemma right_button_follows_three_distances_witness :
  let hand := Sample.hand (Sample.point (1 # 2) (1 # 2))
                (Sample.point (1 # 2) (1 # 2)) (Sample.point (1 # 2) (1 # 2)) in
  let r := run_frame Sample.sqrt mouse9 (Sample.vga (Some hand))
             (init mouse9 1920 1080) in
  right_button_down (final r) = true /\ left_button_down (final r) = true.
Proof.
  intros hand r.
  destruct (right_button_follows_three_distances Sample.sqrt mouse9
              (init mouse9 1920 1080) (Sample.vga (Some hand)) hand
              eq_refl eq_refl ltac:(vm_compute; reflexivity))
    as (H1 & _ & H3).
  split; [exact H1|]. apply H3; [simpl; lia | reflexivity].
Defined.

(** The same on a sample input. *)
Lemma sliders_can_reach_the_division_by_zero_witness :
  outcome
    (session Sample.sqrt mouse9
       [SliderMoved min_dist_slider 100;
        SliderMoved start_smooth_distance_slider 100;
        FrameRead (Sample.vga (Some (Sample.pinch 100)))]
       (init mouse9 1920 1080))
  = Raise ZeroDivisionError.
Proof.
  apply (proj2 (sliders_can_reach_the_division_by_zero Sample.sqrt 1920 1080
                  (Sample.vga (Some (Sample.pinch 100))) (Sample.pinch 100)
                  eq_refl ltac:(vm_compute; reflexivity))).
Defined.

(** ** The calls of an iteration *)

(** The scroll block makes at most one call, a scroll, and only in scroll
    mode. *)
Lemma scroll_block_calls tip a b c s :
  let t := scroll_block tip a b c s in
  calls t = []
  \/ (exists n, calls t = [scroll n]) /\ scroll_mode (final t) = true.
Proof.
  cbv zeta. unfold scroll_block. destruct (a && b && c).
  - rewrite bind_modify, bind_gets, bind_gets.
    cbn [scroll_y_prev set_scroll_mode]. destruct (scroll_y_prev s).
    + rewrite bind_assoc, bind_gets, bind_assoc, bind_gets.
      destruct (_ && _).
      * rewrite bind_assoc, bind_gets, bind_assoc, bind_truediv.
        destruct (Qeq_bool _ _); [left; reflexivity|].
        rewrite bind_assoc, bind_gets, bind_emit.
        right. split; [eexists|]; reflexivity.
      * rewrite bind_return. left. reflexivity.
    + rewrite bind_return. left. reflexivity.
  - rewrite bind_modify. left. reflexivity.
Qed.

Lemma adaptive_smoothing_pure d s :
  exists r, adaptive_smoothing d s = (r, s, []).
Proof.
  destruct (Z.eq_dec (min_distance s) (start_smooth_distance s)) as [E|N].
  - unfold adaptive_smoothing. rewrite bind_gets.
    destruct (Py.ltb _ _); [rewrite bind_return, !bind_gets; eexists; reflexivity|].
    rewrite bind_assoc, bind_gets.
    destruct (Py.ltb _ _); [rewrite !bind_gets; eexists; reflexivity|].
    rewrite !bind_assoc, bind_truediv. rewrite E, Z.sub_diag.
    eexists; reflexivity.
  - eexists. apply adaptive_smoothing_eq. exact N.
Qed.

Lemma move_block_MainV1_calls tip fw fh x0 y0 x1 y1 w h s :
  let t := move_block_MainV1 tip fw fh x0 y0 x1 y1 w h s in
  (calls t = [] \/ exists a b d, calls t = [moveTo a b d])
  /\ (scroll_mode s = true -> calls t = []).
Proof.
  cbv zeta. unfold move_block_MainV1. rewrite bind_gets.
  destruct (scroll_mode s); cbn [negb]; [split; [left|]; reflexivity|].
  split; [|discriminate].
  destruct (Z.eq_dec w 0) as [->|Hw].
  { rewrite (bind_raise _ _ _ _ _ _ (roi_mapping_zero_width _ _ _ _ _ _ _ _ _)).
    left. reflexivity. }
  destruct (Z.eq_dec h 0) as [->|Hh].
  { rewrite (bind_raise _ _ _ _ _ _
               (roi_mapping_zero_height _ _ _ _ _ _ _ _ _ Hw)).
    left. reflexivity. }
  rewrite (bind_ok_nil _ _ _ _ _ (roi_mapping_eq _ _ _ _ _ _ _ _ _ s Hw Hh)).
  cbv beta iota.
  rewrite (bind_ok_nil _ _ _ _ _ (smooth_coordinates_eq _ _ s)).
  cbv beta iota. rewrite bind_gets.
  destruct (enabled _); [right; do 3 eexists|left]; reflexivity.
Qed.

Lemma move_block_mouse9_calls sm tip fw fh x0 y0 x1 y1 w h s :
  let t := move_block_mouse9 sm tip fw fh x0 y0 x1 y1 w h s in
  (calls t = [] \/ exists a b d, calls t = [moveTo a b d])
  /\ (scroll_mode s = true -> calls t = []).
Proof.
  cbv zeta. unfold move_block_mouse9. rewrite bind_gets.
  destruct (scroll_mode s); cbn [negb]; [split; [left|]; reflexivity|].
  split; [|discriminate].
  destruct (Z.eq_dec w 0) as [->|Hw].
  { rewrite (bind_raise _ _ _ _ _ _ (roi_mapping_zero_width _ _ _ _ _ _ _ _ _)).
    left. reflexivity. }
  destruct (Z.eq_dec h 0) as [->|Hh].
  { rewrite (bind_raise _ _ _ _ _ _
               (roi_mapping_zero_height _ _ _ _ _ _ _ _ _ Hw)).
    left. reflexivity. }
  rewrite (bind_ok_nil _ _ _ _ _ (roi_mapping_eq _ _ _ _ _ _ _ _ _ s Hw Hh)).
  cbv beta iota zeta. rewrite bind_gets.
  destruct (enabled _); [right; do 3 eexists|left]; reflexivity.
Qed.

Lemma smooth_and_move_calls v d tip fw fh x0 y0 x1 y1 w h s :
  let t := smooth_and_move v d tip fw fh x0 y0 x1 y1 w h s in
  (calls t = [] \/ exists a b c, calls t = [moveTo a b c])
  /\ (scroll_mode s = true -> calls t = []).
Proof.
  cbv zeta. unfold smooth_and_move. destruct v.
  - apply move_block_MainV1_calls.
  - destruct (adaptive_smoothing_pure d s) as [[sm|e] E].
    + rewrite (bind_ok_nil _ _ _ _ _ E). apply move_block_mouse9_calls.
    + rewrite (bind_raise _ _ _ _ _ _ E). split; [left|]; reflexivity.
Qed.

Section CallOrder.
Variable sqrt : Q -> Q.

(** The calls of one loop iteration, in order: at most one [scroll], at most
    one [moveTo], never both, then the edge of the left button, then the
    edge of the right button. *)
Theorem frame_calls_in_order
    (v : Variant) (self : HandMouseController) (frame : Frame) :
  let r := run_frame sqrt v frame self in
  exists scrolls moves,
    calls r
    = scrolls ++ moves
      ++ edge left (left_button_down self) (left_button_down (final r))
      ++ edge right (right_button_down self) (right_button_down (final r))
    /\ (scrolls = [] \/ exists n, scrolls = [scroll n])
    /\ (moves = [] \/ exists a b d, moves = [moveTo a b d])
    /\ (scrolls = [] \/ moves = []).
Proof.
  intros r. subst r. unfold run_frame. rewrite bind_gets.
  destruct (multi_hand_landmarks frame) as [hand|].
  2:{ exists [], []. cbn. rewrite !edge_same. repeat split; auto. }
  cbv zeta.
  set (flags := fun s => (left_button_down s, right_button_down s)).
  match goal with
  | |- context [bind (scroll_block ?t ?a ?b ?c) ?k self] =>
      pose proof (scroll_block_calls t a b c self) as Hsc;
      pose proof (scroll_block_footprint flags (fun _ => false) t a b c
                    ltac:(reflexivity) ltac:(reflexivity)
                    ltac:(reflexivity) self) as [Hf1 _];
      destruct (bind_cases (scroll_block t a b c) k self)
        as [(u & s1 & o1 & E1 & ->) | (e & s1 & o1 & E1 & ->)];
      cbv zeta in Hsc; rewrite E1 in Hsc, Hf1;
      cbn [final calls fst snd] in Hsc, Hf1
  end.
  2:{ exists o1, []. cbn [final calls fst snd].
      injection Hf1 as -> ->. rewrite !edge_same, !app_nil_r.
      repeat split; auto. destruct Hsc as [->|[Hn _]]; auto. }
  match goal with
  | |- context [bind (smooth_and_move ?v ?d ?t ?a1 ?a2 ?a3 ?a4 ?a5 ?a6
                                      ?a7 ?a8) ?k s1] =>
      pose proof (smooth_and_move_calls v d t a1 a2 a3 a4 a5 a6 a7 a8 s1)
        as [Hmv Hidle];
      pose proof (smooth_and_move_footprint flags (fun _ => false)
                    v d t a1 a2 a3 a4 a5 a6 a7 a8
                    ltac:(reflexivity) ltac:(reflexivity) s1) as [Hf2 _];
      destruct (bind_cases (smooth_and_move v d t a1 a2 a3 a4 a5 a6 a7 a8)
                  k s1)
        as [(u' & s2 & o2 & E2 & ->) | (e & s2 & o2 & E2 & ->)];
      cbv zeta in Hmv, Hidle; rewrite E2 in Hmv, Hidle, Hf2;
      cbn [final calls fst snd] in Hmv, Hidle, Hf2
  end.
  - rewrite click_blocks_eq. cbn [final calls outcome fst snd].
    cbn [left_button_down right_button_down set_left_button_down
         set_right_button_down].
    injection Hf1 as Hl1 Hr1. injection Hf2 as Hl2 Hr2.
    exists o1, o2. rewrite Hl2, Hr2, Hl1, Hr1.
    split; [reflexivity|].
    split; [destruct Hsc as [->|[Hn _]]; auto|].
    split; [exact Hmv|].
    destruct Hsc as [->|[_ Hm]]; auto.
  - exists o1, o2. cbn [final calls fst snd].
    injection Hf1 as Hl1 Hr1. injection Hf2 as Hl2 Hr2.
    rewrite Hl2, Hr2, Hl1, Hr1, !edge_same, !app_nil_r.
    split; [reflexivity|].
    split; [destruct Hsc as [->|[Hn _]]; auto|].
    split; [exact Hmv|].
    destruct Hsc as [->|[_ Hm]]; auto.
Qed.
End CallOrder.

(** ** More on scrolling *)

Lemma quot_sign_and_size a b :
  0 < b ->
  (0 <= a -> 0 <= Z.quot a b) /\ (a <= 0 -> Z.quot a b <= 0)
  /\ Z.abs (Z.quot a b) <= Z.abs a.
Proof.
  intros Hb. rewrite (Z.quot_div a b) by lia.
  assert (H0 : 0 <= Z.abs a / Z.abs b) by (apply Z.div_pos; lia).
  assert (H1 : Z.abs a / Z.abs b <= Z.abs a).
  { apply Z.div_le_upper_bound; nia. }
  rewrite (Z.sgn_pos b) by lia.
  destruct (Z.sgn_spec a) as [[? ->]|[[? ->]|[? ->]]]; repeat split; lia.
Qed.

Lemma scroll_block_without_anchor tip a b c s :
  scroll_y_prev s = None -> calls (scroll_block tip a b c s) = [].
Proof.
  intros Hp. unfold scroll_block. destruct (a && b && c).
  - rewrite bind_modify, bind_gets, bind_gets.
    cbn [scroll_y_prev set_scroll_mode]. rewrite Hp.
    rewrite bind_return. reflexivity.
  - rewrite bind_modify. reflexivity.
Qed.

Lemma smooth_and_move_idle v d tip fw fh x0 y0 x1 y1 w h s :
  scroll_mode s = true ->
  exists r, smooth_and_move v d tip fw fh x0 y0 x1 y1 w h s = (r, s, []).
Proof.
  intros Hm. unfold smooth_and_move. destruct v.
  - unfold move_block_MainV1. rewrite bind_gets, Hm. eexists. reflexivity.
  - destruct (adaptive_smoothing_pure d s) as [[sm|e] E].
    + rewrite (bind_ok_nil _ _ _ _ _ E).
      unfold move_block_mouse9. rewrite bind_gets, Hm. eexists. reflexivity.
    + rewrite (bind_raise _ _ _ _ _ _ E). eexists. reflexivity.
Qed.

(** On the scroll gesture the scroll block ends in scroll mode, or is cut
    by the division. *)
Lemma scroll_block_gesture tip s :
  let t := scroll_block tip true true true s in
  smooth_queue (final t) = smooth_queue s
  /\ filter is_move (calls t) = []
  /\ (forall u, outcome t = Ok u -> scroll_mode (final t) = true).
Proof.
  cbv zeta. unfold scroll_block. cbn [andb].
  rewrite bind_modify, bind_gets, bind_gets.
  cbn [scroll_y_prev set_scroll_mode]. destruct (scroll_y_prev s).
  - rewrite bind_assoc, bind_gets, bind_assoc, bind_gets.
    destruct (_ && _).
    + rewrite bind_assoc, bind_gets, bind_assoc, bind_truediv.
      destruct (Qeq_bool _ _); [repeat split; discriminate|].
      rewrite bind_assoc, bind_gets, bind_emit. repeat split.
    + rewrite bind_return. repeat split.
  - rewrite bind_return. repeat split.
Qed.

Section Scrolling.
Variable sqrt : Q -> Q.

(** An enabled frame on the scroll gesture whose fingertip moved by more
    than [scroll_threshold] pixels since the last one sends one [scroll].
    With a positive sensitivity and a multiplier that is not negative its
    amount has the sign opposite to the movement (down the screen scrolls
    down) and is at most the movement times [scroll_multiplier] in size. *)
Theorem scroll_direction_and_size
    (v : Variant) (self : HandMouseController) (frame : Frame)
    (hand : NormalizedLandmarkList) (previous : Z) :
  multi_hand_landmarks frame = Some hand ->
  scroll_gesture sqrt frame hand = true ->
  enabled self = true ->
  scroll_y_prev self = Some previous ->
  0 < scroll_sensitivity self -> 0 <= scroll_multiplier self ->
  let delta := Py.int (y (landmark hand 8) * inject_Z (screen_height self))
               - previous in
  scroll_threshold self < Z.abs delta ->
  exists clicks,
    filter is_scroll (calls (run_frame sqrt v frame self)) = [scroll clicks]
    /\ (0 < delta -> clicks <= 0)
    /\ (delta < 0 -> 0 <= clicks)
    /\ Z.abs clicks <= Z.abs delta * scroll_multiplier self.
Proof.
  intros Hh Hg He Hp Hs Hm delta Hd.
  destruct (run_frame_scroll_gesture sqrt v frame hand self Hh ltac:(lia) Hg)
    as (_ & _ & Hc).
  rewrite Hc, Hp. cbv zeta. fold delta. rewrite He.
  replace (Z.abs delta >? scroll_threshold self) with true
    by (symmetry; apply Z.gtb_lt; lia).
  cbn [andb]. eexists. split; [reflexivity|].
  destruct (quot_sign_and_size delta (scroll_sensitivity self) Hs)
    as (Hpos & Hneg & Habs).
  repeat split; nia.
Qed.

(** On the scroll gesture no move is made and the history is left alone. *)
Lemma run_frame_gesture_idle v frame hand self :
  multi_hand_landmarks frame = Some hand ->
  scroll_gesture sqrt frame hand = true ->
  let r := run_frame sqrt v frame self in
  filter is_move (calls r) = []
  /\ smooth_queue (final r) = smooth_queue self.
Proof.
  intros Hh Hg r. subst r. unfold run_frame. rewrite bind_gets, Hh. cbv zeta.
  unfold scroll_gesture, close_dist_of in Hg.
  apply andb_prop in Hg as [Hg H3]. apply andb_prop in Hg as [H1 H2].
  rewrite H1, H2, H3.
  pose proof (scroll_block_gesture (landmark hand 8) self) as (Hq & Hmv & Hmode).
  match goal with
  | |- context [bind (scroll_block ?t true true true) ?k self] =>
      destruct (bind_cases (scroll_block t true true true) k self)
        as [(u & s1 & o1 & E1 & ->) | (e & s1 & o1 & E1 & ->)]
  end; rewrite E1 in Hq, Hmv, Hmode; cbn [final calls outcome fst snd] in *.
  2:{ split; assumption. }
  specialize (Hmode u eq_refl).
  match goal with
  | |- context [bind (smooth_and_move ?v ?d ?t ?a1 ?a2 ?a3 ?a4 ?a5 ?a6
                                      ?a7 ?a8) ?k s1] =>
      destruct (smooth_and_move_idle v d t a1 a2 a3 a4 a5 a6 a7 a8 s1 Hmode)
        as [[u'|e] E2]
  end.
  - rewrite (bind_ok_nil _ _ _ _ _ E2), click_blocks_eq.
    cbn [final calls fst snd smooth_queue set_left_button_down
         set_right_button_down].
    split; [|exact Hq].
    rewrite !filter_app, Hmv. unfold edge.
    destruct (xorb _ _), (xorb _ _);
      repeat match goal with |- context [if ?c then _ else _] => destruct c end;
      reflexivity.
  - rewrite (bind_raise _ _ _ _ _ _ E2). cbn [final calls fst snd].
    rewrite app_nil_r. split; assumption.
Qed.

(** While the hand makes the scroll gesture the pointer is not moved: the
    iteration makes no [moveTo], and leaves the history of points as it
    was, whether the scroll block sends a scroll, sends nothing or raises. *)
Theorem scroll_gesture_suspends_moves
    (v : Variant) (self : HandMouseController) (frame : Frame)
    (hand : NormalizedLandmarkList) :
  multi_hand_landmarks frame = Some hand ->
  scroll_gesture sqrt frame hand = true ->
  let r := run_frame sqrt v frame self in
  filter is_move (calls r) = []
  /\ smooth_queue (final r) = smooth_queue self.
Proof.
  intros Hh Hg. exact (run_frame_gesture_idle v frame hand self Hh Hg).
Qed.

(** A hand with the four fingers up and index and middle fingertips less
    than 30 pixels apart makes the scroll gesture ([all_fingers_extended]
    asks more than the loop does), and the iteration moves nothing. *)
Theorem open_hand_with_close_fingers_scrolls
    (v : Variant) (self : HandMouseController) (frame : Frame)
    (hand : NormalizedLandmarkList) :
  multi_hand_landmarks frame = Some hand ->
  all_fingers_extended hand = true ->
  (close_dist_of sqrt frame hand < 30)%Q ->
  scroll_gesture sqrt frame hand = true
  /\ filter is_move (calls (run_frame sqrt v frame self)) = [].
Proof.
  intros Hh Hall Hclose.
  assert (Hg : scroll_gesture sqrt frame hand = true).
  { unfold all_fingers_extended in Hall. cbn [forallb] in Hall.
    apply andb_prop in Hall as [H1 Hall]. apply andb_prop in Hall as [H2 _].
    unfold scroll_gesture. rewrite H1, H2. cbn [andb].
    destruct (ltb_reflect (close_dist_of sqrt frame hand) 30);
      [reflexivity | contradiction]. }
  split; [exact Hg|].
  exact (proj1 (run_frame_gesture_idle v frame hand self Hh Hg)).
Qed.

(** A frame with a hand off the scroll gesture forgets the anchor, so the
    next frame sends no [scroll], whatever it shows and wherever the
    fingertip is: scrolling starts with the second frame of the gesture. *)
Theorem scroll_reentry_sends_nothing
    (v : Variant) (self : HandMouseController) (frame1 frame2 : Frame)
    (hand1 : NormalizedLandmarkList) (en : bool) :
  multi_hand_landmarks frame1 = Some hand1 ->
  scroll_gesture sqrt frame1 hand1 = false ->
  let after := final (run_frame sqrt v frame1 self) in
  scroll_y_prev after = None
  /\ filter is_scroll (calls (run_frame sqrt v frame2 (set_enabled en after)))
     = [].
Proof.
  intros Hh Hg after.
  assert (Hnone : scroll_y_prev after = None).
  { subst after.
    destruct (run_frame_scroll sqrt v frame1 hand1 self Hh) as [Hv _].
    cbv zeta in Hv. unfold scroll_view in Hv. injection Hv as _ Hp.
    rewrite Hp. unfold scroll_gesture, close_dist_of in Hg.
    rewrite scroll_block_exit by exact Hg. reflexivity. }
  split; [exact Hnone|].
  destruct (multi_hand_landmarks frame2) as [hand2|] eqn:Hh2.
  - destruct (run_frame_scroll sqrt v frame2 hand2 (set_enabled en after) Hh2)
      as [_ Hc].
    cbv zeta in Hc. rewrite Hc, scroll_block_without_anchor; [reflexivity|].
    exact Hnone.
  - rewrite run_frame_no_hand by exact Hh2. reflexivity.
Qed.
End Scrolling.

(** The same on a sample input. *)
Lemma scroll_direction_and_size_witness :
  exists clicks,
    filter is_scroll
      (calls (run_frame Sample.sqrt MainV1
                (Sample.vga (Some (Sample.scroll_hand (1 # 2))))
                (Sample.coarse_scroll 500)))
    = [scroll clicks]
    /\ (0 < 540 - 500 -> clicks <= 0)
    /\ (540 - 500 < 0 -> 0 <= clicks)
    /\ Z.abs clicks <= Z.abs (540 - 500) * 4.
Proof.
  apply (scroll_direction_and_size Sample.sqrt MainV1
           (Sample.coarse_scroll 500)
           (Sample.vga (Some (Sample.scroll_hand (1 # 2))))
           (Sample.scroll_hand (1 # 2)) 500 eq_refl eq_refl eq_refl eq_refl);
    simpl; lia.
Defined.

(** The same on a sample input. *)
Lemma scroll_gesture_suspends_moves_witness :
  let r := run_frame Sample.sqrt MainV1
             (Sample.vga (Some (Sample.scroll_hand (1 # 2))))
             (set_smooth_queue [(3, 4)] (init MainV1 1920 1080)) in
  filter is_move (calls r) = [] /\ smooth_queue (final r) = [(3, 4)].
Proof.
  apply (scroll_gesture_suspends_moves Sample.sqrt MainV1
           (set_smooth_queue [(3, 4)] (init MainV1 1920 1080))
           (Sample.vga (Some (Sample.scroll_hand (1 # 2))))
           (Sample.scroll_hand (1 # 2)) eq_refl eq_refl).
Defined.

(** The same on a sample input. *)
Lemma open_hand_with_close_fingers_scrolls_witness :
  scroll_gesture Sample.sqrt (Sample.vga (Some (Sample.open_hand (1 # 2))))
    (Sample.open_hand (1 # 2)) = true
  /\ filter is_move
       (calls (run_frame Sample.sqrt mouse9
                 (Sample.vga (Some (Sample.open_hand (1 # 2))))
                 (init mouse9 1920 1080))) = [].
Proof.
  apply (open_hand_with_close_fingers_scrolls Sample.sqrt mouse9
           (init mouse9 1920 1080)
           (Sample.vga (Some (Sample.open_hand (1 # 2))))
           (Sample.open_hand (1 # 2)) eq_refl eq_refl).
  vm_compute. reflexivity.
Defined.

(** The same on a sample input. *)
Lemma scroll_reentry_sends_nothing_witness :
  let after := final (run_frame Sample.sqrt mouse9
                        (Sample.vga (Some (Sample.pinch 20)))
                        (Sample.coarse_scroll 500)) in
  scroll_y_prev after = None
  /\ filter is_scroll
       (calls (run_frame Sample.sqrt mouse9
                 (Sample.vga (Some (Sample.scroll_hand (1 # 2))))
                 (set_enabled true after))) = [].
Proof.
  apply (scroll_reentry_sends_nothing Sample.sqrt mouse9
           (Sample.coarse_scroll 500) (Sample.vga (Some (Sample.pinch 20)))
           (Sample.vga (Some (Sample.scroll_hand (1 # 2))))
           (Sample.pinch 20) true eq_refl eq_refl).
Defined.

(** ** More on the mapper, and frames without a hand *)

(** With a sensing rectangle of positive width and height the mapper never
    raises and is monotone on each axis: a fingertip further right maps to
    a column that is not further left, one further down to a row that is
    not further up. *)
Theorem roi_mapping_monotone
    (self : HandMouseController) (tip1 tip2 : NormalizedLandmark)
    (fw fh : Z) :
  let m := margin self in
  0 <= m -> 0 < fw - m - m -> 0 < fh - m - m ->
  0 <= screen_width self -> 0 <= screen_height self ->
  exists a1 b1 a2 b2,
    roi_mapping tip1 fw fh m m (fw - m) (fh - m) (fw - m - m) (fh - m - m) self
    = (Ok (a1, b1), self, [])
    /\ roi_mapping tip2 fw fh m m (fw - m) (fh - m) (fw - m - m) (fh - m - m)
                   self
       = (Ok (a2, b2), self, [])
    /\ ((x tip1 <= x tip2)%Q -> a1 <= a2)
    /\ ((y tip1 <= y tip2)%Q -> b1 <= b2).
Proof.
  intros m Hm Hw Hh HW HH.
  assert (Hfw : (0 <= inject_Z fw)%Q)
    by (change 0%Q with (inject_Z 0); rewrite <- Zle_Qle; lia).
  assert (Hfh : (0 <= inject_Z fh)%Q)
    by (change 0%Q with (inject_Z 0); rewrite <- Zle_Qle; lia).
  do 4 eexists. split; [apply roi_mapping_eq; lia|].
  split; [apply roi_mapping_eq; lia|].
  split; intros Hle.
  - apply (axis_mono m (fw - m)); [lia | exact HW |].
    apply Qmult_le_compat_r; assumption.
  - apply (axis_mono m (fh - m)); [lia | exact HH |].
    apply Qmult_le_compat_r; assumption.
Qed.

(** The same on a sample input. *)
Lemma roi_mapping_monotone_witness :
  exists a1 b1 a2 b2,
    roi_mapping (Sample.point (1 # 4) (1 # 2)) 640 480 100 100 540 380 440 280
                (init mouse9 1920 1080)
    = (Ok (a1, b1), init mouse9 1920 1080, [])
    /\ roi_mapping (Sample.point (1 # 2) (1 # 2)) 640 480 100 100 540 380 440
                   280 (init mouse9 1920 1080)
       = (Ok (a2, b2), init mouse9 1920 1080, [])
    /\ ((1 # 4 <= 1 # 2)%Q -> a1 <= a2)
    /\ ((1 # 2 <= 1 # 2)%Q -> b1 <= b2).
Proof.
  apply (roi_mapping_monotone (init mouse9 1920 1080)
           (Sample.point (1 # 4) (1 # 2)) (Sample.point (1 # 2) (1 # 2))
           640 480); simpl; lia.
Defined.

(** With a sensing rectangle of positive width and height: a fingertip at or
    beyond the left (top) edge of the rectangle maps to 0, one at or
    beyond the right (bottom) edge to [screen_width] ([screen_height]),
    and one in the middle of the frame to half the screen, truncated. *)
Theorem roi_mapping_edges_and_centre
    (self : HandMouseController) (tip : NormalizedLandmark) (fw fh : Z) :
  let m := margin self in
  0 < fw - m - m -> 0 < fh - m - m ->
  exists a b,
    roi_mapping tip fw fh m m (fw - m) (fh - m) (fw - m - m) (fh - m - m) self
    = (Ok (a, b), self, [])
    /\ ((x tip * inject_Z fw <= inject_Z m)%Q -> a = 0)
    /\ ((inject_Z (fw - m) <= x tip * inject_Z fw)%Q -> a = screen_width self)
    /\ ((x tip == 1 # 2)%Q -> a = Z.quot (screen_width self) 2)
    /\ ((y tip * inject_Z fh <= inject_Z m)%Q -> b = 0)
    /\ ((inject_Z (fh - m) <= y tip * inject_Z fh)%Q ->
        b = screen_height self)
    /\ ((y tip == 1 # 2)%Q -> b = Z.quot (screen_height self) 2).
Proof.
  intros m Hw Hh.
  do 2 eexists. split; [apply roi_mapping_eq; lia|].
  repeat split; intros H.
  - apply (axis_low m (fw - m)); [lia | exact H].
  - apply (axis_high m (fw - m)); [lia | exact H].
  - apply axis_centre; assumption.
  - apply (axis_low m (fh - m)); [lia | exact H].
  - apply (axis_high m (fh - m)); [lia | exact H].
  - apply axis_centre; assumption.
Qed.

(** The same on a sample input. *)
Lemma roi_mapping_edges_and_centre_witness :
  exists a b,
    roi_mapping (Sample.point (1 # 2) 1) 640 480 100 100 540 380 440 280
                (init mouse9 1920 1080)
    = (Ok (a, b), init mouse9 1920 1080, [])
    /\ a = 960 /\ b = 1080.
Proof.
  destruct (roi_mapping_edges_and_centre (init mouse9 1920 1080)
              (Sample.point (1 # 2) 1) 640 480 ltac:(simpl; lia)
              ltac:(simpl; lia))
    as (a & b & E & _ & _ & Hc & _ & Hb & _).
  exists a, b. split; [exact E|]. split.
  - apply Hc. reflexivity.
  - apply Hb. vm_compute. discriminate.
Defined.

Section HandLoss.
Variable sqrt : Q -> Q.

Lemma run_without_hands v gaps :
  Forall (fun p => multi_hand_landmarks (snd p) = None) gaps ->
  forall rest self,
    exists self',
      run sqrt v (gaps ++ rest) self
      = (outcome (run sqrt v rest self'), final (run sqrt v rest self'),
         map (fun _ => []) gaps ++ calls (run sqrt v rest self'))
      /\ scroll_view self' = scroll_view self
      /\ config_view (set_enabled true self')
         = config_view (set_enabled true self).
Proof.
  induction 1 as [|[en frame] gaps Hh _ IH]; intros rest self.
  - exists self. cbn [app map]. repeat split.
    destruct (run sqrt v rest self) as [[? ?] ?]. reflexivity.
  - cbn [snd] in Hh. cbn [app run map].
    rewrite run_frame_no_hand by exact Hh.
    destruct (IH rest (set_enabled en self)) as (s' & E & Hv & Hc).
    exists s'. rewrite E. cbn [outcome final calls fst snd].
    repeat split; assumption.
Qed.

(** Frames without a hand leave the scroll anchor alone.  When the hand is
    lost during a scroll and comes back on the scroll gesture, the first
    frame scrolls by the movement since the frame before the loss. *)
Theorem hand_loss_keeps_scroll_anchor
    (v : Variant) (self : HandMouseController)
    (gaps : list (bool * Frame)) (frame : Frame)
    (hand : NormalizedLandmarkList) (previous : Z) :
  Forall (fun p => multi_hand_landmarks (snd p) = None) gaps ->
  multi_hand_landmarks frame = Some hand ->
  scroll_gesture sqrt frame hand = true ->
  scroll_y_prev self = Some previous ->
  scroll_sensitivity self <> 0 ->
  let delta := Py.int (y (landmark hand 8) * inject_Z (screen_height self))
               - previous in
  exists last,
    calls (run sqrt v (gaps ++ [(true, frame)]) self)
    = map (fun _ => []) gaps ++ [last]
    /\ filter is_scroll last
       = if Z.abs delta >? scroll_threshold self
         then [scroll (- Z.quot delta (scroll_sensitivity self)
                       * scroll_multiplier self)]
         else [].
Proof.
  intros Hg Hh Hs Hp Hsens delta.
  destruct (run_without_hands v gaps Hg [(true, frame)] self)
    as (s' & E & Hv & Hc).
  rewrite E. cbn [calls snd run].
  unfold scroll_view in Hv. injection Hv as _ Hprev.
  unfold config_view in Hc. cbn [enabled screen_width screen_height
    left_click_threshold right_click_threshold scroll_threshold
    scroll_sensitivity scroll_multiplier margin start_smooth_distance
    min_distance max_distance min_smoothing max_smoothing set_enabled] in Hc.
  injection Hc as EW EH _ _ Ethr Esens Emult _ _ _ _ _ _.
  assert (Hsens' : scroll_sensitivity (set_enabled true s') <> 0)
    by (cbn; congruence).
  destruct (run_frame_scroll_gesture sqrt v frame hand (set_enabled true s')
              Hh Hsens' Hs) as (_ & _ & Hcalls).
  cbn [scroll_y_prev screen_height scroll_threshold scroll_sensitivity
       scroll_multiplier enabled set_enabled] in Hcalls.
  rewrite Hprev, Hp, EH, Ethr, Esens, Emult in Hcalls.
  cbv zeta in Hcalls. fold delta in Hcalls. rewrite andb_true_r in Hcalls.
  destruct (run_frame sqrt v frame (set_enabled true s')) as [[[u|e] s2] out];
    cbn [calls snd] in Hcalls |- *; exists out; split;
    try reflexivity; exact Hcalls.
Qed.

End HandLoss.

(** The same on a sample input. *)
Lemma hand_loss_keeps_scroll_anchor_witness :
  exists last,
    calls (run Sample.sqrt MainV1
             ([(true, Sample.vga None); (false, Sample.vga None)]
              ++ [(true, Sample.vga (Some (Sample.scroll_hand (1 # 2))))])
             (Sample.coarse_scroll 500))
    = map (fun _ => []) [(true, Sample.vga None); (false, Sample.vga None)]
      ++ [last]
    /\ filter is_scroll last = [scroll (-8)].
Proof.
  apply (hand_loss_keeps_scroll_anchor Sample.sqrt MainV1
           (Sample.coarse_scroll 500)
           [(true, Sample.vga None); (false, Sample.vga None)]
           (Sample.vga (Some (Sample.scroll_hand (1 # 2))))
           (Sample.scroll_hand (1 # 2)) 500).
  - repeat constructor.
  - reflexivity.
  - reflexivity.
  - reflexivity.
  - simpl. lia.
Defined.

(** ** The enabled flag *)

Lemma valueChanged_enabled s val c :
  enabled (valueChanged s val c) = enabled c.
Proof. destruct s; reflexivity. Qed.

Section EnabledFlag.
Variable sqrt : Q -> Q.

(** A frame processed disabled makes no call. *)
Lemma run_frame_disabled v frame self :
  enabled self = false ->
  calls (run_frame sqrt v frame self) = []
  /\ enabled (final (run_frame sqrt v frame self)) = false.
Proof.
  intros He.
  assert (H : hoare (fun s => enabled s = false) (fun _ => False)
                (run_frame sqrt v frame) anything).
  { apply hoare_run_frame with (R1 := anything) (R2 := anything).
    - intros. apply scroll_block_disabled.
    - intros s0 hand _ _ m fw fh. unfold smooth_and_move. destruct v.
      + apply hoare_move_block_MainV1.
        * intros s p Hs. exact Hs.
        * intros s a b Hs Ht. congruence.
      + intros s Hs.
        eapply meets_bind;
          [ apply hoare_adaptive_smoothing; exact Hs
          | intros sm s1 Hs1 _
          | intros; exact Logic.I ].
        apply hoare_move_block_mouse9; [|exact Hs1].
        intros s2 Hs2 Ht. congruence.
    - intros d1 d2 d3 s Hs. rewrite click_blocks_eq, Hs, !edge_same.
      unfold meets. cbn. repeat split; [exact Hs | constructor].
    - intros; exact Logic.I.
    - intros; exact Logic.I.
    - exact Logic.I. }
  destruct (H self He) as (HI & HQ & _). split; [|exact HI].
  destruct (calls (run_frame sqrt v frame self)) as [|c l]; [reflexivity|].
  inversion HQ as [|? ? Hc _]. contradiction.
Qed.

(** Disabled, a loop iteration makes no call at all.  After Ctrl+Q is
    pressed on an enabled engine, no frame makes a call until it is
    pressed again, whatever sliders are moved meanwhile. *)
Theorem disabled_engine_makes_no_call (v : Variant) :
  (forall self frame,
     enabled self = false -> calls (run_frame sqrt v frame self) = [])
  /\ (forall events controller,
        enabled controller = true ->
        Forall (fun e => e <> HotkeyPressed) events ->
        Forall (eq [])
               (calls (session sqrt v (HotkeyPressed :: events) controller))).
Proof.
  split; [intros self frame He; apply run_frame_disabled; exact He|].
  intros events controller He Hev. cbn [session].
  assert (Hd : enabled (toggleEnabled controller) = false)
    by (unfold toggleEnabled; cbn; now rewrite He).
  revert Hd. generalize (toggleEnabled controller) as c.
  induction Hev as [|e events Hne _ IH]; intros c Hd; [constructor|].
  destruct e as [s val| |frame]; cbn [session].
  - apply IH. now rewrite valueChanged_enabled.
  - congruence.
  - destruct (run_frame_disabled v frame c Hd) as [Hc Hf].
    destruct (run_frame sqrt v frame c) as [[[u|e] c'] out];
      cbn [final calls fst snd] in Hc, Hf; subst out.
    + specialize (IH c' Hf).
      destruct (session sqrt v events c') as [[r c''] outs].
      cbn [calls snd] in IH |- *. constructor; [reflexivity | exact IH].
    + cbn. repeat constructor.
Qed.

(** In [MainV1.py] a frame with a hand off the scroll gesture appends the
    mapped point to the history whether the engine is enabled or not (the
    sizes of the sensing rectangle not being 0): the points seen while
    disabled weigh on the first moves after it is enabled again. *)
Theorem history_records_every_pointing_frame
    (self : HandMouseController) (frame : Frame)
    (hand : NormalizedLandmarkList) :
  multi_hand_landmarks frame = Some hand ->
  scroll_gesture sqrt frame hand = false ->
  let m := margin self in
  let fw := frame_width frame in
  let fh := frame_height frame in
  fw - m - m <> 0 -> fh - m - m <> 0 ->
  exists mapped_x mapped_y,
    roi_mapping (landmark hand 8) fw fh m m (fw - m) (fh - m)
                (fw - m - m) (fh - m - m) self
    = (Ok (mapped_x, mapped_y), self, [])
    /\ smooth_queue (final (run_frame sqrt MainV1 frame self))
       = deque_append (smooth_queue self) (mapped_x, mapped_y).
Proof.
  intros Hh Hg m fw fh Hw Hh'.
  destruct (roi_mapping_ok (landmark hand 8) fw fh m m (fw - m) (fh - m)
              (fw - m - m) (fh - m - m) self Hw Hh') as (mx & my & Hr).
  exists mx, my. split; [exact Hr|].
  rewrite (run_frame_no_gesture sqrt MainV1 frame hand self Hh Hg).
  cbv zeta. fold m fw fh.
  set (s1 := set_scroll_y_prev None (set_scroll_mode false self)).
  assert (Hr1 : roi_mapping (landmark hand 8) fw fh m m (fw - m) (fh - m)
                  (fw - m - m) (fh - m - m) s1 = (Ok (mx, my), s1, [])).
  { rewrite roi_mapping_eq in Hr |- * by assumption.
    injection Hr as <- <-. reflexivity. }
  destruct (move_block_MainV1_ok _ _ _ _ _ _ _ _ _ s1 _ _ eq_refl Hr1)
    as (a & b & q & Hsc & Hmv).
  rewrite smooth_coordinates_eq in Hsc. injection Hsc as _ _ Hq.
  unfold smooth_and_move.
  destruct (bind_quiet_r smooth_queue (fun _ => false)
              (move_block_MainV1 (landmark hand 8) fw fh m m (fw - m)
                 (fh - m) (fw - m - m) (fh - m - m))
              (fun _ => click_blocks (thumb_index_dist_of sqrt frame hand)
                          (thumb_middle_dist_of sqrt frame hand)
                          (close_dist_of sqrt frame hand)) s1) as [Hf _].
  { intros _. apply click_blocks_footprint; reflexivity. }
  rewrite Hf, Hmv. cbn [final fst snd smooth_queue set_smooth_queue].
  rewrite <- Hq. reflexivity.
Qed.
End EnabledFlag.

(** The same on a sample input. *)
Lemma disabled_engine_makes_no_call_witness :
  calls (run_frame Sample.sqrt mouse9 (Sample.vga (Some (Sample.pinch 20)))
           (set_enabled false (init mouse9 1920 1080))) = []
  /\ Forall (eq [])
       (calls (session Sample.sqrt mouse9
                 [HotkeyPressed; SliderMoved left_threshold_slider 50;
                  FrameRead (Sample.vga (Some (Sample.pinch 20)))]
                 (init mouse9 1920 1080))).
Proof.
  split.
  - apply (proj1 (disabled_engine_makes_no_call Sample.sqrt mouse9)).
    reflexivity.
  - apply (proj2 (disabled_engine_makes_no_call Sample.sqrt mouse9)
             [SliderMoved left_threshold_slider 50;
              FrameRead (Sample.vga (Some (Sample.pinch 20)))]).
    + reflexivity.
    + repeat constructor; discriminate.
Defined.

(** The same on a sample input. *)
Lemma history_records_every_pointing_frame_witness :
  exists mapped_x mapped_y,
    roi_mapping (landmark (Sample.pinch 20) 8) 640 480 100 100 540 380 440 280
                (set_enabled false (init MainV1 1920 1080))
    = (Ok (mapped_x, mapped_y), set_enabled false (init MainV1 1920 1080), [])
    /\ smooth_queue
         (final (run_frame Sample.sqrt MainV1
                   (Sample.vga (Some (Sample.pinch 20)))
                   (set_enabled false (init MainV1 1920 1080))))
       = deque_append [] (mapped_x, mapped_y).
Proof.
  apply (history_records_every_pointing_frame Sample.sqrt
           (set_enabled false (init MainV1 1920 1080))
           (Sample.vga (Some (Sample.pinch 20))) (Sample.pinch 20)
           eq_refl eq_refl); simpl; lia.
Defined.

(** ** Sessions *)

Lemma settings_ok_config s s' :
  config_view s' = config_view s -> settings_ok s -> settings_ok s'.
Proof.
  unfold config_view, settings_ok. intros E.
  injection E as _ _ _ -> -> -> -> -> -> -> -> _ -> ->. auto.
Qed.

Lemma settings_ok_valueChanged v s val c :
  possible v (SliderMoved s val) -> settings_ok c ->
  settings_ok (valueChanged s val c).
Proof.
  intros [_ Hr] H. unfold in_range in Hr.
  unfold settings_ok in *.
  destruct H as (H1 & H2 & H3 & H4 & H5 & H6 & H7 & H8 & H9 & H10).
  destruct s; cbn in Hr |- *; repeat split; try lia; try tauto.
  - apply Qle_shift_div_l; [reflexivity|].
    assert (inject_Z 1 <= inject_Z val)%Q by (rewrite <- Zle_Qle; lia).
    change (inject_Z 1) with 1%Q in *. lra.
  - apply Qle_shift_div_r; [reflexivity|].
    assert (inject_Z val <= inject_Z 100)%Q by (rewrite <- Zle_Qle; lia).
    change (inject_Z 100) with 100%Q in *. lra.
Qed.

Lemma settings_ok_toggle c : settings_ok c -> settings_ok (toggleEnabled c).
Proof. intro H. exact H. Qed.

Lemma settings_ok_init v w h : settings_ok (init v w h).
Proof.
  unfold settings_ok. destruct v; cbn; repeat split; try lia; try lra;
    try discriminate.
Qed.

Section Sessions.
Variable sqrt : Q -> Q.

(** From the object [__init__] builds, whatever sliders are moved within
    their ranges, however often Ctrl+Q is pressed and whatever frames are
    read, the settings stay within the ranges of the sliders and the
    attributes without a slider keep their initial values. *)
Theorem settings_stay_in_range
    (v : Variant) (width height : Z) (events : list Event) :
  Forall (possible v) events ->
  settings_ok (final (session sqrt v events (init v width height))).
Proof.
  intros Hev. generalize (settings_ok_init v width height).
  generalize (init v width height) as c.
  induction Hev as [|e events He _ IH]; intros c Hc; [exact Hc|].
  destruct e as [s val| |frame]; cbn [session].
  - apply IH. eapply settings_ok_valueChanged; eassumption.
  - apply IH. apply settings_ok_toggle. exact Hc.
  - pose proof (run_frame_quiet_config sqrt v frame c) as [Hcfg _].
    destruct (run_frame sqrt v frame c) as [[[u|e] c'] out];
      cbn [final fst snd] in Hcfg.
    + specialize (IH c' (settings_ok_config _ _ Hcfg Hc)).
      destruct (session sqrt v events c') as [[r c''] outs]. exact IH.
    + cbn. eapply settings_ok_config; eassumption.
Qed.

(** The history never holds more than 15 points, over any session. *)
Theorem history_never_exceeds_its_capacity
    (v : Variant) (events : list Event) (controller : HandMouseController) :
  (length (smooth_queue controller) <= maxlen)%nat ->
  (length (smooth_queue (final (session sqrt v events controller)))
   <= maxlen)%nat.
Proof.
  revert controller.
  induction events as [|e events IH]; intros c Hc; [exact Hc|].
  destruct e as [s val| |frame]; cbn [session].
  - apply IH. destruct s; exact Hc.
  - apply IH. exact Hc.
  - destruct (run_frame_queue_bounded sqrt v frame c Hc) as (Hq & _).
    destruct (run_frame sqrt v frame c) as [[[u|e] c'] out];
      cbn [final fst snd] in Hq.
    + specialize (IH c' Hq).
      destruct (session sqrt v events c') as [[r c''] outs]. exact IH.
    + exact Hq.
Qed.

(** From the object [__init__] builds, with sliders moved within their
    ranges between frames, no loop iteration divides by zero and every
    frame read is processed, provided no frame is exactly 200 pixels wide
    or high (an empty sensing rectangle) and the minimum-distance slider
    is not moved to 100 (where it can meet the start distance). *)
Theorem worker_survives_harmless_sessions
    (v : Variant) (width height : Z) (events : list Event) :
  Forall (possible v) events -> Forall harmless events ->
  let r := session sqrt v events (init v width height) in
  outcome r = Ok tt /\ length (calls r) = frames_read events.
Proof.
  intros Hp Hh.
  set (J := fun c => settings_ok c /\ min_distance c < 100).
  assert (HJ : J (init v width height)).
  { split; [apply settings_ok_init | destruct v; cbn; lia]. }
  revert HJ. generalize (init v width height) as c.
  induction events as [|e events IH]; intros c HJ r; subst r;
    [split; reflexivity|].
  inversion Hp as [|? ? Hpe Hp']; subst.
  inversion Hh as [|? ? Hhe Hh']; subst.
  specialize (IH Hp' Hh').
  destruct HJ as [Hok Hlt].
  destruct e as [s val| |frame]; cbn [session].
  - apply IH. split; [eapply settings_ok_valueChanged; eassumption|].
    destruct Hpe as [_ Hr]. unfold in_range in Hr.
    destruct Hok as (_ & _ & _ & _ & _ & _ & Hmd & Hst & _).
    destruct s; cbn in Hr, Hhe |- *; lia.
  - apply IH. split; assumption.
  - pose proof (run_frame_quiet_config sqrt v frame c) as [Hcfg _].
    assert (Ho : outcome (run_frame sqrt v frame c) = Ok tt).
    { destruct Hok as (_ & _ & Hs & _ & _ & Hm & _ & Hst & _).
      destruct Hhe as [Hw Hh0].
      apply run_frame_ok; rewrite ?Hm; lia. }
    destruct (run_frame sqrt v frame c) as [[[u|e] c'] out];
      cbn [final outcome fst snd] in Hcfg, Ho; [|discriminate].
    assert (HJ' : J c').
    { split; [eapply settings_ok_config; eassumption|].
      unfold config_view in Hcfg.
      injection Hcfg as _ _ _ _ _ _ _ _ _ Est Emd _ _ _. lia. }
    specialize (IH c' HJ'). cbv zeta in IH.
    destruct (session sqrt v events c') as [[r c''] outs].
    cbn [outcome calls fst snd] in IH |- *. destruct IH as [-> Hlen].
    split; [reflexivity|]. unfold frames_read in *. cbn. now rewrite Hlen.
Qed.
End Sessions.

(** The same on a sample input. *)
Lemma settings_stay_in_range_witness :
  settings_ok
    (final (session Sample.sqrt mouse9
              [SliderMoved max_smoothing_slider 100; HotkeyPressed;
               FrameRead (Sample.vga (Some (Sample.pinch 20)));
               SliderMoved min_dist_slider 100;
               SliderMoved start_smooth_distance_slider 100]
              (init mouse9 1920 1080))).
Proof.
  apply (settings_stay_in_range Sample.sqrt mouse9 1920 1080).
  repeat constructor; unfold in_range; simpl; lia.
Defined.

(** The same on a sample input. *)
Lemma history_never_exceeds_its_capacity_witness :
  (length
     (smooth_queue
        (final (session Sample.sqrt MainV1
                  [FrameRead (Sample.vga (Some (Sample.pinch 20)));
                   FrameRead (Sample.vga (Some (Sample.pinch 80)))]
                  (init MainV1 1920 1080))))
   <= maxlen)%nat.
Proof.
  apply (history_never_exceeds_its_capacity Sample.sqrt MainV1).
  simpl. unfold maxlen. lia.
Defined.

(** The same on a sample input. *)
Lemma worker_survives_harmless_sessions_witness :
  let r := session Sample.sqrt mouse9
             [SliderMoved scroll_sens_slider 20; HotkeyPressed;
              FrameRead (Sample.vga (Some (Sample.pinch 20)));
              SliderMoved min_dist_slider 99;
              FrameRead (Sample.vga None)]
             (init mouse9 1920 1080) in
  outcome r = Ok tt /\ length (calls r) = 2%nat.
Proof.
  apply (worker_survives_harmless_sessions Sample.sqrt mouse9 1920 1080).
  - repeat constructor; unfold in_range; simpl; lia.
  - repeat constructor; simpl; lia.
Defined.
